(** * ParCorrWLS: weighted partial-correlation test (tigramite)

    A shallow embedding of [tigramite/independence_tests/parcorr_wls.py].

    - Scalars: the code computes on numpy float64.  The embedding is written
      once over an interface of scalar operations ([Float64Ops]) and used at
      two instances: [binary64] (IEEE 754 double, from [SpecFloat], with
      signed zeros, infinities and NaN) and [exactR] (the reals, the exact
      arithmetic that float64 approximates).
    - numpy array helpers ([np.sum], [np.dot], [np.convolve], ...) are
      written out on lists; [np.sum] adds pairwise, as numpy does, and dot
      products add their terms in index order.
    - Functions of other libraries and modules that the class only calls
      ([np.linalg.lstsq], [np.argsort], [np.log], the data frame's
      [construct_array], [RobustParCorr.trafo2normal]) are section variables;
      [construct_array] returns three or four values, and [np.argsort] is
      also written out ([NumpySort]) for the concrete inputs.
    - The object's attributes, the arrays it is handed and the warnings it
      emits live in a [World]; a method is a function [World -> result * World],
      so that what was mutated before an exception is still visible. *)

From Stdlib Require Import ZArith List String Reals Lra Lia Bool.
From Stdlib Require Import SpecFloat.
From stdpp Require Import base option list gmap.

Local Open Scope Z_scope.
Set Warnings "-register-all".
Set Default Proof Using "Type".


(** ** Python exceptions and results *)

Inductive pyexn :=
| ValueError (msg : string)
| TypeError
| AttributeError
| IndexError
| KeyError
| ZeroDivisionError
| LinAlgError.

Inductive result (A : Type) :=
| Ok (a : A)
| Raise (e : pyexn).
Arguments Ok {A} a.
Arguments Raise {A} e.

Definition rbind {A B} (r : result A) (k : A -> result B) : result B :=
  match r with
  | Ok a => k a
  | Raise e => Raise e
  end.

Declare Scope py_scope.
Delimit Scope py_scope with py.
Notation "'let?' x ':=' r 'in' k" := (rbind r (fun x => k))
  (at level 10, x pattern, r at level 100, k at level 200) : py_scope.
Local Open Scope py_scope.

Definition is_ok {A} (r : result A) : bool :=
  match r with Ok _ => true | Raise _ => false end.

(** ** Python values that can be stored as expert knowledge *)

Inductive pyval :=
| PyNone
| PyInt (z : Z)
| PyStr (s : string)
| PyTuple (l : list pyval)
| PyList (l : list pyval).

(** The attribute [expert_knowledge] holds either a dict keyed by variable
    index or some other Python value. *)
Inductive ek_obj :=
| EkVal (v : pyval)
| EkDict (m : gmap Z pyval).

Definition TIME_DEPENDENT : string := "time-dependent heteroskedasticity"%string.
Definition HOMOSKEDASTICITY : string := "homoskedasticity"%string.

(** [self.expert_knowledge == "<literal>"] *)
Definition ek_eq_str (ek : ek_obj) (s : string) : bool :=
  match ek with
  | EkVal (PyStr s') => String.eqb s' s
  | _ => false
  end.

(** [hs_source == "<literal>"] *)
Definition py_eq_str (v : pyval) (s : string) : bool :=
  match v with
  | PyStr s' => String.eqb s' s
  | _ => false
  end.

(** [type(v) is tuple] *)
Definition py_is_tuple (v : pyval) : bool :=
  match v with
  | PyTuple _ => true
  | _ => false
  end.

(** Python indexing [l[i]] of a sequence: negative indices count from the
    end, out of range raises [IndexError]. *)
Definition py_index {A} (l : list A) (i : Z) : result A :=
  let n := Z.of_nat (length l) in
  let i' := if i <? 0 then i + n else i in
  if (i' <? 0) || (n <=? i') then Raise IndexError
  else match l !! Z.to_nat i' with
       | Some x => Ok x
       | None => Raise IndexError
       end.

(** [v[i]] on a Python value. *)
Definition py_getitem (v : pyval) (i : Z) : result pyval :=
  match v with
  | PyTuple l | PyList l => py_index l i
  | PyStr s =>
      let? c := py_index (list_ascii_of_string s) i in
      Ok (PyStr (String c EmptyString))
  | PyNone | PyInt _ => Raise TypeError
  end.

(** Python slice bounds and [l[start:stop]] with step 1. *)
Definition slice_bound (n i : Z) : Z :=
  if i <? 0 then Z.max (i + n) 0 else Z.min i n.

Definition py_slice {A} (l : list A) (start stop : Z) : list A :=
  let n := Z.of_nat (length l) in
  let s := slice_bound n start in
  let e := slice_bound n stop in
  take (Z.to_nat (e - s)) (drop (Z.to_nat s) l).

(** [l[start:]] *)
Definition py_slice_from {A} (l : list A) (start : Z) : list A :=
  drop (Z.to_nat (slice_bound (Z.of_nat (length l)) start)) l.

(** ** Scalars *)

Class Float64Ops (F : Type) := {
  fzero : F;
  fone : F;
  fadd : F -> F -> F;
  fsub : F -> F -> F;
  fmul : F -> F -> F;
  fdiv : F -> F -> F;
  fabs : F -> F;
  fsqrt : F -> F;
  fisnan : F -> bool;          (* np.isnan *)
  feqb : F -> F -> bool;       (* == *)
  fleb : F -> F -> bool;       (* <= *)
  of_int : Z -> F;             (* int -> float64 conversion *)
}.

Definition prec : Z := 53.
Definition emax : Z := 1024.

#[export] Instance binary64 : Float64Ops spec_float := {|
  fzero := S754_zero false;
  fone := SFone prec emax;
  fadd := SFadd prec emax;
  fsub := SFsub prec emax;
  fmul := SFmul prec emax;
  fdiv := SFdiv prec emax;
  fabs := SFabs;
  fsqrt := SFsqrt prec emax;
  fisnan := fun x => match x with S754_nan => true | _ => false end;
  feqb := SFeqb;
  fleb := SFleb;
  of_int := fun z => binary_normalize prec emax z 0 false;
|}.

Definition Reqb (x y : R) : bool := if Req_dec_T x y then true else false.
Definition Rleb (x y : R) : bool := if Rle_dec x y then true else false.

#[export] Instance exactR : Float64Ops R := {|
  fzero := 0%R;
  fone := 1%R;
  fadd := Rplus;
  fsub := Rminus;
  fmul := Rmult;
  fdiv := Rdiv;
  fabs := Rabs;
  fsqrt := sqrt;
  fisnan := fun _ => false;
  feqb := Reqb;
  fleb := Rleb;
  of_int := IZR;
|}.

(** ** numpy helpers on lists *)

Section Numpy.
Context {F : Type} `{Float64Ops F}.

Definition shape0 (a : list (list F)) : Z := Z.of_nat (length a).
Definition shape1 (a : list (list F)) : Z := Z.of_nat (length (hd [] a)).

(** A 2-D array has rows of one length. *)
Definition rectangular (a : list (list F)) : Prop :=
  Forall (fun r => length r = length (hd [] a)) a.

Definition np_ones_nat (n : nat) : list F := replicate n fone.
Definition np_zeros_nat (n : nat) : list F := replicate n fzero.

(** [np.ones(n)] for a Python int [n]. *)
Definition np_ones (n : Z) : result (list F) :=
  if n <? 0 then Raise (ValueError "negative dimensions are not allowed")
  else Ok (np_ones_nat (Z.to_nat n)).

(** A sum accumulated in index order, as a dot product adds its terms. *)
Definition seq_sum (v : list F) : F := fold_left fadd v fzero.

(** [np.sum] adds pairwise (numpy's [pairwise_sum] of the add loop):
    fewer than 8 entries are added in index order; up to 128 entries are
    added into eight running sums [r[0..7]], entry [i] into [r[i mod 8]],
    which are combined as [((r0+r1)+(r2+r3))+((r4+r5)+(r6+r7))] before the
    entries past the last full block of eight are added in index order;
    longer vectors are split at [n/2] rounded down to a multiple of 8 and
    the sums of the two halves are added. *)
Fixpoint add_blocks (k : nat) (r a : list F) : list F :=
  match k with
  | O => r
  | S k' => add_blocks k' (zip_with fadd r (take 8 a)) (drop 8 a)
  end.

Definition combine_lanes (r : list F) : F :=
  match r with
  | [r0; r1; r2; r3; r4; r5; r6; r7] =>
      fadd (fadd (fadd r0 r1) (fadd r2 r3)) (fadd (fadd r4 r5) (fadd r6 r7))
  | _ => fzero
  end.

Definition block_sum (a : list F) : F :=
  let n := length a in
  let r := add_blocks (n / 8 - 1)%nat (take 8 a) (drop 8 a) in
  fold_left fadd (drop (n - n mod 8)%nat a) (combine_lanes r).

(** The recursion halves the vector, so [fuel] is never used up when it
    starts at the length (see [pairwise_sum_fuel]). *)
Fixpoint pairwise_sum_rec (fuel : nat) (a : list F) : F :=
  let n := length a in
  if Nat.ltb n 8 then fold_left fadd a fzero
  else if Nat.leb n 128 then block_sum a
  else match fuel with
       | O => block_sum a
       | S fuel' =>
           let n2 := (n / 2 - (n / 2) mod 8)%nat in
           fadd (pairwise_sum_rec fuel' (take n2 a))
                (pairwise_sum_rec fuel' (drop n2 a))
       end.

Definition pairwise_sum (a : list F) : F := pairwise_sum_rec (length a) a.

(** [np.sum] of a vector: the reduction starts from the identity [0.] and
    adds the pairwise sum of the entries to it.  (Recent versions of numpy
    start the loop for fewer than 8 entries at [-0.]; added to the initial
    [0.] that gives the same float.)  [np.sum] of a whole 2-D array (C
    order) adds its entries row after row as one vector. *)
Definition np_sum (v : list F) : F := fadd fzero (pairwise_sum v).
Definition np_sum_all (a : list (list F)) : F := np_sum (concat a).

(** [v.mean()] and [v.std()] (ddof = 0). *)
Definition np_mean (v : list F) : F :=
  fdiv (np_sum v) (of_int (Z.of_nat (length v))).
Definition np_std (v : list F) : F :=
  let m := np_mean v in
  fsqrt (np_mean (map (fun x => fmul (fsub x m) (fsub x m)) v)).

Definition np_abs (v : list F) : list F := map fabs v.
Definition np_reciprocal (v : list F) : list F := map (fdiv fone) v.
Definition vsub (u v : list F) : list F := zip_with fsub u v.

(** [np.diag(v)] *)
Definition np_diag (v : list F) : list (list F) :=
  imap (fun i x => <[i := x]> (np_zeros_nat (length v))) v.

Definition column (j : nat) (a : list (list F)) : list F :=
  map (fun r => nth j r fzero) a.

(** [np.fastCopyAndTranspose(a)] for [a] with [ncols] columns. *)
Definition transpose (ncols : nat) (a : list (list F)) : list (list F) :=
  map (fun j => column j a) (seq 0 ncols).

Definition vdot (u v : list F) : F := seq_sum (zip_with fmul u v).

Definition shapes_not_aligned : pyexn := ValueError "shapes not aligned".

(** [np.dot(A, v)], [np.dot(v, A)], [np.dot(A, B)] *)
Definition np_dot_mv (a : list (list F)) (v : list F) : result (list F) :=
  if forallb (fun r => Nat.eqb (length r) (length v)) a
  then Ok (map (fun r => vdot r v) a)
  else Raise shapes_not_aligned.

Definition np_dot_vm (v : list F) (a : list (list F)) : result (list F) :=
  if Nat.eqb (length v) (length a)
  then Ok (map (fun j => vdot v (column j a)) (seq 0 (length (hd [] a))))
  else Raise shapes_not_aligned.

Definition np_dot_mm (a b : list (list F)) : result (list (list F)) :=
  if forallb (fun r => Nat.eqb (length r) (length b)) a
  then Ok (map (fun r => map (fun j => vdot r (column j b))
                             (seq 0 (length (hd [] b)))) a)
  else Raise shapes_not_aligned.

(** [np.convolve(a, v, 'valid')]: the shorter argument slides over the
    longer one; an empty argument is an error. *)
Definition np_convolve_valid (a v : list F) : result (list F) :=
  if Nat.eqb (length a) 0 || Nat.eqb (length v) 0
  then Raise (ValueError "cannot be empty")
  else
    let '(a', v') := if Nat.ltb (length a) (length v) then (v, a) else (a, v) in
    Ok (map (fun i => vdot (take (length v') (drop i a')) (rev v'))
            (seq 0 (length a' - length v' + 1))).

(** [np.roll(v, k)] *)
Definition np_roll (v : list F) (k : Z) : list F :=
  match v with
  | [] => []
  | _ =>
      let n := length v in
      let s := Z.to_nat (k mod Z.of_nat n) in
      drop (n - s) v ++ take (n - s) v
  end.

(** [stds[count] = v]: assignment into a row of width [T] broadcasts a
    vector of length 1 and rejects any other length than [T]. *)
Definition broadcast_row (T : nat) (v : list F) : result (list F) :=
  if Nat.eqb (length v) T then Ok v
  else match v with
       | [x] => Ok (replicate T x)
       | _ => Raise (ValueError "could not broadcast input array")
       end.
End Numpy.

(** ** [np.argsort]

    [np.argsort(v)] with its default kind, ['quicksort'], as numpy's
    portable implementation runs it on the index array [tosort]
    (npysort, [aquicksort]): a partition of more than 17 entries is split
    around the median of its first, middle and last entry; shorter
    partitions are sorted by insertion; the smaller part is continued with
    and the larger one put on a stack.  A partition taken from the stack
    when the depth limit [2 * floor(log2 n)] is used up is sorted by
    heapsort, which is not modelled: no index vector is given then.
    Positions are integers ([pl - 1] occurs).  (Where numpy dispatches to a
    vectorized sort for the processor, ties may come out in another order;
    that sort is not stable either.) *)
Module NumpySort.
Section Quicksort.
Context {A : Type} (less : A -> A -> bool) (d : A) (v : list A).

(** [v[tosort[p]]] *)
Definition key (ts : list Z) (p : Z) : A :=
  nth (Z.to_nat (nth (Z.to_nat p) ts 0)) v d.

(** [INTP_SWAP(tosort[i], tosort[j])] *)
Definition swap (ts : list Z) (i j : Z) : list Z :=
  <[Z.to_nat i := nth (Z.to_nat j) ts 0]>
    (<[Z.to_nat j := nth (Z.to_nat i) ts 0]> ts).

(** [do { ++pi; } while (less(v[*pi], vp));] *)
Fixpoint scan_up (fuel : nat) (ts : list Z) (vp : A) (pi : Z) : Z :=
  match fuel with
  | O => pi
  | S fuel' =>
      let pi := pi + 1 in
      if less (key ts pi) vp then scan_up fuel' ts vp pi else pi
  end.

(** [do { --pj; } while (less(vp, v[*pj]));] *)
Fixpoint scan_down (fuel : nat) (ts : list Z) (vp : A) (pj : Z) : Z :=
  match fuel with
  | O => pj
  | S fuel' =>
      let pj := pj - 1 in
      if less vp (key ts pj) then scan_down fuel' ts vp pj else pj
  end.

(** [for (;;) { scan up; scan down; if (pi >= pj) break; swap; }] *)
Fixpoint partition_loop (fuel : nat) (ts : list Z) (vp : A) (pi pj : Z)
    : list Z * Z :=
  match fuel with
  | O => (ts, pi)
  | S fuel' =>
      let pi := scan_up (length ts) ts vp pi in
      let pj := scan_down (length ts) ts vp pj in
      if pj <=? pi then (ts, pi)
      else partition_loop fuel' (swap ts pi pj) vp pi pj
  end.

(** One quicksort partition of [tosort[pl..pr]]; returns the position of
    the pivot. *)
Definition partition (ts : list Z) (pl pr : Z) : list Z * Z :=
  let pm := pl + Z.shiftr (pr - pl) 1 in
  let ts := if less (key ts pm) (key ts pl) then swap ts pm pl else ts in
  let ts := if less (key ts pr) (key ts pm) then swap ts pr pm else ts in
  let ts := if less (key ts pm) (key ts pl) then swap ts pm pl else ts in
  let vp := key ts pm in
  let ts := swap ts pm (pr - 1) in
  let '(ts, pi) := partition_loop (length ts) ts vp pl (pr - 1) in
  (swap ts pi (pr - 1), pi).

(** [while (pj > pl && less(vp, v[*pk])) { *pj-- = *pk--; }] *)
Fixpoint shift_back (fuel : nat) (ts : list Z) (pl : Z) (vp : A) (pj : Z)
    : list Z * Z :=
  match fuel with
  | O => (ts, pj)
  | S fuel' =>
      if (pl <? pj) && less vp (key ts (pj - 1))
      then shift_back fuel'
             (<[Z.to_nat pj := nth (Z.to_nat (pj - 1)) ts 0]> ts) pl vp (pj - 1)
      else (ts, pj)
  end.

Definition insert_one (ts : list Z) (pl pi : Z) : list Z :=
  let vi := nth (Z.to_nat pi) ts 0 in
  let vp := nth (Z.to_nat vi) v d in
  let '(ts, pj) := shift_back (length ts) ts pl vp pi in
  <[Z.to_nat pj := vi]> ts.

(** [for (pi = pl + 1; pi <= pr; ++pi) { ... }] *)
Definition insertion_sort (ts : list Z) (pl pr : Z) : list Z :=
  fold_left (fun ts k => insert_one ts pl (pl + 1 + Z.of_nat k))
            (seq 0 (Z.to_nat (pr - pl))) ts.

(** The sort of [tosort[pl..pr]]; [popped] says that the partition was
    taken from the stack, which is where the depth limit is tested. *)
Fixpoint quicksort (fuel : nat) (popped : bool) (cdepth : Z) (ts : list Z)
    (pl pr : Z) : option (list Z) :=
  if popped && (cdepth <? 0) then None
  else if 16 <? pr - pl then
    match fuel with
    | O => None
    | S fuel' =>
        let '(ts, pi) := partition ts pl pr in
        if pi - pl <? pr - pi then
          match quicksort fuel' false (cdepth - 1) ts pl (pi - 1) with
          | Some ts => quicksort fuel' true (cdepth - 1) ts (pi + 1) pr
          | None => None
          end
        else
          match quicksort fuel' false (cdepth - 1) ts (pi + 1) pr with
          | Some ts => quicksort fuel' true (cdepth - 1) ts pl (pi - 1)
          | None => None
          end
    end
  else Some (insertion_sort ts pl pr).

Definition quicksort_argsort : option (list Z) :=
  let n := Z.of_nat (length v) in
  quicksort (length v) true (2 * Z.log2 n) (map Z.of_nat (seq 0 (length v)))
            0 (n - 1).

Definition argsort_by : list Z :=
  match quicksort_argsort with
  | Some ts => ts
  | None => []
  end.
End Quicksort.

(** The order of float64 in a sort: NaN is larger than every number. *)
Definition float_less {F : Type} `{Float64Ops F} (a b : F) : bool :=
  (fleb a b && negb (feqb a b)) || (fisnan b && negb (fisnan a)).

Definition argsort {F : Type} `{Float64Ops F} (v : list F) : list Z :=
  argsort_by float_less fzero v.
Definition argsort_int (v : list Z) : list Z := argsort_by Z.ltb 0 v.
End NumpySort.

(** [v[idx]] for an index array [idx]. *)
Fixpoint fancy_index {A} (v : list A) (idx : list Z) : result (list A) :=
  match idx with
  | [] => Ok []
  | i :: idx' =>
      let? x := py_index v i in
      let? xs := fancy_index v idx' in
      Ok (x :: xs)
  end.

(** [a[i] = row] *)
Definition assign_row {A} (a : list A) (i : Z) (row : A) : result (list A) :=
  let n := Z.of_nat (length a) in
  let i' := if i <? 0 then i + n else i in
  if (i' <? 0) || (n <=? i') then Raise IndexError
  else Ok (<[Z.to_nat i' := row]> a).

(** ** The test object and its world *)

(** A variable reference [(var, lag)]. *)
Definition node : Type := Z * Z.

(** What [_get_single_residuals] returns: [resid], or [(resid, mean)] when
    [return_means] is set ([mean] is [None] without conditions). *)
Inductive resid_out (F : Type) :=
| Resid (resid : list F)
| ResidMean (resid : list F) (mean : option (list F)).
Arguments Resid {F} resid.
Arguments ResidMean {F} resid mean.

Definition resid_of {F} (o : resid_out F) : list F :=
  match o with Resid r | ResidMean r _ => r end.

Section Model.
Context {F : Type} `{Float64Ops F}.

(** The data frame ([tigramite.data_processing.DataFrame]) is used through
    its attribute [N] and its method [construct_array] only. *)
Context {DF : Type}.
Variable df_N : DF -> nat.

(** The four values [(array, xyz, XYZ, data_type)] that the callers of
    [construct_array] unpack; [XYZ] is the triple of the cleaned node
    lists. *)
Record constructed := {
  ca_array : list (list F);
  ca_xyz : list Z;
  ca_XYZ : list node * list node * list node;
}.

(** What [construct_array] returns is a tuple: of the four values above,
    or of the three values [(array, xyz, data_type)], without the cleaned
    node lists. *)
Inductive returned :=
| Returned4 (c : constructed)
| Returned3 (array : list (list F)) (xyz : list Z).

Variable construct_array :
  DF -> list node -> list node -> list node ->
  Z (* tau_max *) -> option string (* mask_type *) ->
  bool (* return_cleaned_xyz *) -> string (* cut_off *) ->
  Z (* verbosity *) -> result returned.

(** [array, xyz, XYZ, data_type = ...]: a tuple of three values cannot be
    unpacked into four names. *)
Definition unpack4 (r : returned) : result constructed :=
  match r with
  | Returned4 c => Ok c
  | Returned3 _ _ =>
      Raise (ValueError "not enough values to unpack (expected 4, got 3)")
  end.

(** [a, b, c, d = df.construct_array(...)] *)
Definition construct_array4 (df : DF) (X Y Zc : list node) (tau_max : Z)
    (mt : option string) (return_cleaned_xyz : bool) (cut_off : string)
    (verb : Z) : result constructed :=
  let? r := construct_array df X Y Zc tau_max mt return_cleaned_xyz cut_off verb in
  unpack4 r.

(** [pp.DataFrame(gt_std_matrix, datatime=...)] *)
Variable pp_DataFrame : list (list F) -> result DF.
(** [np.linalg.lstsq(a, b, rcond=None)[0]] *)
Variable lstsq : list (list F) -> list F -> result (list F).
(** [np.argsort] on a float vector and on an index vector *)
Variable argsort : list F -> list Z.
Variable argsort_int : list Z -> list Z.
Variable np_log : F -> F.
(** [RobustParCorr.trafo2normal(self, array)] *)
Variable trafo2normal : list (list F) -> result (list (list F)).

Record ParCorrWLS := {
  gt_std_matrix : option (list (list F));
  expert_knowledge : ek_obj;
  window_size : Z;
  robustify : bool;
  stds : option (list (list F));
  data : option (list (list F));
  dataframe : DF;
  mask_type : option string;
  verbosity : Z;
}.

(** [__init__] stores its four arguments and starts with no weights and no
    data cache.  The attributes that [ParCorr.__init__] sets from the
    keyword arguments and the data frame that is attached before the first
    test are given here as further arguments. *)
Definition __init__ (gt : option (list (list F))) (ek : ek_obj) (w : Z)
    (rob : bool) (df : DF) (mt : option string) (verb : Z) : ParCorrWLS :=
  {| gt_std_matrix := gt; expert_knowledge := ek; window_size := w;
     robustify := rob; stds := None; data := None; dataframe := df;
     mask_type := mt; verbosity := verb |}.

(** Arrays are objects: [heap] maps a reference to the array's contents. *)
Record World := {
  self : ParCorrWLS;
  heap : gmap nat (list (list F));
  warnings : list string;
}.

Definition M (A : Type) : Type := World -> result A * World.

Definition ret {A} (a : A) : M A := fun w => (Ok a, w).
Definition raise {A} (e : pyexn) : M A := fun w => (Raise e, w).
Definition bind {A B} (m : M A) (k : A -> M B) : M B :=
  fun w => match m w with
           | (Ok a, w') => k a w'
           | (Raise e, w') => (Raise e, w')
           end.
Definition lift {A} (r : result A) : M A := fun w => (r, w).

Notation "x <- m ;; k" := (bind m (fun x => k))
  (at level 100, m at next level, right associativity).
Notation "m ;;; k" := (bind m (fun _ => k))
  (at level 100, right associativity).

Definition get_self {A} (f : ParCorrWLS -> A) : M A :=
  fun w => (Ok (f (self w)), w).
Definition set_self (f : ParCorrWLS -> ParCorrWLS) : M unit :=
  fun w => (Ok tt, {| self := f (self w); heap := heap w; warnings := warnings w |}).

Definition set_expert_knowledge (ek : ek_obj) (s : ParCorrWLS) : ParCorrWLS :=
  {| gt_std_matrix := gt_std_matrix s; expert_knowledge := ek;
     window_size := window_size s; robustify := robustify s;
     stds := stds s; data := data s; dataframe := dataframe s;
     mask_type := mask_type s; verbosity := verbosity s |}.
Definition set_stds (v : option (list (list F))) (s : ParCorrWLS) : ParCorrWLS :=
  {| gt_std_matrix := gt_std_matrix s; expert_knowledge := expert_knowledge s;
     window_size := window_size s; robustify := robustify s;
     stds := v; data := data s; dataframe := dataframe s;
     mask_type := mask_type s; verbosity := verbosity s |}.
Definition set_data (v : option (list (list F))) (s : ParCorrWLS) : ParCorrWLS :=
  {| gt_std_matrix := gt_std_matrix s; expert_knowledge := expert_knowledge s;
     window_size := window_size s; robustify := robustify s;
     stds := stds s; data := v; dataframe := dataframe s;
     mask_type := mask_type s; verbosity := verbosity s |}.

(** [warnings.warn(msg)] *)
Definition warn (msg : string) : M unit :=
  fun w => (Ok tt, {| self := self w; heap := heap w;
                      warnings := warnings w ++ [msg] |}).

(** Reading and writing the array behind a reference, and a new array. *)
Definition deref (l : nat) : M (list (list F)) :=
  fun w => match heap w !! l with
           | Some a => (Ok a, w)
           | None => (Raise TypeError, w)
           end.
Definition store (l : nat) (a : list (list F)) : M unit :=
  fun w => (Ok tt, {| self := self w; heap := <[l := a]> (heap w);
                      warnings := warnings w |}).
Definition alloc (a : list (list F)) : M nat :=
  fun w => let l := fresh (dom (heap w)) in
           (Ok l, {| self := self w; heap := <[l := a]> (heap w);
                     warnings := warnings w |}).

(** [for x in l: body(x)] *)
Fixpoint for_each {A} (l : list A) (body : A -> M unit) : M unit :=
  match l with
  | [] => ret tt
  | x :: l' => body x ;;; for_each l' body
  end.

Definition when (b : bool) (m : M unit) : M unit := if b then m else ret tt.

(** ** Operations on the expert knowledge *)

(** [self.expert_knowledge.items()]: the (key, value) pairs of a dict; any
    other value has no such method. *)
Definition ek_items (ek : ek_obj) : result (list pyval) :=
  match ek with
  | EkDict m => Ok (map (fun kv => PyTuple [PyInt kv.1; kv.2]) (map_to_list m))
  | EkVal _ => Raise AttributeError
  end.

(** [k in self.expert_knowledge] *)
Definition ek_contains (ek : ek_obj) (k : Z) : result bool :=
  match ek with
  | EkDict m => Ok (match m !! k with Some _ => true | None => false end)
  | EkVal (PyList l) | EkVal (PyTuple l) =>
      Ok (existsb (fun x => match x with PyInt z => z =? k | _ => false end) l)
  | EkVal _ => Raise TypeError
  end.

(** [self.expert_knowledge[k]] *)
Definition ek_lookup (ek : ek_obj) (k : Z) : result pyval :=
  match ek with
  | EkDict m => match m !! k with Some v => Ok v | None => Raise KeyError end
  | EkVal v => py_getitem v k
  end.

(** ** Smoothing *)

(** [np.concatenate((np.ones(w - 1), np.convolve(resid, np.ones(w), 'valid') / w))] *)
Definition smooth (w : Z) (resid : list F) : result (list F) :=
  let? pad := np_ones (w - 1) in
  let? kernel := np_ones w in
  let? conv := np_convolve_valid resid kernel in
  Ok (pad ++ map (fun x => fdiv x (of_int w)) conv).

(** The absolute OLS residuals of row [target_var] on rows [2..], shared by
    both estimators. *)
Definition abs_ols_resid (arr : list (list F)) (y : list F) : result (list F) :=
  let z := transpose (Z.to_nat (shape1 arr)) (drop 2 arr) in
  let? beta_hat := lstsq z y in
  let? mean := np_dot_mv z beta_hat in
  Ok (np_abs (vsub y mean)).

Definition _estimate_std_time (arr : list (list F)) (target_var : Z) : M (list F) :=
  let dim_z := shape0 arr - 2 in
  y <- lift (py_index arr target_var) ;;
  resid <- lift (if 0 <? dim_z then abs_ols_resid arr y else Ok (np_abs y)) ;;
  w <- get_self window_size ;;
  lift (smooth w resid).

(** [H[1] + target_lag] *)
Definition py_add_int (v : pyval) (k : Z) : result Z :=
  match v with
  | PyInt z => Ok (z + k)
  | _ => Raise TypeError
  end.

(** [self.data[H0, start:stop]] *)
Definition data_row_slice (d : option (list (list F))) (H0 : pyval)
    (T lag : Z) : result (list F) :=
  match d with
  | None => Raise AttributeError
  | Some d =>
      let start := Z.abs (shape1 d - T) in
      match H0 with
      | PyInt i =>
          let? row := py_index d i in
          Ok (py_slice row start lag)
      | _ => Raise IndexError
      end
  end.

(** [ordered_z_ind = np.argsort(h)] followed by
    [ordered_z_ind = ordered_z_ind * (ordered_z_ind > 0)] *)
Definition ordered_indices (h : list F) : list Z :=
  map (fun i => i * (if 0 <? i then 1 else 0)) (argsort h).

(** [truncate_resid = resid[np.abs(lag):]] and
    [sorted_resid = truncate_resid[ordered_z_ind]] *)
Definition sort_residuals (resid : list F) (lag : Z) (ordered_z_ind : list Z)
    : result (list F) :=
  let truncate_resid := py_slice_from resid (Z.abs lag) in
  fancy_index truncate_resid ordered_z_ind.

Definition _estimate_std_parent (arr : list (list F)) (target_var : Z)
    (target_lag : Z) (H : pyval) : M (list F) :=
  let T := shape1 arr in
  let dim_z := shape0 arr - 2 in
  y <- lift (py_index arr target_var) ;;
  w <- get_self window_size ;;
  if 0 <? dim_z then
    resid <- lift (abs_ols_resid arr y) ;;
    H1 <- lift (py_getitem H 1) ;;
    lag <- lift (py_add_int H1 target_lag) ;;
    (* order the residuals w.r.t. the heteroskedasticity-inducing parent *)
    H0 <- lift (py_getitem H 0) ;;
    d <- get_self data ;;
    h <- lift (data_row_slice d H0 T lag) ;;
    let ordered_z_ind := ordered_indices h in
    let revert_argsort := argsort_int ordered_z_ind in
    sorted_resid <- lift (sort_residuals resid lag ordered_z_ind) ;;
    (* smooth the nearest neighbour residuals *)
    variance_est_sorted <- lift (smooth w sorted_resid) ;;
    std_est <- lift (fancy_index variance_est_sorted revert_argsort) ;;
    let std_est := std_est ++ np_ones_nat (Z.to_nat (Z.abs lag)) in
    ret (np_roll std_est (Z.abs lag))
  else
    lift (smooth w (np_abs y)).

(** One turn of the loop of [_get_std_estimation]. *)
Definition estimate_row (array : list (list F)) (count : Z) (variable : node)
    (stds : list (list F)) : M (list (list F)) :=
  let T := Z.to_nat (shape1 array) in
  ek <- get_self expert_knowledge ;;
  known <- lift (ek_contains ek variable.1) ;;
  if known : bool then
    entry <- lift (ek_lookup ek variable.1) ;;
    hs_source <- lift (py_getitem entry 0) ;;
    if py_eq_str hs_source TIME_DEPENDENT then
      est <- _estimate_std_time array count ;;
      row <- lift (broadcast_row T est) ;;
      lift (assign_row stds count row)
    else if py_is_tuple hs_source then
      est <- _estimate_std_parent array count variable.2 hs_source ;;
      row <- lift (broadcast_row T est) ;;
      lift (assign_row stds count row)
    else ret stds
  else ret stds.

Definition _get_std_estimation (array : list (list F)) (X Y : list node)
    : M (list (list F)) :=
  let T := Z.to_nat (shape1 array) in
  let stds := [np_ones_nat T; np_ones_nat T] in
  x0 <- lift (py_index X 0) ;;
  y0 <- lift (py_index Y 0) ;;
  stds <- estimate_row array 0 x0 stds ;;
  stds <- estimate_row array 1 y0 stds ;;
  ret stds.

(** ** Weight estimation *)

(** The block of [_get_stds] that fills [self.data] with the rows of all
    variables at lag zero. *)
Definition build_data_cache (X Y : list node) (tau_max : Z) (cut_off : string)
    (verb : Z) : M unit :=
  df <- get_self dataframe ;;
  mt <- get_self mask_type ;;
  c <- lift (construct_array4 df X Y
               (map (fun i => (Z.of_nat i, 0)) (seq 0 (df_N df)))
               tau_max mt true cut_off verb) ;;
  let nodes := ca_array c in
  let '(X', Y', Z') := ca_XYZ c in
  set_self (set_data (Some (replicate (df_N df)
                              (np_zeros_nat (Z.to_nat (shape1 nodes)))))) ;;;
  let node_indices := X' ++ Y' ++ Z' in
  for_each (imap pair node_indices) (fun ij =>
    let '(index, j) := ij in
    if j.2 =? 0 then
      (* collect prepped array-data of all nodes at lag zero *)
      row <- lift (py_index nodes (Z.of_nat index)) ;;
      d <- get_self data ;;
      match d with
      | Some d =>
          d' <- lift (assign_row d j.1 row) ;;
          set_self (set_data (Some d'))
      | None => raise TypeError
      end
    else ret tt).

Definition _get_stds (array : list (list F)) (X Y Zc : list node)
    (tau_max : Z) (cut_off : string) (verb : Z) : M (option (list (list F))) :=
  gt <- get_self gt_std_matrix ;;
  match gt with
  | Some g =>
      stds_dataframe <- lift (pp_DataFrame g) ;;
      mt <- get_self mask_type ;;
      c <- lift (construct_array4 stds_dataframe X Y Zc tau_max mt true cut_off verb) ;;
      set_self (set_stds (Some (ca_array c))) ;;;
      ret None
  | None =>
      ek <- get_self expert_knowledge ;;
      (if ek_eq_str ek TIME_DEPENDENT then
         df <- get_self dataframe ;;
         set_self (set_expert_knowledge
           (EkDict (list_to_map
              (map (fun variable => (Z.of_nat variable, PyList [PyStr TIME_DEPENDENT]))
                   (seq 0 (df_N df))))))
       else if ek_eq_str ek HOMOSKEDASTICITY then
         set_self (set_expert_knowledge (EkDict ∅))
       else ret tt) ;;;
      ek <- get_self expert_knowledge ;;
      items <- lift (ek_items ek) ;;
      when (existsb py_is_tuple items)
           (build_data_cache X Y tau_max cut_off verb) ;;;
      (* estimate the weights based on expert knowledge *)
      stds <- _get_std_estimation array X Y ;;
      set_self (set_stds (Some stds)) ;;;
      ret (Some stds)
  end.

Definition _get_array (X Y Zc : list node) (tau_max : Z) (cut_off : string)
    (verb : Z) (return_cleaned_xyz : bool) : M constructed :=
  if (1 <? Z.of_nat (length X)) || (1 <? Z.of_nat (length Y)) then
    raise (ValueError "X and Y for par_corr_wls must be univariate.")
  else
    df <- get_self dataframe ;;
    mt <- get_self mask_type ;;
    c <- lift (construct_array4 df X Y Zc tau_max mt return_cleaned_xyz cut_off verb) ;;
    let array_copy := ca_array c in
    _get_stds array_copy X Y Zc tau_max cut_off verb ;;;
    ret c.

(** ** Weighted residuals *)

(** [self.stds[target_var]], with the fallback of the [except TypeError]. *)
Definition lookup_stds (target_var : Z) (T : Z) : M (list F) :=
  s <- get_self stds ;;
  match s with
  | Some s => lift (py_index s target_var)
  | None =>
      warn "No estimated or ground truth standard deviations supplied for weights. Assume homoskedasticity, i.e. all weights are 1." ;;;
      ret (np_ones_nat (Z.to_nat T))
  end.

(** The [if standardize:] block, on the array behind [arr]. *)
Definition standardize_in_place (arr : nat) : M unit :=
  array <- deref arr ;;
  (* array -= array.mean(axis=1).reshape(dim, 1) *)
  store arr (map (fun row => map (fun x => fsub x (np_mean row)) row) array) ;;;
  array <- deref arr ;;
  let std := map np_std array in
  for_each (imap pair std) (fun ist =>
    let '(i, std_i) := ist in
    if negb (feqb std_i fzero) then
      array <- deref arr ;;
      store arr (alter (map (fun x => fdiv x std_i)) i array)
    else ret tt) ;;;
  verb <- get_self verbosity ;;
  when (existsb (fun s => feqb s fzero) std && (0 <? verb))
       (warn "Possibly constant array!") ;;;
  array <- deref arr ;;
  if fisnan (np_sum_all array) then raise (ValueError "array has nans")
  else ret tt.

(** The rest of [_get_single_residuals], from
    [y = np.copy(array[target_var, :])] on; [T] and [dim_z] were read from
    the shape at the top of the function. *)
Definition weighted_regression (arr : nat) (T dim_z : Z) (stds : list F)
    (target_var : Z) (return_means : bool) : M (resid_out F) :=
  array <- deref arr ;;
  y <- lift (py_index array target_var) ;;
  let weights := np_diag (np_reciprocal stds) in
  if 0 <? dim_z then
    let z := transpose (Z.to_nat T) (drop 2 array) in
    (* include weights in z and y *)
    zw <- lift (np_dot_mm weights z) ;;
    yw <- lift (np_dot_vm y weights) ;;
    beta_hat <- lift (lstsq zw yw) ;;
    mean <- lift (np_dot_mv z beta_hat) ;;
    resid <- lift (np_dot_vm (vsub y mean) weights) ;;
    if fisnan (np_sum resid) then raise (ValueError "resid has nans")
    else ret (if return_means then ResidMean resid (Some mean) else Resid resid)
  else
    resid <- lift (np_dot_vm y weights) ;;
    ret (if return_means then ResidMean resid None else Resid resid).

Definition _get_single_residuals (arr : nat) (target_var : Z)
    (standardize return_means : bool) : M (resid_out F) :=
  array <- deref arr ;;
  let T := shape1 array in
  let dim_z := shape0 array - 2 in
  if fisnan (np_sum_all array) then raise (ValueError "array has nans")
  else
    stds <- lookup_stds target_var T ;;
    when standardize (standardize_in_place arr) ;;;
    weighted_regression arr T dim_z stds target_var return_means.

(** ** Shuffle test *)

(** [ParCorr.get_shuffle_significance(self, array, xyz, value,
    return_null_dist)], the method of the parent class; what it returns (a
    p-value, or a p-value with the null distribution) is left open. *)
Context {Sig : Type}.
Variable ParCorr_get_shuffle_significance :
  nat -> list Z -> F -> bool -> M Sig.

Definition get_shuffle_significance (array : nat) (xyz : list Z) (value : F)
    (return_null_dist : bool) : M Sig :=
  rob <- get_self robustify ;;
  array <- (if rob : bool then
              a <- deref array ;;
              a' <- lift (trafo2normal a) ;;
              alloc a'
            else ret array) ;;
  ParCorr_get_shuffle_significance array xyz value false.

(** ** Model selection *)

Definition get_model_selection_criterion (j : Z) (parents : list node)
    (tau_max : Z) (corrected_aic : bool) : M F :=
  let Y := [(j, 0)] in
  let X := [(j, 0)] in
  let Zc := parents in
  verb <- get_self verbosity ;;
  c <- _get_array X Y Zc tau_max "2xtau_max" verb false ;;
  let array := ca_array c in
  let dim := shape0 array in
  let T := shape1 array in
  rob <- get_self robustify ;;
  array <- (if rob : bool then lift (trafo2normal array) else ret array) ;;
  arr <- alloc array ;;
  out <- _get_single_residuals arr 1 false false ;;
  let y := resid_of out in
  (* Get RSS *)
  let rss := np_sum (map (fun x => fmul x x) y) in
  (* Number of parameters *)
  let p := dim - 1 in
  (* Get AIC *)
  if corrected_aic then
    if T - p - 1 =? 0 then raise ZeroDivisionError
    else ret (fadd (fadd (fmul (of_int T) (np_log rss))
                         (fmul (of_int 2) (of_int p)))
                   (fdiv (fadd (fmul (of_int 2) (of_int (p * p)))
                               (fmul (of_int 2) (of_int p)))
                         (of_int (T - p - 1))))
  else
    ret (fadd (fmul (of_int T) (np_log rss)) (fmul (of_int 2) (of_int p))).
End Model.

(** * Definitions used in the statements *)

Section Statements.
Context {F : Type} `{Float64Ops F} {DF : Type}.

(** The mean of a window, its entries added in index order (the order in
    which the convolution adds them). *)
Definition window_mean (v : list F) : F :=
  fdiv (seq_sum v) (of_int (Z.of_nat (length v))).

(** [(y**2).sum()] *)
Definition rss_of (y : list F) : F := np_sum (map (fun x => fmul x x) y).

(** What is returned: [resid], or [(resid, mean)] with [return_means]. *)
Definition mk_out (return_means : bool) (resid : list F) (mean : option (list F))
    : resid_out F :=
  if return_means then ResidMean resid mean else Resid resid.

(** Plain ordinary least squares, written from the specification: the
    target row is regressed on the conditioning rows (rows 2 and up)
    without weights and the residual is the target minus the fitted mean;
    without conditioning rows the residual is the target row itself. *)
Definition ols_residuals (lstsq : list (list F) -> list F -> result (list F))
    (a : list (list F)) (target_var : Z) (return_means : bool)
    : result (resid_out F) :=
  let? y := py_index a target_var in
  if 0 <? shape0 a - 2 then
    let z := transpose (Z.to_nat (shape1 a)) (drop 2 a) in
    let? beta_hat := lstsq z y in
    let? mean := np_dot_mv z beta_hat in
    Ok (mk_out return_means (vsub y mean) (Some mean))
  else
    Ok (mk_out return_means y None).

(** Standardization, row by row: subtract the row mean, then divide by the
    standard deviation of the centered row unless it compares equal to
    zero. *)
Definition center_row (row : list F) : list F :=
  map (fun x => fsub x (np_mean row)) row.
Definition scale_row (row : list F) : list F :=
  if negb (feqb (np_std row) fzero)
  then map (fun x => fdiv x (np_std row)) row
  else row.
Definition standardized (a : list (list F)) : list (list F) :=
  map (fun row => scale_row (center_row row)) a.

Definition set_heap (wd : World (F:=F) (DF:=DF)) (h : gmap nat (list (list F)))
    : World :=
  {| self := self wd; heap := h; warnings := warnings wd |}.

(** One turn of the scaling loop of the standardization, as a function on
    the array. *)
Definition scale_step (a : list (list F)) (ist : nat * F) : list (list F) :=
  if negb (feqb ist.2 fzero)
  then alter (map (fun x => fdiv x ist.2)) ist.1 a
  else a.
End Statements.

(** Weighted least squares over the reals, written with the weights
    [1 / stds[t]] applied entry by entry. *)
Definition weighted_residuals (lstsq : list (list R) -> list R -> result (list R))
    (a : list (list R)) (target_var : Z) (return_means : bool) (s : list R)
    : result (resid_out R) :=
  let v := np_reciprocal s in
  let? y := py_index a target_var in
  if 0 <? shape0 a - 2 then
    let z := transpose (Z.to_nat (shape1 a)) (drop 2 a) in
    let zw := zip_with (fun w row => map (Rmult w) row) v z in
    let yw := zip_with Rmult y v in
    let? beta_hat := lstsq zw yw in
    let? mean := np_dot_mv z beta_hat in
    Ok (mk_out return_means (zip_with Rmult (vsub y mean) v) (Some mean))
  else
    Ok (mk_out return_means (zip_with Rmult y v) None).

(** A result with its residual multiplied by [k]. *)
Definition scale_out (k : R) (o : resid_out R) : resid_out R :=
  match o with
  | Resid r => Resid (map (fun x => (x * k)%R) r)
  | ResidMean r m => ResidMean (map (fun x => (x * k)%R) r) m
  end.

Definition scale_result (k : R) (r : result (resid_out R)) : result (resid_out R) :=
  match r with
  | Ok o => Ok (scale_out k o)
  | Raise e => Raise e
  end.

(** * Concrete inputs on binary64 *)

Module Examples64.
(** float64 values of small integers and the infinities *)
Definition fl (z : Z) : spec_float := of_int z.
Definition pinf : spec_float := S754_infinity false.
Definition ninf : spec_float := S754_infinity true.

(** A solver that is never reached when there are no conditions. *)
Definition no_lstsq (a : list (list spec_float)) (b : list spec_float)
    : result (list spec_float) := Raise LinAlgError.

Definition test_object (ek : ek_obj) (w : Z)
    (s : option (list (list spec_float))) : ParCorrWLS (F:=spec_float) (DF:=unit) :=
  {| gt_std_matrix := None; expert_knowledge := ek; window_size := w;
     robustify := false; stds := s; data := None; dataframe := tt;
     mask_type := None; verbosity := 0 |}.

Definition world_of (o : ParCorrWLS (F:=spec_float) (DF:=unit))
    (h : gmap nat (list (list spec_float))) : World :=
  {| self := o; heap := h; warnings := [] |}.

(** X = (-1, 2, -3, 4), Y = (2, 2, 0, 1), no conditions, window 2 *)
Definition xy4 : list (list spec_float) :=
  [[fl (-1); fl 2; fl (-3); fl 4]; [fl 2; fl 2; fl 0; fl 1]].
End Examples64.

(** Standard deviations with a zero entry. *)
Module ZeroStd.
Import Examples64.

(** X = (1, 2), Y = (3, 4), one condition Z = (5, 6); the standard
    deviations of X are (0, 1). *)
Definition array : list (list spec_float) :=
  [[fl 1; fl 2]; [fl 3; fl 4]; [fl 5; fl 6]].
Definition stds_x : list spec_float := [fl 0; fl 1].
Definition wd : World (F:=spec_float) (DF:=unit) :=
  world_of (test_object (EkDict ∅) 10 (Some [stds_x; [fl 1; fl 1]]))
           {[ 0%nat := array ]}.

(** What the solver is handed: [zw = weights . z] and [yw = y . weights]. *)
Definition zw : list (list spec_float) := [[pinf]; [fl 6]].
Definition yw : list spec_float := [pinf; fl 2].

(** What the code does with the solver's answer. *)
Definition after_lstsq (beta_hat : list spec_float) : result (resid_out spec_float) :=
  let weights := np_diag (np_reciprocal stds_x) in
  let? mean := np_dot_mv [[fl 5]; [fl 6]] beta_hat in
  let? resid := np_dot_vm (vsub [fl 1; fl 2] mean) weights in
  if fisnan (np_sum resid) then Raise (ValueError "resid has nans")
  else Ok (Resid resid).
End ZeroStd.

(** A stand-in for the data frame: two variables observed at four times.
    Its [construct_array] serves lag 0 only: one row per node of X, Y and of
    the nodes of Z that are in neither; the cleaned node lists are part of
    what it returns only when they are asked for. *)
Module Dataset64.
Import Examples64.

Definition values : list (list spec_float) :=
  [[fl (-1); fl 2; fl (-3); fl 4]; [fl 2; fl 2; fl 0; fl 1]].

Definition node_eqb (a b : node) : bool := (a.1 =? b.1) && (a.2 =? b.2).
Definition node_in (a : node) (l : list node) : bool := existsb (node_eqb a) l.

Definition construct_array (df : unit) (X Y Zc : list node) (tau_max : Z)
    (mask_type : option string) (return_cleaned_xyz : bool) (cut_off : string)
    (verb : Z) : result (returned (F:=spec_float)) :=
  let Zc' := filter (fun n => negb (node_in n X) && negb (node_in n Y)) Zc in
  let array := map (fun n : node => nth (Z.to_nat n.1) values []) (X ++ Y ++ Zc') in
  let xyz := map (fun _ => 0) X ++ map (fun _ => 1) Y ++ map (fun _ => 2) Zc' in
  Ok (if return_cleaned_xyz
      then Returned4 {| ca_array := array; ca_xyz := xyz; ca_XYZ := (X, Y, Zc') |}
      else Returned3 array xyz).

Definition N (df : unit) : nat := 2.
Definition pp_DataFrame (g : list (list spec_float)) : result unit := Ok tt.
Definition argsort (h : list spec_float) : list Z := NumpySort.argsort h.
Definition argsort_int (h : list Z) : list Z := NumpySort.argsort_int h.

Definition get_stds := _get_stds N construct_array pp_DataFrame no_lstsq argsort argsort_int.
End Dataset64.

(** Driver values with ties. *)
Module TiedDrivers.
Import Examples64.

Definition argsort (h : list spec_float) : list Z := NumpySort.argsort h.

(** Driver values (2, 1, 1) with a tie, absolute residuals (9, 5, 6, 7),
    lag -1: the truncated residuals are (5, 6, 7). *)
Definition h : list spec_float := [fl 2; fl 1; fl 1].
Definition resid : list spec_float := [fl 9; fl 5; fl 6; fl 7].
Definition lag : Z := -1.
End TiedDrivers.

(** Eighteen driver values, six each of 1, 2 and 3; the absolute residuals
    are (0, 1, ..., 18) and the lag is -1, so that the truncated residual
    at position [i] is [i + 1]. *)
Module LongDrivers.
Import Examples64.

Definition h : list spec_float :=
  map fl [3; 1; 2; 1; 2; 3; 1; 2; 3; 1; 2; 3; 1; 2; 3; 1; 2; 3].
Definition resid : list spec_float := map (fun i => fl (Z.of_nat i)) (seq 0 19).
Definition lag : Z := -1.
End LongDrivers.

(** * Concrete inputs over the reals *)

(** The stand-in for the data frame again: two variables observed at three
    times, lag 0 only.  The solver is the closed form of least squares for
    a single regressor. *)
Module DatasetR.
Local Open Scope R_scope.

Definition values : list (list R) := [[1; 2; 4]; [1; 1; 2]].

Definition construct_array (df : unit) (X Y Zc : list node) (tau_max : Z)
    (mask_type : option string) (return_cleaned_xyz : bool) (cut_off : string)
    (verb : Z) : result (returned (F:=R)) :=
  let Zc' := filter (fun n => negb (Dataset64.node_in n X)
                              && negb (Dataset64.node_in n Y)) Zc in
  let array := map (fun n : node => nth (Z.to_nat n.1) values []) (X ++ Y ++ Zc') in
  let xyz := map (fun _ => 0%Z) X ++ map (fun _ => 1%Z) Y ++ map (fun _ => 2%Z) Zc' in
  Ok (if return_cleaned_xyz
      then Returned4 {| ca_array := array; ca_xyz := xyz; ca_XYZ := (X, Y, Zc') |}
      else Returned3 array xyz).

Definition N (df : unit) : nat := 2.
Definition pp_DataFrame (g : list (list R)) : result unit := Ok tt.
Definition argsort (h : list R) : list Z := NumpySort.argsort h.
Definition argsort_int (h : list Z) : list Z := NumpySort.argsort_int h.
Definition trafo2normal (a : list (list R)) : result (list (list R)) := Ok a.

(** [beta = <z, b> / <z, z>] for a design with the single column [z]. *)
Definition lstsq (a : list (list R)) (b : list R) : result (list R) :=
  let z := column 0 a in
  Ok [vdot z b / vdot z z].

Definition test_object (ek : ek_obj) (s : option (list (list R)))
    : ParCorrWLS (F:=R) (DF:=unit) :=
  {| gt_std_matrix := None; expert_knowledge := ek; window_size := 10;
     robustify := false; stds := s; data := None; dataframe := tt;
     mask_type := None; verbosity := 0 |}.

Definition world_of (o : ParCorrWLS (F:=R) (DF:=unit))
    (h : gmap nat (list (list R))) : World :=
  {| self := o; heap := h; warnings := [] |}.

(** X = variable 0, Y = variable 0, Z = variable 1 *)
Definition xyz : list (list R) := [[1; 2; 4]; [1; 2; 4]; [1; 1; 2]].
Definition ones3 : list R := [1; 1; 1].

Definition get_stds :=
  _get_stds N construct_array pp_DataFrame lstsq argsort argsort_int.
Definition get_array :=
  _get_array N construct_array pp_DataFrame lstsq argsort argsort_int.
Definition score :=
  get_model_selection_criterion N construct_array pp_DataFrame lstsq argsort
    argsort_int ln trafo2normal.
End DatasetR.

(** A run of the model selection score over the reals. *)
Module RunR.
Import DatasetR.
Local Open Scope R_scope.

(** The score is asked for variable 0 with the single parent (1, 0). *)
Definition wd : World (F:=R) (DF:=unit) :=
  world_of (test_object (EkVal (PyStr HOMOSKEDASTICITY)) None) ∅.
Definition parents : list node := [(1, 0)%Z].
End RunR.

(** * Further concrete inputs *)

(** A data frame that holds its values, one series per variable; as before
    [construct_array] serves lag 0 only.  A table of standard deviations of
    shape (T, nb_nodes) is turned into such a frame by transposing it.  The
    solver is the closed form of least squares for a single regressor. *)
Module Frames64.
Import Examples64.

Definition frame : Type := list (list spec_float).

Definition construct_array (df : frame) (X Y Zc : list node) (tau_max : Z)
    (mask_type : option string) (return_cleaned_xyz : bool) (cut_off : string)
    (verb : Z) : result (returned (F:=spec_float)) :=
  let Zc' := filter (fun n => negb (Dataset64.node_in n X)
                              && negb (Dataset64.node_in n Y)) Zc in
  let array := map (fun n : node => nth (Z.to_nat n.1) df []) (X ++ Y ++ Zc') in
  let xyz := map (fun _ => 0) X ++ map (fun _ => 1) Y ++ map (fun _ => 2) Zc' in
  Ok (if return_cleaned_xyz
      then Returned4 {| ca_array := array; ca_xyz := xyz; ca_XYZ := (X, Y, Zc') |}
      else Returned3 array xyz).

Definition N (df : frame) : nat := length df.
Definition pp_DataFrame (g : list (list spec_float)) : result frame :=
  Ok (transpose (length (hd [] g)) g).

Definition lstsq (a : list (list spec_float)) (b : list spec_float)
    : result (list spec_float) :=
  let z := column 0 a in
  Ok [fdiv (vdot z b) (vdot z z)].

Definition argsort_int (h : list Z) : list Z := NumpySort.argsort_int h.

(** Two variables observed at four times. *)
Definition values : frame :=
  [[fl (-1); fl 2; fl (-3); fl 4]; [fl 2; fl 2; fl 0; fl 1]].

(** A table of standard deviations for the two variables, of shape (4, 2). *)
Definition gt_table : list (list spec_float) :=
  [[fl 1; fl 2]; [fl 1; fl 2]; [fl 3; fl 1]; [fl 1; fl 1]].

(** X = variable 0, Y = variable 1, Z = variable 1 again as a third row. *)
Definition xyz : list (list spec_float) :=
  [[fl (-1); fl 2; fl (-3); fl 4]; [fl 2; fl 2; fl 0; fl 1];
   [fl 2; fl 2; fl 0; fl 1]].

Definition wd_ground_truth : World (F:=spec_float) (DF:=frame) :=
  {| self := __init__ (Some gt_table) (EkVal PyNone) 10 false values None 0;
     heap := ∅; warnings := [] |}.

(** A freshly constructed object with the default expert knowledge. *)
Definition wd_default (w : Z) : World (F:=spec_float) (DF:=frame) :=
  {| self := __init__ None (EkVal (PyStr TIME_DEPENDENT)) w false values None 0;
     heap := ∅; warnings := [] |}.

(** Variable 0 depends on variable 1 one step back; the cache is built. *)
Definition wd_parent (w : Z) : World (F:=spec_float) (DF:=frame) :=
  {| self := {| gt_std_matrix := None;
                expert_knowledge := EkDict {[ 0 := PyList [PyTuple [PyInt 1; PyInt (-1)]] ]};
                window_size := w; robustify := false; stds := None;
                data := Some values; dataframe := values;
                mask_type := None; verbosity := 0 |};
     heap := ∅; warnings := [] |}.

(** Unit weights for both rows of [xyz]. *)
Definition wd_unit_weights : World (F:=spec_float) (DF:=frame) :=
  {| self := {| gt_std_matrix := None; expert_knowledge := EkDict ∅;
                window_size := 10; robustify := false;
                stds := Some [[fl 1; fl 1; fl 1; fl 1]; [fl 1; fl 1; fl 1; fl 1]];
                data := None; dataframe := values;
                mask_type := None; verbosity := 0 |};
     heap := {[ 0%nat := xyz ]}; warnings := [] |}.
End Frames64.


(** * Facts about the helpers *)

Lemma py_index_Ok_lookup {A} (l : list A) (i : Z) (x : A) :
  py_index l i = Ok x ->
  exists k : nat, l !! k = Some x /\
    Z.of_nat k = (if i <? 0 then i + Z.of_nat (length l) else i).
Proof.
  unfold py_index. intros Hi.
  destruct (_ || _) eqn:Eb; [discriminate|].
  destruct (l !! _) as [x'|] eqn:E; [|discriminate].
  injection Hi as ->. eexists; split; [exact E|].
  apply orb_false_iff in Eb as [Eb _]. apply Z.ltb_ge in Eb.
  destruct (Z.ltb_spec i 0); lia.
Qed.

Lemma py_index_nonneg {A} (l : list A) (k : nat) (x : A) :
  l !! k = Some x -> py_index l (Z.of_nat k) = Ok x.
Proof.
  intros E. unfold py_index.
  pose proof (lookup_lt_Some _ _ _ E) as Hlt.
  assert (E1 : (Z.of_nat k <? 0) = false) by (apply Z.ltb_ge; lia).
  assert (E2 : (Z.of_nat (length l) <=? Z.of_nat k) = false)
    by (apply Z.leb_gt; lia).
  rewrite E1. simpl. rewrite E1, E2. simpl. by rewrite Nat2Z.id, E.
Qed.

Section SmoothFacts.
Context {F : Type} `{Float64Ops F}.

Lemma zip_with_fmul_ones (v : list F) (n : nat) :
  length v = n ->
  Forall (fun x => fmul x fone = x) v ->
  zip_with fmul v (replicate n fone) = v.
Proof.
  intros Hlen Hone. subst n. induction Hone as [|x v Hx _ IH]; simpl.
  - reflexivity.
  - by rewrite Hx, IH.
Qed.

Lemma rev_replicate {A} (n : nat) (x : A) : rev (replicate n x) = replicate n x.
Proof.
  induction n as [|n IH]; simpl; [done|].
  rewrite IH. clear IH. induction n as [|n IH]; simpl; [done|]. by rewrite IH.
Qed.

Lemma np_ones_ok (n : Z) :
  0 <= n -> np_ones (F:=F) n = Ok (replicate (Z.to_nat n) fone).
Proof. intros Hn. unfold np_ones. destruct (Z.ltb_spec n 0); [lia|done]. Qed.

(** The smoothing pads with [w - 1] ones and then holds the window means. *)
Lemma smooth_spec (w : Z) (resid : list F) :
  1 <= w <= Z.of_nat (length resid) ->
  Forall (fun x => fmul x fone = x) resid ->
  exists est,
    smooth w resid = Ok est /\
    length est = length resid /\
    (forall i : nat, (Z.of_nat i < w - 1) -> est !! i = Some fone) /\
    (forall t : nat, w - 1 <= Z.of_nat t < Z.of_nat (length resid) ->
       est !! t = Some (window_mean (take (Z.to_nat w)
                                   (drop (t + 1 - Z.to_nat w) resid)))).
Proof.
  intros Hw Hone. unfold smooth.
  rewrite !np_ones_ok by lia. simpl.
  unfold np_convolve_valid. rewrite length_replicate.
  destruct (Nat.eqb_spec (length resid) 0) as [E|_]; [lia|].
  destruct (Nat.eqb_spec (Z.to_nat w) 0) as [E|_]; [lia|]. simpl.
  destruct (Nat.ltb_spec (length resid) (Z.to_nat w)) as [E|_]; [lia|].
  simpl. rewrite length_replicate. eexists. split; [reflexivity|].
  split; [|split].
  - rewrite length_app, length_replicate, !length_map, length_seq. lia.
  - intros i Hi. rewrite lookup_app_l by (rewrite length_replicate; lia).
    apply lookup_replicate. split; [done|lia].
  - intros t Ht. rewrite lookup_app_r by (rewrite length_replicate; lia).
    rewrite length_replicate, !list_lookup_fmap.
    rewrite lookup_seq_lt by lia. simpl. f_equal.
    replace (t - Z.to_nat (w - 1))%nat with (t + 1 - Z.to_nat w)%nat by lia.
    unfold window_mean, vdot. rewrite rev_replicate.
    set (win := take _ _).
    assert (Hlen : length win = Z.to_nat w).
    { unfold win. rewrite length_take, length_drop. lia. }
    rewrite zip_with_fmul_ones; [| done |].
    + rewrite Hlen, Z2Nat.id by lia. done.
    + unfold win. apply Forall_take, Forall_drop, Hone.
Qed.
End SmoothFacts.

Section ResidFacts.
Context {F : Type} `{Float64Ops F}.
Variable lstsq : list (list F) -> list F -> result (list F).

Lemma rectangular_row_length (arr : list (list F)) (i : Z) (y : list F) :
  rectangular arr -> py_index arr i = Ok y ->
  Z.of_nat (length y) = shape1 arr.
Proof.
  intros Hrect Hy. apply py_index_Ok_lookup in Hy as (k & Hk & _).
  unfold rectangular in Hrect. rewrite Forall_lookup in Hrect.
  unfold shape1. by rewrite (Hrect _ _ Hk).
Qed.

Lemma np_dot_mv_length (a : list (list F)) (v r : list F) :
  np_dot_mv a v = Ok r -> length r = length a.
Proof.
  unfold np_dot_mv. destruct (forallb _ _); [|discriminate].
  intros [= <-]. by rewrite length_map.
Qed.

Lemma abs_resid_length (arr : list (list F)) (i : Z) (y resid : list F) :
  rectangular arr -> py_index arr i = Ok y ->
  (if 0 <? shape0 arr - 2 then abs_ols_resid lstsq arr y else Ok (np_abs y))
    = Ok resid ->
  Z.of_nat (length resid) = shape1 arr.
Proof.
  intros Hrect Hy Hres.
  pose proof (rectangular_row_length _ _ _ Hrect Hy) as Hlen.
  destruct (0 <? shape0 arr - 2).
  - unfold abs_ols_resid in Hres.
    destruct (lstsq _ y) as [beta|]; [|discriminate]. simpl in Hres.
    destruct (np_dot_mv _ beta) as [mean|] eqn:Em; [|discriminate].
    simpl in Hres. injection Hres as <-.
    apply np_dot_mv_length in Em.
    unfold transpose in Em. rewrite length_map, length_seq in Em.
    unfold np_abs, vsub. rewrite length_map, length_zip_with. lia.
  - injection Hres as <-. unfold np_abs. by rewrite length_map.
Qed.
End ResidFacts.

Section PairwiseSum.
Context {F : Type} `{Float64Ops F}.

Lemma add_blocks_length (k : nat) (r a : list F) :
  length r = 8%nat -> (8 * k <= length a)%nat ->
  length (add_blocks k r a) = 8%nat.
Proof.
  revert r a. induction k as [|k IH]; intros r a Hr Ha; [done|].
  cbn [add_blocks]. apply IH.
  - rewrite length_zip_with, length_take. lia.
  - rewrite length_drop. lia.
Qed.

(** The halves are shorter than the vector: fuel that starts at the length
    is never used up, and more fuel changes nothing. *)
Lemma pairwise_sum_fuel (fuel fuel' : nat) (a : list F) :
  (length a <= fuel)%nat -> (length a <= fuel')%nat ->
  pairwise_sum_rec fuel a = pairwise_sum_rec fuel' a.
Proof.
  revert fuel' a. induction fuel as [|fuel IH]; intros fuel' a Hf Hf'.
  - assert (length a = 0%nat) as Ha by lia.
    destruct fuel'; cbn [pairwise_sum_rec]; by rewrite Ha.
  - destruct fuel' as [|fuel'].
    + assert (length a = 0%nat) as Ha by lia.
      cbn [pairwise_sum_rec]. by rewrite Ha.
    + cbn [pairwise_sum_rec].
      destruct (Nat.ltb_spec (length a) 8); [done|].
      destruct (Nat.leb_spec (length a) 128); [done|].
      set (n2 := (length a / 2 - (length a / 2) mod 8)%nat).
      assert (Hhalf : (64 <= length a / 2 <= length a - 65)%nat).
      { pose proof (Nat.div_mod_eq (length a) 2) as Hd.
        pose proof (Nat.mod_upper_bound (length a) 2). lia. }
      assert (Hn2 : (1 <= n2 < length a)%nat).
      { unfold n2. pose proof (Nat.mod_upper_bound (length a / 2) 8). lia. }
      rewrite (IH fuel' (take n2 a)), (IH fuel' (drop n2 a));
        rewrite ?length_take, ?length_drop; try lia. done.
Qed.
End PairwiseSum.

(** Multiplying by one returns the number: for the reals, and for every
    canonical binary64 value (zeros, infinities and NaN included). *)
Lemma exact_mul_one (x : R) : fmul x fone = x.
Proof. apply Rmult_1_r. Qed.

Lemma binary64_mul_one (x : spec_float) :
  valid_binary prec emax x = true -> fmul x fone = x.
Proof.
  destruct x as [s|s| |s m e];
    [intros _; by destruct s | intros _; by destruct s | done |].
  intros Hvalid. unfold valid_binary, bounded in Hvalid.
  apply andb_true_iff in Hvalid as [Hcan Hbound].
  unfold canonical_mantissa in Hcan. apply Z.eqb_eq in Hcan.
  change (fmul (S754_finite s m e) fone)
    with (binary_round_aux prec emax (xorb s false)
            (Zpos (m * 4503599627370496)) (e + -52) loc_Exact).
  rewrite Pos.mul_comm. rewrite xorb_false_r.
  unfold binary_round_aux, shr_fexp.
  assert (Hm : (4503599627370496 * m)%positive = Pos.iter xO m 52)
    by (simpl; by rewrite ?Pos.mul_1_l).
  rewrite Hm. clear Hm.
  assert (Hd : Zdigits2 (Z.pos (Pos.iter xO m 52)) = Z.pos (digits2_pos m) + 52).
  { clear. simpl. repeat rewrite Pos2Z.inj_succ. lia. }
  rewrite Hd.
  replace (Z.pos (digits2_pos m) + 52 + (e + -52)) with (Z.pos (digits2_pos m) + e)
    by lia.
  rewrite Hcan. replace (e - (e + -52)) with 52 by lia.
  unfold shr at 1. simpl.
  replace (e + -52 + 52) with e by lia.
  rewrite Hcan, Z.sub_diag. simpl. by rewrite Hbound.
Qed.

(** * Time-dependent estimation *)

Section TimeDependent.
Context {F : Type} `{Float64Ops F} {DF : Type}.
Variable lstsq : list (list F) -> list F -> result (list F).

(** C7: for an array of width [T >= w] (window size [w >= 1]) whose
    absolute residuals [resid] could be computed, [_estimate_std_time]
    returns a vector of length exactly [T]; its first [w - 1] entries are
    exactly 1 and its entry at each [t >= w - 1] is the mean of the [w]
    absolute residuals [resid[t-w+1 .. t]] (trailing window).  The kernel
    of the convolution is all ones: the hypothesis on [resid] says that
    multiplying a residual by that 1 returns it unchanged, as it does for
    every real and for every canonical binary64 value. *)
Theorem estimate_std_time_moving_average
    (wd : World (F:=F) (DF:=DF)) (arr : list (list F)) (target_var : Z)
    (y resid : list F) :
  let w := window_size (self wd) in
  let T := shape1 arr in
  rectangular arr ->
  1 <= w <= T ->
  py_index arr target_var = Ok y ->
  (if 0 <? shape0 arr - 2 then abs_ols_resid lstsq arr y else Ok (np_abs y))
    = Ok resid ->
  Forall (fun x => fmul x fone = x) resid ->
  exists std_est,
    _estimate_std_time lstsq arr target_var wd = (Ok std_est, wd) /\
    Z.of_nat (length std_est) = T /\
    (forall i : nat, Z.of_nat i < w - 1 -> std_est !! i = Some fone) /\
    (forall t : nat, w - 1 <= Z.of_nat t < T ->
       std_est !! t =
         Some (window_mean (take (Z.to_nat w) (drop (t + 1 - Z.to_nat w) resid)))).
Proof.
  intros w T Hrect Hw Hy Hres Hone.
  pose proof (abs_resid_length lstsq _ _ _ _ Hrect Hy Hres) as Hlen.
  destruct (smooth_spec w resid) as (est & Hs & Hl & Hpre & Hwin);
    [lia | done |].
  exists est. split; [|split; [|split]].
  - unfold _estimate_std_time, bind, lift, get_self.
    rewrite Hy, Hres. fold w. by rewrite Hs.
  - lia.
  - exact Hpre.
  - intros t Ht. apply Hwin. lia.
Qed.
End TimeDependent.

Lemma estimate_std_time_moving_average_witness :
  let wd := Examples64.world_of
              (Examples64.test_object (EkVal (PyStr TIME_DEPENDENT)) 2 None) ∅ in
  let resid := map fabs [Examples64.fl (-1); Examples64.fl 2;
                         Examples64.fl (-3); Examples64.fl 4] in
  exists std_est,
    _estimate_std_time Examples64.no_lstsq Examples64.xy4 0 wd = (Ok std_est, wd) /\
    Z.of_nat (length std_est) = 4 /\
    (forall i : nat, Z.of_nat i < 2 - 1 -> std_est !! i = Some fone) /\
    (forall t : nat, 2 - 1 <= Z.of_nat t < 4 ->
       std_est !! t = Some (window_mean (take 2 (drop (t + 1 - 2) resid)))).
Proof.
  intros wd resid.
  apply (estimate_std_time_moving_average Examples64.no_lstsq wd Examples64.xy4 0
           [Examples64.fl (-1); Examples64.fl 2; Examples64.fl (-3); Examples64.fl 4]
           resid).
  - repeat constructor.
  - split; vm_compute; discriminate.
  - reflexivity.
  - reflexivity.
  - repeat constructor.
Defined.

(** * Parent-dependent estimation: the order of the residuals *)

Section ParentOrder.
Context {F : Type} `{Float64Ops F}.
Variable argsort : list F -> list Z.

Lemma mask_nonneg_indices (idx : list Z) :
  Forall (fun i => 0 <= i) idx ->
  map (fun i => i * (if 0 <? i then 1 else 0)) idx = idx.
Proof.
  intros Hidx. induction Hidx as [|i idx Hi _ IH]; [done|].
  cbn [map]. rewrite IH. f_equal.
  destruct (Z.ltb_spec 0 i); lia.
Qed.

Lemma fancy_index_in_range (v : list F) (idx : list Z) :
  Forall (fun i => 0 <= i < Z.of_nat (length v)) idx ->
  fancy_index v idx = Ok (map (fun i => nth (Z.to_nat i) v fzero) idx).
Proof.
  intros Hidx. induction Hidx as [|i idx Hi _ IH]; [done|].
  cbn [fancy_index map]. rewrite IH.
  destruct (lookup_lt_is_Some_2 v (Z.to_nat i) ltac:(lia)) as [x Hx].
  pose proof (py_index_nonneg v (Z.to_nat i) x Hx) as Hpy.
  rewrite Z2Nat.id in Hpy by lia. rewrite Hpy. cbn [rbind].
  by rewrite (nth_lookup_Some _ _ _ _ Hx).
Qed.

Lemma positions_in_range (n : nat) :
  Forall (fun i => 0 <= i < Z.of_nat n) (map Z.of_nat (seq 0 n)).
Proof.
  apply Forall_forall. intros i Hi.
  apply list_elem_of_fmap in Hi as (k & -> & Hk).
  apply elem_of_seq in Hk. lia.
Qed.

Lemma pairs_at_positions (h v : list F) :
  length h = length v ->
  map (fun i => (nth (Z.to_nat i) h fzero, nth (Z.to_nat i) v fzero))
      (map Z.of_nat (seq 0 (length h)))
  = zip h v.
Proof.
  intros Hlen. apply list_eq. intros k.
  rewrite !list_lookup_fmap, lookup_zip_with.
  destruct (h !! k) as [x|] eqn:Ex; simpl.
  - pose proof (lookup_lt_Some _ _ _ Ex) as Hk.
    destruct (lookup_lt_is_Some_2 v k ltac:(lia)) as [y Ey].
    rewrite lookup_seq_lt by done. rewrite Ey. simpl.
    rewrite Nat2Z.id.
    by rewrite (nth_lookup_Some _ _ _ _ Ex), (nth_lookup_Some _ _ _ _ Ey).
  - apply lookup_ge_None in Ex. by rewrite lookup_seq_ge by lia.
Qed.

(** C4 (amended): the truncated absolute residuals are reordered by the
    permutation that [np.argsort] returns for the driver values.  When that
    permutation orders the driver values ascending (what argsort promises
    for its default, not stable, kind), the sorted residuals are the
    truncated residuals rearranged, each with its driver value, into
    ascending driver order; the statement [* (ordered_z_ind > 0)] changes
    nothing.  Among equal driver values the order is the one argsort
    returns. *)
Theorem sorted_residuals_follow_argsort (h resid : list F) (lag : Z) :
  let truncate_resid := py_slice_from resid (Z.abs lag) in
  let key := fun i : Z => nth (Z.to_nat i) h fzero in
  let val := fun i : Z => nth (Z.to_nat i) truncate_resid fzero in
  Permutation (argsort h) (map Z.of_nat (seq 0 (length h))) ->
  (forall (i j : nat) (a b : Z), (i < j)%nat ->
     argsort h !! i = Some a -> argsort h !! j = Some b ->
     fleb (key a) (key b) = true) ->
  length h = length truncate_resid ->
  exists sorted_resid,
    sort_residuals resid lag (ordered_indices argsort h) = Ok sorted_resid /\
    sorted_resid = map val (argsort h) /\
    Permutation (zip (map key (argsort h)) sorted_resid) (zip h truncate_resid) /\
    (forall (i j : nat) (x y : F), (i < j)%nat ->
       map key (argsort h) !! i = Some x -> map key (argsort h) !! j = Some y ->
       fleb x y = true).
Proof.
  intros truncate_resid key val Hperm Hasc Hlen.
  assert (Hrange : Forall (fun i => 0 <= i < Z.of_nat (length truncate_resid))
                     (argsort h)).
  { rewrite <- Hlen. eapply Permutation_Forall; [symmetry; exact Hperm|].
    apply positions_in_range. }
  exists (map val (argsort h)). split; [|split; [|split]].
  - unfold sort_residuals, ordered_indices.
    rewrite mask_nonneg_indices
      by (eapply Forall_impl; [exact Hrange|]; simpl; intros; lia).
    by apply fancy_index_in_range.
  - reflexivity.
  - rewrite <- (pairs_at_positions h truncate_resid Hlen).
    rewrite <- (Permutation_map _ Hperm).
    apply eq_subrelation; [apply _|].
    apply list_eq. intros k.
    rewrite lookup_zip_with, !list_lookup_fmap.
    by destruct (argsort h !! k).
  - intros i j x y Hij Hx Hy.
    rewrite list_lookup_fmap in Hx, Hy.
    destruct (argsort h !! i) as [a|] eqn:Ea; [|discriminate].
    destruct (argsort h !! j) as [b|] eqn:Eb; [|discriminate].
    injection Hx as <-. injection Hy as <-. by eapply Hasc.
Qed.
End ParentOrder.

Lemma sorted_residuals_follow_argsort_witness :
  exists sorted_resid,
    sort_residuals TiedDrivers.resid TiedDrivers.lag
        (ordered_indices TiedDrivers.argsort TiedDrivers.h) = Ok sorted_resid /\
    sorted_resid
      = map (fun i : Z => nth (Z.to_nat i)
                            (py_slice_from TiedDrivers.resid (Z.abs TiedDrivers.lag))
                            fzero)
            (TiedDrivers.argsort TiedDrivers.h) /\
    Permutation
      (zip (map (fun i : Z => nth (Z.to_nat i) TiedDrivers.h fzero)
                (TiedDrivers.argsort TiedDrivers.h)) sorted_resid)
      (zip TiedDrivers.h (py_slice_from TiedDrivers.resid (Z.abs TiedDrivers.lag))) /\
    (forall (i j : nat) (x y : spec_float), (i < j)%nat ->
       map (fun i : Z => nth (Z.to_nat i) TiedDrivers.h fzero)
           (TiedDrivers.argsort TiedDrivers.h) !! i = Some x ->
       map (fun i : Z => nth (Z.to_nat i) TiedDrivers.h fzero)
           (TiedDrivers.argsort TiedDrivers.h) !! j = Some y ->
       fleb x y = true).
Proof.
  apply (sorted_residuals_follow_argsort TiedDrivers.argsort TiedDrivers.h
           TiedDrivers.resid TiedDrivers.lag).
  - change (TiedDrivers.argsort TiedDrivers.h) with [1; 2; 0].
    etrans; [apply perm_skip, perm_swap | apply perm_swap].
  - change (TiedDrivers.argsort TiedDrivers.h) with [1; 2; 0].
    intros [|[|[|i]]] [|[|[|j]]] a b Hij Ha Hb;
      try lia; try discriminate;
      injection Ha as <-; injection Hb as <-; reflexivity.
  - reflexivity.
Defined.

(** C4 (as stated): [np.argsort] with its default kind does not keep ties
    in place.  The eighteen driver values of [LongDrivers] (more than the
    seventeen up to which the quicksort sorts by insertion) hold the value 1
    at the positions 1, 3, 6, 9, 12 and 15; the quicksort
    returns these positions in the order 1, 3, 15, 6, 9, 12, so that the
    residual of position 15 (16) comes before the residuals of the
    positions 6, 9 and 12 (7, 10, 13), which are earlier in time and have
    the same driver value. *)
Lemma quicksort_argsort_reorders_ties :
  let fl := Examples64.fl in
  let truncate_resid := py_slice_from LongDrivers.resid (Z.abs LongDrivers.lag) in
  truncate_resid = map (fun i => fl (Z.of_nat i)) (seq 1 18) /\
  NumpySort.quicksort_argsort NumpySort.float_less fzero LongDrivers.h
    = Some [1; 3; 15; 6; 9; 12; 2; 4; 7; 16; 10; 13; 0; 14; 8; 5; 11; 17] /\
  map (fun i : Z => nth (Z.to_nat i) LongDrivers.h fzero) [1; 3; 15; 6; 9; 12]
    = [fl 1; fl 1; fl 1; fl 1; fl 1; fl 1] /\
  sort_residuals LongDrivers.resid LongDrivers.lag
      (ordered_indices NumpySort.argsort LongDrivers.h)
    = Ok (map fl [2; 4; 16; 7; 10; 13; 3; 5; 8; 17; 11; 14; 1; 15; 9; 6; 12; 18]).
Proof. repeat split; vm_compute; reflexivity. Qed.

(** * Expert knowledge and the auxiliary data cache *)

Section ExpertKnowledge.
Context {F : Type} `{Float64Ops F} {DF : Type}.
Variable df_N : DF -> nat.
Variable construct_array :
  DF -> list node -> list node -> list node -> Z -> option string ->
  bool -> string -> Z -> result (returned (F:=F)).
Variable pp_DataFrame : list (list F) -> result DF.
Variable lstsq : list (list F) -> list F -> result (list F).
Variable argsort : list F -> list Z.
Variable argsort_int : list Z -> list Z.

(** Every element of [dict.items()] is a (key, value) tuple, so the test
    [any([type(item) == tuple for item in ...items()])] holds exactly when
    the dict is not empty. *)
Lemma any_item_is_tuple (m : gmap Z pyval) (items : list pyval) :
  ek_items (EkDict m) = Ok items ->
  existsb py_is_tuple items = negb (bool_decide (m = ∅)).
Proof.
  intros [= <-]. case_bool_decide as Hm.
  - subst m. by rewrite map_to_list_empty.
  - destruct (map_to_list m) as [|kv l] eqn:E.
    + by apply map_to_list_empty_iff in E.
    + reflexivity.
Qed.

(** C2 (amended): expert knowledge that is neither one of the two literal
    markers nor a dict makes the first [_get_stds] without a ground-truth
    table raise ([AttributeError], from [.items()]) with nothing changed. *)
Theorem get_stds_rejects_non_mapping
    (wd : World (F:=F) (DF:=DF)) (v : pyval) (array : list (list F))
    (X Y Zc : list node) (tau_max : Z) (cut_off : string) (verb : Z) :
  gt_std_matrix (self wd) = None ->
  expert_knowledge (self wd) = EkVal v ->
  v <> PyStr TIME_DEPENDENT ->
  v <> PyStr HOMOSKEDASTICITY ->
  _get_stds df_N construct_array pp_DataFrame lstsq argsort argsort_int
      array X Y Zc tau_max cut_off verb wd
    = (Raise AttributeError, wd).
Proof.
  intros Hgt Hek Htd Hhom.
  assert (E1 : ek_eq_str (EkVal v) TIME_DEPENDENT = false).
  { destruct v; try reflexivity. simpl. apply String.eqb_neq. congruence. }
  assert (E2 : ek_eq_str (EkVal v) HOMOSKEDASTICITY = false).
  { destruct v; try reflexivity. simpl. apply String.eqb_neq. congruence. }
  unfold _get_stds. unfold bind, get_self, lift, ret.
  rewrite Hgt, Hek, E1, E2. simpl. by rewrite Hek.
Qed.
End ExpertKnowledge.

Lemma get_stds_rejects_non_mapping_witness :
  let wd := Examples64.world_of
              (Examples64.test_object (EkVal (PyStr "heteroskedastic")) 10 None) ∅ in
  _get_stds (fun _ : unit => 2%nat) (fun _ _ _ _ _ _ _ _ _ => Raise KeyError)
      (fun _ => Raise KeyError) Examples64.no_lstsq (fun _ => []) (fun _ => [])
      Examples64.xy4 [(0, 0)] [(1, 0)] [] 0 "2xtau_max" 0 wd
    = (Raise AttributeError, wd).
Proof.
  intros wd.
  apply (get_stds_rejects_non_mapping _ _ _ _ _ _ wd (PyStr "heteroskedastic"));
    [reflexivity | reflexivity | discriminate | discriminate].
Defined.

(** C2 (as stated): a mapping whose descriptor is neither the marker nor a
    tuple is not rejected.  With [{0: ["bogus"]}] the call returns all-ones
    standard deviations, with no warning. *)
Lemma malformed_mapping_is_accepted :
  let ek := EkDict {[ 0 := PyList [PyStr "bogus"] ]} in
  let wd := Examples64.world_of (Examples64.test_object ek 2 None) ∅ in
  let ones := [Examples64.fl 1; Examples64.fl 1; Examples64.fl 1; Examples64.fl 1] in
  let result := Dataset64.get_stds Dataset64.values [(0, 0)] [(1, 0)] [] 0
                  "2xtau_max" 0 wd in
  result.1 = Ok (Some [ones; ones]) /\
  stds (self result.2) = Some [ones; ones] /\
  warnings result.2 = [].
Proof. repeat split. Qed.

(** C3: with the default expert knowledge every descriptor of the registry
    is the time-dependent marker, no descriptor is a tuple, and [_get_stds]
    still builds [self.data]. *)
Theorem data_cache_built_without_parent_dependence :
  let wd := Examples64.world_of
              (Examples64.test_object (EkVal (PyStr TIME_DEPENDENT)) 2 None) ∅ in
  let result := Dataset64.get_stds Dataset64.values [(0, 0)] [(1, 0)] [] 0
                  "2xtau_max" 0 wd in
  data (self wd) = None /\
  is_ok result.1 = true /\
  expert_knowledge (self result.2)
    = EkDict {[ 0 := PyList [PyStr TIME_DEPENDENT];
                1 := PyList [PyStr TIME_DEPENDENT] ]} /\
  data (self result.2) = Some Dataset64.values.
Proof. repeat split. Qed.

(** * The not-a-number check of the residualizer *)

Section NanCheck.
Context {DF : Type}.
Variable lstsq : list (list spec_float) -> list spec_float -> result (list spec_float).

Lemma fadd_nan_r (x : spec_float) : fadd x S754_nan = S754_nan.
Proof. by destruct x. Qed.

Lemma np_sum_from_nan (v : list spec_float) : fold_left fadd v S754_nan = S754_nan.
Proof. induction v as [|x v IH]; simpl; [done|exact IH]. Qed.

(** A NaN entry makes the running sum NaN, whatever came before it. *)
Lemma fold_fadd_nan (v : list spec_float) (acc : spec_float) :
  S754_nan ∈ v -> fold_left fadd v acc = S754_nan.
Proof.
  revert acc. induction v as [|x v IH]; intros acc Hin.
  - by apply elem_of_nil in Hin.
  - apply elem_of_cons in Hin as [<-|Hin]; simpl.
    + change (SFadd prec emax acc S754_nan) with (fadd acc S754_nan).
      rewrite fadd_nan_r. apply np_sum_from_nan.
    + by apply IH.
Qed.

Lemma fadd_nan_l (x : spec_float) : fadd S754_nan x = S754_nan.
Proof. by destruct x. Qed.

Lemma zip_fadd_nan_l (r c : list spec_float) :
  (length r <= length c)%nat -> S754_nan ∈ r -> S754_nan ∈ zip_with fadd r c.
Proof.
  intros Hlen Hin. apply list_elem_of_lookup in Hin as [i Hi].
  destruct (lookup_lt_is_Some_2 c i) as [y Hy];
    [apply lookup_lt_Some in Hi; lia|].
  apply list_elem_of_lookup. exists i.
  by rewrite lookup_zip_with, Hi, Hy.
Qed.

Lemma zip_fadd_nan_r (r c : list spec_float) :
  (length c <= length r)%nat -> S754_nan ∈ c -> S754_nan ∈ zip_with fadd r c.
Proof.
  intros Hlen Hin. apply list_elem_of_lookup in Hin as [i Hi].
  destruct (lookup_lt_is_Some_2 r i) as [x Hx];
    [apply lookup_lt_Some in Hi; lia|].
  apply list_elem_of_lookup. exists i.
  rewrite lookup_zip_with, Hx, Hi. simpl. f_equal.
  change (SFadd prec emax x S754_nan) with (fadd x S754_nan).
  by rewrite fadd_nan_r.
Qed.

(** A NaN among the entries of the full blocks ends up in a running sum. *)
Lemma add_blocks_nan (k : nat) (r a : list spec_float) :
  length r = 8%nat -> (8 * k <= length a)%nat ->
  S754_nan ∈ r \/ S754_nan ∈ take (8 * k) a ->
  S754_nan ∈ add_blocks k r a.
Proof.
  revert r a. induction k as [|k IH]; intros r a Hr Ha Hin.
  - destruct Hin as [Hin|Hin]; [done|]. by apply elem_of_nil in Hin.
  - cbn [add_blocks]. apply IH.
    + rewrite length_zip_with, length_take. lia.
    + rewrite length_drop. lia.
    + destruct Hin as [Hin|Hin].
      * left. apply zip_fadd_nan_l; [rewrite length_take; lia|done].
      * replace (8 * S k)%nat with (8 + 8 * k)%nat in Hin by lia.
        rewrite <- take_take_drop in Hin.
        apply elem_of_app in Hin as [Hin|Hin]; [|by right].
        left. apply zip_fadd_nan_r; [rewrite length_take; lia|done].
Qed.

Lemma combine_lanes_nan (r : list spec_float) :
  length r = 8%nat -> S754_nan ∈ r -> combine_lanes r = S754_nan.
Proof.
  intros Hr Hin.
  do 9 (destruct r as [|? r]; try discriminate). clear Hr.
  unfold combine_lanes.
  repeat (apply elem_of_cons in Hin as [<-|Hin]);
    [..|by apply elem_of_nil in Hin];
    by rewrite ?fadd_nan_l, ?fadd_nan_r, ?fadd_nan_l, ?fadd_nan_r.
Qed.

Lemma block_sum_nan (a : list spec_float) :
  (8 <= length a)%nat -> S754_nan ∈ a -> block_sum a = S754_nan.
Proof.
  intros Hlen Hin. unfold block_sum.
  set (n := length a) in *.
  pose proof (Nat.div_mod_eq n 8) as Hn.
  assert (Hq : (1 <= n / 8)%nat) by (apply Nat.div_le_lower_bound; lia).
  rewrite <- (take_drop (n - n mod 8) a) in Hin.
  apply elem_of_app in Hin as [Hin|Hin]; [|by apply fold_fadd_nan].
  rewrite combine_lanes_nan; [apply np_sum_from_nan| |].
  - apply add_blocks_length; [rewrite length_take; lia | rewrite length_drop; lia].
  - apply add_blocks_nan.
    + rewrite length_take. lia.
    + rewrite length_drop. lia.
    + replace (n - n mod 8)%nat with (8 + 8 * (n / 8 - 1))%nat in Hin by lia.
      rewrite <- take_take_drop in Hin.
      apply elem_of_app in Hin as [Hin|Hin]; [by left|by right].
Qed.

Lemma pairwise_sum_rec_nan (fuel : nat) (a : list spec_float) :
  S754_nan ∈ a -> pairwise_sum_rec fuel a = S754_nan.
Proof.
  revert a. induction fuel as [|fuel IH]; intros a Hin; cbn [pairwise_sum_rec];
    destruct (Nat.ltb_spec (length a) 8) as [|H8];
    try (by apply fold_fadd_nan);
    destruct (Nat.leb_spec (length a) 128);
    try (by apply block_sum_nan).
  rewrite <- (take_drop (length a / 2 - (length a / 2) mod 8) a) in Hin at 1.
  apply elem_of_app in Hin as [Hin|Hin].
  - rewrite (IH _ Hin). apply fadd_nan_l.
  - rewrite (IH (drop _ a) Hin). apply fadd_nan_r.
Qed.

(** A NaN entry makes [np.sum] NaN, in whatever order the entries are
    added. *)
Lemma np_sum_nan (v : list spec_float) : S754_nan ∈ v -> np_sum v = S754_nan.
Proof.
  intros Hin. unfold np_sum, pairwise_sum.
  rewrite pairwise_sum_rec_nan by done. apply fadd_nan_r.
Qed.

Lemma np_sum_all_nan (a : list (list spec_float)) (row : list spec_float) :
  row ∈ a -> S754_nan ∈ row -> fisnan (np_sum_all a) = true.
Proof.
  intros Hrow Hnan. unfold np_sum_all.
  rewrite np_sum_nan; [done|].
  apply list_elem_of_In, in_concat. exists row.
  split; by apply list_elem_of_In.
Qed.

Lemma py_index_raises {A} (l : list A) (i : Z) (e : pyexn) :
  py_index l i = Raise e -> e = IndexError.
Proof. unfold py_index. repeat case_match; congruence. Qed.

Lemma np_dot_vm_raises (v : list spec_float) (m : list (list spec_float)) e :
  np_dot_vm v m = Raise e -> e = shapes_not_aligned.
Proof. unfold np_dot_vm. case_match; congruence. Qed.

Lemma np_dot_mv_raises (m : list (list spec_float)) (v : list spec_float) e :
  np_dot_mv m v = Raise e -> e = shapes_not_aligned.
Proof. unfold np_dot_mv. case_match; congruence. Qed.

Lemma np_dot_mm_raises (m n : list (list spec_float)) e :
  np_dot_mm m n = Raise e -> e = shapes_not_aligned.
Proof. unfold np_dot_mm. case_match; congruence. Qed.

(** C5 (amended): an array with a NaN entry anywhere is rejected by the first
    check of [_get_single_residuals]: the call raises "array has nans" with
    the world untouched (no warning, no mutation of the array, the weights
    are not looked up and the solver is not consulted).  In the other
    direction the check is on the sum of all entries: when that sum is not
    NaN, a call with [standardize=False] does not raise "array has nans"
    (the solver, when it fails, fails with [LinAlgError]). *)
Theorem get_single_residuals_nan_check
    (wd : World (F:=spec_float) (DF:=DF)) (arr : nat)
    (a : list (list spec_float)) (target_var : Z) (return_means : bool) :
  heap wd !! arr = Some a ->
  (forall zw yw e, lstsq zw yw = Raise e -> e = LinAlgError) ->
  (forall (row : list spec_float) (standardize : bool),
     row ∈ a -> S754_nan ∈ row ->
     _get_single_residuals lstsq arr target_var standardize return_means wd
       = (Raise (ValueError "array has nans"), wd)) /\
  (fisnan (np_sum_all a) = false ->
   (_get_single_residuals lstsq arr target_var false return_means wd).1
     <> Raise (ValueError "array has nans")).
Proof.
  intros Harr Hsolver. split.
  - intros row standardize Hrow Hnan.
    unfold _get_single_residuals, bind, deref. rewrite Harr.
    by rewrite (np_sum_all_nan _ _ Hrow Hnan).
  - intros Hsum.
    unfold _get_single_residuals, weighted_regression, lookup_stds, when.
    unfold bind, deref, get_self, lift, warn, ret, raise.
    rewrite Harr, Hsum. simpl.
    repeat (case_match; simplify_eq/=; try done);
      repeat match goal with
        | E : py_index _ _ = Raise _ |- _ => apply py_index_raises in E
        | E : np_dot_vm _ _ = Raise _ |- _ => apply np_dot_vm_raises in E
        | E : np_dot_mv _ _ = Raise _ |- _ => apply np_dot_mv_raises in E
        | E : np_dot_mm _ _ = Raise _ |- _ => apply np_dot_mm_raises in E
        | E : lstsq _ _ = Raise _ |- _ => apply Hsolver in E
        end; subst; try discriminate.
Qed.
End NanCheck.

Lemma get_single_residuals_nan_check_witness :
  let a := [[Examples64.fl 1; S754_nan]; [Examples64.fl 1; Examples64.fl 2]] in
  let wd := Examples64.world_of
              (Examples64.test_object (EkVal (PyStr HOMOSKEDASTICITY)) 10 None)
              {[ 0%nat := a ]} in
  _get_single_residuals (DF:=unit) Examples64.no_lstsq 0 0 true false wd
    = (Raise (ValueError "array has nans"), wd).
Proof.
  intros a wd.
  refine (proj1 (get_single_residuals_nan_check Examples64.no_lstsq wd 0%nat a 0 false _ _)
            [Examples64.fl 1; S754_nan] true _ _).
  - reflexivity.
  - intros zw yw e [= <-]. reflexivity.
  - apply list_elem_of_here.
  - apply list_elem_of_further, list_elem_of_here.
Defined.

(** C5 (as stated): the first check tests whether the sum of all entries is
    NaN.  On the array with X = (+inf) and Y = (-inf), which has no NaN
    entry, that sum is NaN and the call raises "array has nans". *)
Lemma get_single_residuals_rejects_opposite_infinities :
  let a := [[Examples64.pinf]; [Examples64.ninf]] in
  let wd := Examples64.world_of
              (Examples64.test_object (EkVal (PyStr HOMOSKEDASTICITY)) 10 None)
              {[ 0%nat := a ]} in
  Forall (Forall (fun x => fisnan x = false)) a /\
  _get_single_residuals (DF:=unit) Examples64.no_lstsq 0 0 false false wd
    = (Raise (ValueError "array has nans"), wd).
Proof.
  split.
  - repeat constructor.
  - reflexivity.
Qed.

(** The entries need not be infinite for that: with X = (1e308, 1e308,
    -1e308, -1e308) and Y = (0, 0, 0, 0), all finite, the pairwise sum adds
    1e308 + 1e308 = +inf and -1e308 + -1e308 = -inf before it adds the two,
    and the call raises "array has nans" (added in index order the entries
    would give +inf). *)
Lemma get_single_residuals_rejects_finite_overflow :
  let big := Examples64.fl (10 ^ 308) in
  let small := Examples64.fl (- 10 ^ 308) in
  let a := [[big; big; small; small];
            [Examples64.fl 0; Examples64.fl 0; Examples64.fl 0; Examples64.fl 0]] in
  let wd := Examples64.world_of
              (Examples64.test_object (EkVal (PyStr HOMOSKEDASTICITY)) 10 None)
              {[ 0%nat := a ]} in
  Forall (Forall (fun x => match x with
                           | S754_finite _ _ _ | S754_zero _ => True
                           | _ => False
                           end)) a /\
  np_sum_all a = S754_nan /\
  seq_sum (concat a) = Examples64.pinf /\
  _get_single_residuals (DF:=unit) Examples64.no_lstsq 0 0 false false wd
    = (Raise (ValueError "array has nans"), wd).
Proof.
  split; [|repeat split; vm_compute; reflexivity].
  vm_compute. repeat constructor.
Qed.

(** * Weights from a standard deviation of zero *)

(** C10: the weights are [np.diag(np.reciprocal(stds))] with no guard: for
    the standard deviations (0, 1) the weight matrix holds +inf, building it
    raises nothing, and the least-squares solver is called on a design
    matrix and a target that contain +inf; whatever the solver answers or
    raises there is what the call continues with. *)
Theorem zero_std_gives_infinite_weights :
  ZeroStd.stds_x !! 0%nat = Some (S754_zero false) /\
  np_diag (np_reciprocal ZeroStd.stds_x)
    = [[S754_infinity false; S754_zero false]; [S754_zero false; Examples64.fl 1]] /\
  np_dot_mm (np_diag (np_reciprocal ZeroStd.stds_x)) [[Examples64.fl 5]; [Examples64.fl 6]]
    = Ok ZeroStd.zw /\
  np_dot_vm [Examples64.fl 1; Examples64.fl 2] (np_diag (np_reciprocal ZeroStd.stds_x))
    = Ok ZeroStd.yw /\
  forall lstsq,
    _get_single_residuals lstsq 0 0 false false ZeroStd.wd
      = (rbind (lstsq ZeroStd.zw ZeroStd.yw) ZeroStd.after_lstsq, ZeroStd.wd).
Proof.
  repeat split; try reflexivity.
  intros lstsq.
  unfold _get_single_residuals, weighted_regression, lookup_stds, when.
  unfold bind, deref, get_self, lift, ret, raise.
  replace (heap ZeroStd.wd !! 0%nat) with (Some ZeroStd.array) by reflexivity.
  cbn beta iota.
  replace (fisnan (np_sum_all ZeroStd.array)) with false by reflexivity.
  cbn beta iota.
  replace (stds (self ZeroStd.wd)) with (Some [ZeroStd.stds_x; [Examples64.fl 1; Examples64.fl 1]])
    by reflexivity.
  replace (heap ZeroStd.wd !! 0%nat) with (Some ZeroStd.array) by reflexivity.
  change (py_index [ZeroStd.stds_x; [Examples64.fl 1; Examples64.fl 1]] 0)
    with (Ok (A:=list spec_float) ZeroStd.stds_x).
  change (py_index ZeroStd.array 0)
    with (Ok (A:=list spec_float) [Examples64.fl 1; Examples64.fl 2]).
  cbn beta iota.
  change (0 <? shape0 ZeroStd.array - 2) with true.
  change (transpose (Z.to_nat (shape1 ZeroStd.array)) (drop 2 ZeroStd.array))
    with [[Examples64.fl 5]; [Examples64.fl 6]].
  cbn beta iota.
  replace (np_dot_mm (np_diag (np_reciprocal ZeroStd.stds_x))
             [[Examples64.fl 5]; [Examples64.fl 6]])
    with (Ok (A:=list (list spec_float)) ZeroStd.zw) by reflexivity.
  replace (np_dot_vm [Examples64.fl 1; Examples64.fl 2]
             (np_diag (np_reciprocal ZeroStd.stds_x)))
    with (Ok (A:=list spec_float) ZeroStd.yw) by reflexivity.
  cbn beta iota.
  destruct (lstsq ZeroStd.zw ZeroStd.yw) as [beta|e]; [|reflexivity].
  unfold rbind at 1. unfold ZeroStd.after_lstsq.
  destruct (np_dot_mv _ beta) as [mean|e]; [|reflexivity]. unfold rbind at 1.
  destruct (np_dot_vm _ _) as [resid|e]; [|reflexivity]. unfold rbind.
  by destruct (fisnan _).
Qed.

(** * Standardization in place *)

Section Standardize.
Context {F : Type} `{Float64Ops F} {DF : Type}.

Lemma scale_loop_run (arr : nat) (l : list (nat * F)) (cur : list (list F))
    (wd : World (F:=F) (DF:=DF)) :
  heap wd !! arr = Some cur ->
  for_each l (fun ist =>
      let '(i, std_i) := ist in
      if negb (feqb std_i fzero) then
        bind (deref arr) (fun array =>
          store arr (alter (map (fun x => fdiv x std_i)) i array))
      else ret tt) wd
  = (Ok tt, set_heap wd (<[arr := fold_left scale_step l cur]> (heap wd))).
Proof.
  revert cur wd. induction l as [|[i s] l IH]; intros cur wd Hcur.
  - simpl. unfold ret, set_heap. rewrite insert_id by done. by destruct wd.
  - simpl for_each. simpl fold_left. unfold bind at 1.
    destruct (negb (feqb s fzero)) eqn:Es.
    + assert (Hstep : scale_step cur (i, s) = alter (map (fun x => fdiv x s)) i cur)
        by (unfold scale_step; simpl; by rewrite Es).
      rewrite Hstep.
      unfold bind at 1. unfold deref at 1. rewrite Hcur.
      unfold store at 1.
      rewrite (IH (alter (map (fun x => fdiv x s)) i cur));
        [| simpl; apply lookup_insert_eq].
      unfold set_heap. simpl. by rewrite insert_insert_eq.
    + assert (Hstep : scale_step cur (i, s) = cur)
        by (unfold scale_step; simpl; by rewrite Es).
      rewrite Hstep. unfold ret at 1. by apply IH.
Qed.

Lemma scale_loop_fold (pre rest : list (list F)) :
  fold_left scale_step
    (imap (fun i s => (length pre + i, s)%nat) (map np_std rest)) (pre ++ rest)
  = pre ++ map scale_row rest.
Proof.
  revert pre. induction rest as [|r rest IH]; intros pre; [done|].
  simpl map. simpl imap. simpl fold_left.
  rewrite (imap_ext _ (fun i s => (length (pre ++ [scale_row r]) + i, s)%nat))
    by (intros; simpl; rewrite length_app; simpl; f_equal; lia).
  assert (Hstep : scale_step (pre ++ r :: rest) ((length pre + 0)%nat, np_std r)
                  = (pre ++ [scale_row r]) ++ rest).
  { unfold scale_step, scale_row. rewrite <- app_assoc. simpl.
    destruct (negb (feqb (np_std r) fzero)); [|done].
    replace (length pre + 0)%nat with (length pre) by lia.
    by rewrite alter_app_r_alt, Nat.sub_diag by lia. }
  rewrite Hstep, IH. by rewrite <- app_assoc.
Qed.

Lemma standardize_in_place_run (arr : nat) (a : list (list F))
    (wd : World (F:=F) (DF:=DF)) :
  heap wd !! arr = Some a ->
  exists ws,
    standardize_in_place arr wd
    = (if fisnan (np_sum_all (standardized a))
       then Raise (ValueError "array has nans") else Ok tt,
       {| self := self wd; heap := <[arr := standardized a]> (heap wd);
          warnings := warnings wd ++ ws |}).
Proof.
  intros Harr. unfold standardize_in_place.
  unfold bind at 1. unfold deref at 1. rewrite Harr.
  unfold bind at 1. unfold store at 1.
  unfold bind at 1. unfold deref at 1. simpl heap. rewrite lookup_insert_eq.
  unfold bind at 1.
  set (centered := map (fun row => map (fun x => fsub x (np_mean row)) row) a).
  set (w1 := {| self := self wd; heap := <[arr:=centered]> (heap wd);
                warnings := warnings wd |}).
  rewrite (scale_loop_run arr _ centered w1) by apply lookup_insert_eq.
  rewrite (imap_ext _ (fun i s => (length (@nil (list F)) + i, s)%nat)) by done.
  pose proof (scale_loop_fold [] centered) as Hfold. simpl app in Hfold.
  rewrite Hfold.
  assert (Hstd : map scale_row centered = standardized a).
  { unfold centered, standardized. by rewrite map_map. }
  rewrite Hstd. unfold set_heap, w1. simpl self. simpl heap. simpl warnings.
  rewrite insert_insert_eq.
  unfold bind at 1. unfold get_self at 1.
  unfold bind at 1. unfold when.
  destruct (existsb _ _ && _).
  - exists ["Possibly constant array!"%string].
    unfold warn at 1. unfold bind, deref. simpl. rewrite lookup_insert_eq.
    by destruct (fisnan _).
  - exists []. unfold ret at 1. unfold bind, deref. simpl.
    rewrite lookup_insert_eq, app_nil_r.
    by destruct (fisnan _).
Qed.
End Standardize.

Section InPlace.
Context {F : Type} `{Float64Ops F} {DF : Type}.
Variable lstsq : list (list F) -> list F -> result (list F).

(** C9: a call with [standardize=True] that gets past the first NaN check
    and the lookup of the weights leaves the caller's array object holding
    the standardized values: every row has its mean subtracted and, when
    the standard deviation of the centered row is not zero, is divided by
    it.  This is so whether the call then returns or raises; nothing
    restores the array. *)
Theorem get_single_residuals_standardizes_in_place
    (wd : World (F:=F) (DF:=DF)) (arr : nat) (a : list (list F))
    (target_var : Z) (return_means : bool) :
  heap wd !! arr = Some a ->
  fisnan (np_sum_all a) = false ->
  match stds (self wd) with
  | Some sd => is_ok (py_index sd target_var) = true
  | None => True
  end ->
  exists r wd',
    _get_single_residuals lstsq arr target_var true return_means wd = (r, wd') /\
    heap wd' !! arr = Some (standardized a) /\
    forall l, l <> arr -> heap wd' !! l = heap wd !! l.
Proof.
  intros Harr Hsum Hstds.
  unfold _get_single_residuals.
  unfold bind at 1. unfold deref at 1. rewrite Harr, Hsum.
  unfold bind at 1.
  assert (exists s w, lookup_stds target_var (shape1 a) wd = (Ok s, w) /\
                      heap w = heap wd) as (s & w & -> & Hw).
  { unfold lookup_stds, bind, get_self. revert Hstds.
    destruct (stds (self wd)) as [sd|]; intros Hstds.
    - destruct (py_index sd target_var) as [s|] eqn:Es; [|discriminate].
      by exists s, wd.
    - eexists _, _. split; [reflexivity|]. reflexivity. }
  unfold bind at 1. unfold when.
  destruct (standardize_in_place_run arr a w) as (ws & ->);
    [by rewrite Hw|].
  set (w2 := {| self := self w; heap := <[arr:=standardized a]> (heap w);
                warnings := warnings w ++ ws |}).
  assert (Hfinal : heap w2 !! arr = Some (standardized a) /\
                   forall l, l <> arr -> heap w2 !! l = heap wd !! l).
  { split; [apply lookup_insert_eq|].
    intros l Hl. unfold w2. simpl. rewrite lookup_insert_ne by done.
    by rewrite Hw. }
  destruct (fisnan (np_sum_all (standardized a))); [by eexists _, _|].
  unfold weighted_regression.
  unfold bind at 1. unfold deref at 1.
  rewrite (proj1 Hfinal).
  unfold bind, lift, ret, raise.
  repeat case_match; simplify_eq; by eexists _, _.
Qed.
End InPlace.

Lemma get_single_residuals_standardizes_in_place_witness :
  let a := [[Examples64.fl 1; Examples64.fl 3]; [Examples64.fl 2; Examples64.fl 2]] in
  let wd := Examples64.world_of
              (Examples64.test_object (EkDict ∅) 10 None) {[ 0%nat := a ]} in
  exists r wd',
    _get_single_residuals (DF:=unit) Examples64.no_lstsq 0 0 true false wd = (r, wd') /\
    heap wd' !! 0%nat = Some (standardized a) /\
    forall l, l <> 0%nat -> heap wd' !! l = heap wd !! l.
Proof.
  intros a wd.
  apply (get_single_residuals_standardizes_in_place Examples64.no_lstsq wd 0%nat a 0 false).
  - reflexivity.
  - reflexivity.
  - exact I.
Defined.

(** * Diagonal weights in exact arithmetic *)

Section DiagonalWeights.
Local Open Scope R_scope.

Lemma fold_Rplus_acc (l : list R) (acc : R) :
  fold_left Rplus l acc = acc + fold_left Rplus l 0.
Proof.
  revert acc. induction l as [|x l IH]; intros acc; simpl.
  - lra.
  - rewrite (IH (acc + x)), (IH (0 + x)). lra.
Qed.

Lemma seq_sum_cons (x : R) (l : list R) : seq_sum (x :: l) = x + seq_sum l.
Proof.
  unfold seq_sum. simpl. rewrite fold_Rplus_acc.
  change (fzero (F:=R)) with 0. change (fadd (F:=R)) with Rplus. lra.
Qed.

Lemma seq_sum_app (l1 l2 : list R) :
  seq_sum (l1 ++ l2) = seq_sum l1 + seq_sum l2.
Proof.
  induction l1 as [|x l1 IH]; simpl.
  - unfold seq_sum at 2. simpl. change (fzero (F:=R)) with 0. lra.
  - rewrite !seq_sum_cons, IH. lra.
Qed.

Lemma seq_sum_zip_add (l1 l2 : list R) :
  length l1 = length l2 ->
  seq_sum (zip_with fadd l1 l2) = seq_sum l1 + seq_sum l2.
Proof.
  revert l2. induction l1 as [|x l1 IH]; intros [|y l2] Hlen; try done.
  - unfold seq_sum. simpl. change (fzero (F:=R)) with 0. lra.
  - cbn [zip_with]. rewrite !seq_sum_cons, IH by (simpl in Hlen; lia).
    change (fadd (F:=R)) with Rplus. lra.
Qed.

Lemma add_blocks_exact (k : nat) (r a : list R) :
  length r = 8%nat -> (8 * k <= length a)%nat ->
  seq_sum (add_blocks k r a) = seq_sum r + seq_sum (take (8 * k) a).
Proof.
  revert r a. induction k as [|k IH]; intros r a Hr Ha.
  - simpl. unfold seq_sum at 3. simpl. change (fzero (F:=R)) with 0. lra.
  - cbn [add_blocks]. rewrite IH.
    + rewrite seq_sum_zip_add by (rewrite length_take; lia).
      replace (8 * S k)%nat with (8 + 8 * k)%nat by lia.
      rewrite <- (take_drop 8 (take (8 + 8 * k) a)), seq_sum_app.
      rewrite take_take, Nat.min_l by lia.
      rewrite <- take_drop_commute.
      replace (8 + 8 * k - 8)%nat with (8 * k)%nat by lia. lra.
    + rewrite length_zip_with, length_take. lia.
    + rewrite length_drop. lia.
Qed.

Lemma combine_lanes_exact (r : list R) :
  length r = 8%nat -> combine_lanes r = seq_sum r.
Proof.
  intros Hr. do 8 (destruct r as [|? r]; [done|]). destruct r; [|done].
  unfold combine_lanes, seq_sum. simpl.
  change (fzero (F:=R)) with 0. change (fadd (F:=R)) with Rplus. lra.
Qed.

Lemma block_sum_exact (a : list R) :
  (8 <= length a)%nat -> block_sum a = seq_sum a.
Proof.
  intros Hn. unfold block_sum.
  set (n := length a).
  pose proof (Nat.div_mod_eq n 8) as Hd.
  pose proof (Nat.mod_upper_bound n 8 ltac:(lia)) as Hm.
  assert (Hk : (1 <= n / 8)%nat) by (unfold n in *; lia).
  rewrite fold_Rplus_acc.
  rewrite combine_lanes_exact
    by (apply add_blocks_length; [rewrite length_take | rewrite length_drop];
        unfold n in *; lia).
  rewrite add_blocks_exact; cycle 1.
  { rewrite length_take. unfold n in *. lia. }
  { rewrite length_drop. unfold n in *. lia. }
  rewrite <- (take_drop 8 a) at 4. rewrite seq_sum_app.
  rewrite <- (take_drop (8 * (n / 8 - 1)) (drop 8 a)) at 2. rewrite seq_sum_app.
  rewrite drop_drop.
  replace (8 + 8 * (n / 8 - 1))%nat with (n - n mod 8)%nat by lia.
  change (fold_left Rplus (drop (n - n mod 8) a) 0)
    with (seq_sum (drop (n - n mod 8) a)). lra.
Qed.

Lemma pairwise_sum_rec_exact (fuel : nat) (a : list R) :
  pairwise_sum_rec fuel a = seq_sum a.
Proof.
  revert a. induction fuel as [|fuel IH]; intros a; cbn [pairwise_sum_rec];
    destruct (Nat.ltb_spec (length a) 8); try done;
    destruct (Nat.leb_spec (length a) 128); try (by apply block_sum_exact).
  rewrite !IH, <- seq_sum_app, take_drop. done.
Qed.

(** In exact arithmetic the order of the additions does not matter:
    [np.sum] is the plain sum. *)
Lemma np_sum_exact (l : list R) : np_sum l = seq_sum l.
Proof.
  unfold np_sum, pairwise_sum. rewrite pairwise_sum_rec_exact.
  change (fzero (F:=R)) with 0. change (fadd (F:=R)) with Rplus. lra.
Qed.

Lemma np_sum_cons (x : R) (l : list R) : np_sum (x :: l) = x + np_sum l.
Proof. rewrite !np_sum_exact. apply seq_sum_cons. Qed.

Lemma vdot_cons (x y : R) (u v : list R) :
  vdot (x :: u) (y :: v) = x * y + vdot u v.
Proof. unfold vdot. simpl. by rewrite seq_sum_cons. Qed.

Lemma vdot_nil_r (u : list R) : vdot u [] = 0.
Proof. by destruct u. Qed.

Lemma vdot_zeros (u v : list R) : vdot u (imap (fun _ _ => 0) v) = 0.
Proof.
  revert u. induction v as [|y v IH]; intros u; [apply vdot_nil_r|].
  destruct u as [|x u]; [done|].
  simpl imap. rewrite vdot_cons.
  rewrite (imap_ext _ (fun _ _ => 0)) by done. rewrite IH. lra.
Qed.

(** A dot product against a vector that is zero except at index [j]. *)
Lemma vdot_delta (j : nat) (u v : list R) :
  vdot u (imap (fun i x => if Nat.eqb i j then x else 0) v)
  = nth j u 0 * nth j v 0.
Proof.
  revert u v. induction j as [|j IH]; intros u v.
  - destruct v as [|y v];
      [simpl imap; rewrite vdot_nil_r; destruct u; simpl; lra|].
    destruct u as [|x u]; [simpl; unfold vdot, seq_sum; simpl; lra|].
    simpl imap. rewrite vdot_cons.
    rewrite (imap_ext _ (fun _ _ => 0)) by done. rewrite vdot_zeros.
    simpl. lra.
  - destruct v as [|y v];
      [simpl imap; rewrite vdot_nil_r; destruct u; simpl; lra|].
    destruct u as [|x u]; [simpl; unfold vdot, seq_sum; simpl; lra|].
    simpl imap. rewrite vdot_cons.
    rewrite (imap_ext _ (fun i x => if Nat.eqb i j then x else 0)) by done.
    rewrite IH. simpl. lra.
Qed.

Lemma vdot_comm (u v : list R) : vdot u v = vdot v u.
Proof.
  revert v. induction u as [|x u IH]; intros [|y v]; try done.
  rewrite !vdot_cons, IH. lra.
Qed.

(** Row [i] and column [j] of [np.diag(v)]. *)
Lemma np_diag_row (v : list R) (i : nat) :
  (i < length v)%nat ->
  np_diag v !! i = Some (imap (fun k y => if Nat.eqb k i then y else 0) v).
Proof.
  intros Hi. destruct (lookup_lt_is_Some_2 v i Hi) as [x Hx].
  unfold np_diag. rewrite list_lookup_imap, Hx. simpl. f_equal.
  apply list_eq. intros k. rewrite list_lookup_imap.
  destruct (Nat.eqb_spec k i) as [->|Hne].
  - rewrite Hx. simpl.
    apply list_lookup_insert_eq. unfold np_zeros_nat.
    by rewrite length_replicate.
  - rewrite list_lookup_insert_ne by done.
    destruct (v !! k) as [z|] eqn:Ek; simpl.
    + apply lookup_replicate. split; [done|]. by eapply lookup_lt_Some.
    + apply lookup_ge_None in Ek. apply lookup_ge_None.
      unfold np_zeros_nat. by rewrite length_replicate.
Qed.

Lemma np_diag_column (v : list R) (j : nat) :
  column j (np_diag v) = imap (fun k x => if Nat.eqb k j then x else 0) v.
Proof.
  unfold column, np_diag. apply list_eq. intros k.
  rewrite list_lookup_fmap, !list_lookup_imap.
  destruct (v !! k) as [x|] eqn:Ek; simpl; [|done]. f_equal.
  pose proof (lookup_lt_Some _ _ _ Ek) as Hk.
  destruct (Nat.eqb_spec k j) as [->|Hne].
  - apply nth_lookup_Some. apply list_lookup_insert_eq.
    unfold np_zeros_nat. by rewrite length_replicate.
  - destruct (decide (j < length v)%nat) as [Hj|Hj].
    + apply nth_lookup_Some. rewrite list_lookup_insert_ne by done.
      by apply lookup_replicate.
    + apply nth_overflow. unfold np_zeros_nat.
      rewrite length_insert, length_replicate. lia.
Qed.

Lemma np_diag_length (v : list R) : length (np_diag v) = length v.
Proof. unfold np_diag. by rewrite length_imap. Qed.

Lemma np_diag_hd_length (v : list R) : length (hd [] (np_diag v)) = length v.
Proof.
  destruct v as [|x v]; [done|]. unfold np_diag. simpl.
  unfold np_zeros_nat. simpl. by rewrite length_replicate.
Qed.

(** [np.dot(u, np.diag(v))] multiplies entry by entry. *)
Lemma np_dot_vm_diag (u v : list R) :
  length u = length v ->
  np_dot_vm u (np_diag v) = Ok (zip_with Rmult u v).
Proof.
  intros Hlen. unfold np_dot_vm.
  rewrite np_diag_length, Hlen, Nat.eqb_refl, np_diag_hd_length. f_equal.
  apply list_eq. intros j.
  rewrite list_lookup_fmap, lookup_zip_with.
  destruct (decide (j < length v)%nat) as [Hj|Hj].
  - rewrite lookup_seq_lt by done. simpl.
    rewrite np_diag_column, vdot_delta.
    destruct (lookup_lt_is_Some_2 u j ltac:(lia)) as [x Hx].
    destruct (lookup_lt_is_Some_2 v j Hj) as [y Hy].
    rewrite Hx, Hy. simpl.
    by rewrite (nth_lookup_Some _ _ _ _ Hx), (nth_lookup_Some _ _ _ _ Hy).
  - rewrite lookup_seq_ge by lia. simpl.
    rewrite (proj2 (lookup_ge_None u j)) by lia. done.
Qed.

Lemma np_diag_rows_length (v : list R) :
  Forall (fun r => length r = length v) (np_diag v).
Proof.
  apply Forall_lookup. intros i r Hr.
  assert (Hi : (i < length v)%nat).
  { apply lookup_lt_Some in Hr. by rewrite np_diag_length in Hr. }
  rewrite (np_diag_row v i Hi) in Hr. injection Hr as <-.
  by rewrite length_imap.
Qed.

Lemma column_nth (z : list (list R)) (i j : nat) (row : list R) :
  z !! i = Some row -> nth i (column j z) 0 = nth j row 0.
Proof.
  intros Hrow. apply nth_lookup_Some.
  unfold column. by rewrite list_lookup_fmap, Hrow.
Qed.

Lemma map_nth_seq_id (row : list R) (k : R) :
  map (fun j => nth j row 0 * k) (seq 0 (length row)) = map (Rmult k) row.
Proof.
  apply list_eq. intros j. rewrite !list_lookup_fmap.
  destruct (row !! j) as [x|] eqn:Ej; simpl.
  - rewrite lookup_seq_lt by (by eapply lookup_lt_Some). simpl.
    rewrite (nth_lookup_Some _ _ _ _ Ej). f_equal. lra.
  - apply lookup_ge_None in Ej. by rewrite lookup_seq_ge by lia.
Qed.

(** [np.dot(np.diag(v), z)] scales row [i] of [z] by [v[i]]. *)
Lemma np_dot_mm_diag (v : list R) (z : list (list R)) :
  length z = length v -> rectangular z ->
  np_dot_mm (np_diag v) z = Ok (zip_with (fun w row => map (Rmult w) row) v z).
Proof.
  intros Hlen Hrect. unfold np_dot_mm.
  assert (Hall : forallb (fun r : list R => Nat.eqb (length r) (length z)) (np_diag v) = true).
  { apply forallb_forall. intros r Hr. apply Nat.eqb_eq.
    pose proof (np_diag_rows_length v) as Hrows.
    rewrite Forall_forall in Hrows. rewrite Hlen. apply Hrows.
    by apply list_elem_of_In. }
  rewrite Hall. f_equal. apply list_eq. intros i.
  rewrite list_lookup_fmap, lookup_zip_with.
  destruct (decide (i < length v)%nat) as [Hi|Hi].
  - rewrite (np_diag_row v i Hi). simpl.
    destruct (lookup_lt_is_Some_2 v i Hi) as [w Hw].
    destruct (lookup_lt_is_Some_2 z i ltac:(lia)) as [row Hrow].
    rewrite Hw, Hrow. simpl. f_equal.
    unfold rectangular in Hrect. rewrite Forall_lookup in Hrect.
    rewrite <- (Hrect _ _ Hrow), <- map_nth_seq_id.
    apply map_ext. intros j.
    rewrite vdot_comm, vdot_delta, (column_nth _ _ _ _ Hrow).
    by rewrite (nth_lookup_Some _ _ _ _ Hw).
  - rewrite (proj2 (lookup_ge_None (np_diag v) i)) by (rewrite np_diag_length; lia).
    rewrite (proj2 (lookup_ge_None v i)) by lia. done.
Qed.
End DiagonalWeights.

(** * The weighted residualizer in exact arithmetic *)

Section WeightedResiduals.
Context {DF : Type}.
Variable lstsq : list (list R) -> list R -> result (list R).
Local Open Scope R_scope.

Lemma transpose_rectangular (n : nat) (a : list (list R)) :
  rectangular (transpose n a).
Proof.
  unfold rectangular, transpose. apply Forall_forall. intros r Hr.
  apply list_elem_of_fmap in Hr as (j & -> & Hj).
  destruct n as [|n]; [by apply elem_of_nil in Hj|].
  simpl. unfold column. by rewrite !length_map.
Qed.

Lemma transpose_length (n : nat) (a : list (list R)) : length (transpose n a) = n.
Proof. unfold transpose. by rewrite length_map, length_seq. Qed.

Lemma weighted_regression_exact
    (wd : World (F:=R) (DF:=DF)) (arr : nat) (a : list (list R))
    (s : list R) (T dim_z : Z) (target_var : Z) (return_means : bool) :
  heap wd !! arr = Some a ->
  rectangular a ->
  Z.of_nat (length s) = shape1 a ->
  T = shape1 a ->
  dim_z = (shape0 a - 2)%Z ->
  weighted_regression lstsq arr T dim_z s target_var return_means wd
    = (weighted_residuals lstsq a target_var return_means s, wd).
Proof.
  intros Harr Hrect Hlen -> ->.
  unfold weighted_regression.
  unfold bind, deref, lift, ret, raise.
  rewrite Harr.
  unfold weighted_residuals.
  destruct (py_index a target_var) as [y|e] eqn:Ey; [|reflexivity]. simpl.
  pose proof (rectangular_row_length _ _ _ Hrect Ey) as Hy.
  assert (Hv : length (np_reciprocal s) = Z.to_nat (shape1 a)).
  { unfold np_reciprocal. rewrite length_map. lia. }
  destruct (0 <? shape0 a - 2)%Z.
  - rewrite np_dot_mm_diag;
      [| by rewrite transpose_length | apply transpose_rectangular].
    rewrite np_dot_vm_diag by lia.
    destruct (lstsq _ _) as [beta|e]; [|reflexivity]. cbn [rbind].
    destruct (np_dot_mv _ beta) as [mean|e] eqn:Em; [|reflexivity]. cbn [rbind].
    apply np_dot_mv_length in Em. rewrite transpose_length in Em.
    rewrite np_dot_vm_diag
      by (unfold vsub; rewrite length_zip_with; lia).
    by destruct return_means.
  - rewrite np_dot_vm_diag by lia. by destruct return_means.
Qed.
End WeightedResiduals.

(** * The residualizer in exact arithmetic, with and without standardization *)

Section ExactResiduals.
Context {DF : Type}.
Variable lstsq : list (list R) -> list R -> result (list R).

Lemma standardized_length (a : list (list R)) :
  length (standardized a) = length a.
Proof. unfold standardized. by rewrite length_map. Qed.

Lemma scale_center_length (row : list R) :
  length (scale_row (center_row row)) = length row.
Proof.
  unfold scale_row, center_row. destruct (negb _); by rewrite ?length_map.
Qed.

Lemma standardized_shape1 (a : list (list R)) :
  shape1 (standardized a) = shape1 a.
Proof.
  unfold shape1. destruct a as [|row a]; [done|]. simpl.
  by rewrite scale_center_length.
Qed.

Lemma standardized_rectangular (a : list (list R)) :
  rectangular a -> rectangular (standardized a).
Proof.
  unfold rectangular. intros Hrect.
  pose proof (standardized_shape1 a) as Hs. unfold shape1 in Hs.
  apply Nat2Z.inj in Hs. rewrite Hs.
  unfold standardized. apply Forall_fmap.
  eapply Forall_impl; [exact Hrect|]. intros row Hrow. simpl.
  by rewrite scale_center_length.
Qed.

(** What the call returns and leaves behind, for either value of
    [standardize]. *)
Lemma get_single_residuals_exact
    (wd : World (F:=R) (DF:=DF)) (arr : nat) (a sd : list (list R))
    (s : list R) (target_var : Z) (standardize return_means : bool) :
  heap wd !! arr = Some a ->
  rectangular a ->
  stds (self wd) = Some sd ->
  py_index sd target_var = Ok s ->
  Z.of_nat (length s) = shape1 a ->
  let a' := if standardize then standardized a else a in
  exists wd',
    _get_single_residuals lstsq arr target_var standardize return_means wd
      = (weighted_residuals lstsq a' target_var return_means s, wd') /\
    heap wd' = <[arr := a']> (heap wd) /\ self wd' = self wd.
Proof.
  intros Harr Hrect Hsd Hs Hlen a'.
  unfold _get_single_residuals, lookup_stds.
  unfold bind at 1. unfold deref at 1. rewrite Harr.
  change (fisnan (np_sum_all a)) with false. cbv iota.
  unfold bind at 1. unfold bind at 1. unfold get_self at 1.
  rewrite Hsd. unfold lift at 1. rewrite Hs.
  unfold bind at 1. unfold when. subst a'.
  destruct standardize.
  - destruct (standardize_in_place_run arr a wd Harr) as (ws & ->).
    change (fisnan (np_sum_all (standardized a))) with false. cbv iota.
    eexists. split; [|split].
    + apply weighted_regression_exact.
      * simpl. apply lookup_insert_eq.
      * by apply standardized_rectangular.
      * by rewrite standardized_shape1.
      * by rewrite standardized_shape1.
      * unfold shape0. by rewrite standardized_length.
    + reflexivity.
    + reflexivity.
  - unfold ret at 1. exists wd. split; [|split].
    + by apply weighted_regression_exact.
    + by rewrite insert_id.
    + reflexivity.
Qed.
End ExactResiduals.

(** * Homoskedastic expert knowledge *)

Section Homoskedastic.
Context {F : Type} `{Float64Ops F} {DF : Type}.
Variable df_N : DF -> nat.
Variable construct_array :
  DF -> list node -> list node -> list node -> Z -> option string ->
  bool -> string -> Z -> result (returned (F:=F)).
Variable pp_DataFrame : list (list F) -> result DF.
Variable lstsq : list (list F) -> list F -> result (list F).
Variable argsort : list F -> list Z.
Variable argsort_int : list Z -> list Z.

(** With "homoskedasticity" the registry becomes the empty dict, the data
    cache is not touched, and the estimate is all ones. *)
Lemma get_stds_homoskedastic
    (wd : World (F:=F) (DF:=DF)) (array : list (list F)) (x y : node)
    (Zc : list node) (tau_max : Z) (cut_off : string) (verb : Z) :
  gt_std_matrix (self wd) = None ->
  expert_knowledge (self wd) = EkVal (PyStr HOMOSKEDASTICITY) ->
  let ones := np_ones_nat (Z.to_nat (shape1 array)) in
  _get_stds df_N construct_array pp_DataFrame lstsq argsort argsort_int
      array [x] [y] Zc tau_max cut_off verb wd
    = (Ok (Some [ones; ones]),
       {| self := set_stds (Some [ones; ones])
                    (set_expert_knowledge (EkDict ∅) (self wd));
          heap := heap wd; warnings := warnings wd |}).
Proof.
  intros Hgt Hek ones.
  unfold _get_stds.
  unfold bind at 1. unfold get_self at 1. rewrite Hgt.
  unfold bind at 1. unfold get_self at 1. rewrite Hek.
  change (ek_eq_str (EkVal (PyStr HOMOSKEDASTICITY)) TIME_DEPENDENT) with false.
  change (ek_eq_str (EkVal (PyStr HOMOSKEDASTICITY)) HOMOSKEDASTICITY) with true.
  cbv iota.
  unfold bind at 1. unfold set_self at 1.
  unfold bind at 1. unfold get_self at 1. simpl self.
  unfold bind at 1. unfold lift at 1. unfold ek_items.
  change (expert_knowledge (set_expert_knowledge (EkDict ∅) (self wd)))
    with (EkDict ∅).
  cbv beta iota. rewrite map_to_list_empty. simpl map.
  unfold bind at 1. unfold when. simpl existsb. unfold ret at 1.
  unfold _get_std_estimation, estimate_row.
  unfold bind, lift, get_self, set_self, ret. simpl.
  rewrite !lookup_empty. reflexivity.
Qed.
End Homoskedastic.

Section HomoskedasticResiduals.
Context {DF : Type}.
Variable df_N : DF -> nat.
Variable construct_array :
  DF -> list node -> list node -> list node -> Z -> option string ->
  bool -> string -> Z -> result (returned (F:=R)).
Variable pp_DataFrame : list (list R) -> result DF.
Variable lstsq : list (list R) -> list R -> result (list R).
Variable argsort : list R -> list Z.
Variable argsort_int : list Z -> list Z.
Local Open Scope R_scope.

Lemma reciprocal_ones (n : nat) :
  np_reciprocal (np_ones_nat n) = replicate n (1 / 1).
Proof. unfold np_reciprocal, np_ones_nat. apply fmap_replicate. Qed.

Lemma zip_mult_unit_weights (y : list R) (n : nat) :
  length y = n -> zip_with Rmult y (np_reciprocal (np_ones_nat n)) = y.
Proof.
  intros <-. rewrite reciprocal_ones.
  induction y as [|x y IH]; [done|].
  cbn [length replicate zip_with]. rewrite IH. f_equal. field.
Qed.

Lemma scale_rows_unit_weights (z : list (list R)) (n : nat) :
  length z = n ->
  zip_with (fun w row => map (Rmult w) row) (np_reciprocal (np_ones_nat n)) z = z.
Proof.
  intros <-. rewrite reciprocal_ones.
  induction z as [|row z IH]; [done|].
  cbn [length replicate zip_with]. rewrite IH. f_equal.
  rewrite <- (map_id row) at 2. apply map_ext. intros x. field.
Qed.

(** With all weights equal to one the weighted fit is the plain one. *)
Lemma weighted_residuals_unit_weights (a : list (list R)) (target_var : Z)
    (return_means : bool) :
  rectangular a ->
  weighted_residuals lstsq a target_var return_means
      (np_ones_nat (Z.to_nat (shape1 a)))
    = ols_residuals lstsq a target_var return_means.
Proof.
  intros Hrect. unfold weighted_residuals, ols_residuals.
  destruct (py_index a target_var) as [y|e] eqn:Ey; [|reflexivity].
  cbn [rbind].
  pose proof (rectangular_row_length _ _ _ Hrect Ey) as Hy.
  destruct (0 <? shape0 a - 2)%Z.
  - rewrite scale_rows_unit_weights by apply transpose_length.
    rewrite zip_mult_unit_weights by lia.
    destruct (lstsq _ y) as [beta|e]; [|reflexivity]. cbn [rbind].
    destruct (np_dot_mv _ beta) as [mean|e] eqn:Em; [|reflexivity]. cbn [rbind].
    apply np_dot_mv_length in Em. rewrite transpose_length in Em.
    rewrite zip_mult_unit_weights; [done|].
    unfold vsub. rewrite length_zip_with. lia.
  - rewrite zip_mult_unit_weights by lia. done.
Qed.

(** C6 (amended): with expert knowledge "homoskedasticity" the registry
    becomes the empty dict and the estimated standard deviations are all
    ones; then, for arrays of real numbers and in exact arithmetic, the
    weighted residualizer returns for X and for Y exactly the plain OLS
    residual of that row on the conditioning rows (of the standardized array
    when [standardize] is set). *)
Theorem homoskedastic_residuals_are_ols
    (wd : World (F:=R) (DF:=DF)) (array : list (list R)) (x y : node)
    (Zc : list node) (tau_max : Z) (cut_off : string) (verb : Z)
    (arr : nat) (target_var : Z) (standardize return_means : bool) :
  gt_std_matrix (self wd) = None ->
  expert_knowledge (self wd) = EkVal (PyStr HOMOSKEDASTICITY) ->
  heap wd !! arr = Some array ->
  rectangular array ->
  (0 <= target_var < 2)%Z ->
  let ones := np_ones_nat (Z.to_nat (shape1 array)) in
  exists wd1 wd2,
    _get_stds df_N construct_array pp_DataFrame lstsq argsort argsort_int
        array [x] [y] Zc tau_max cut_off verb wd
      = (Ok (Some [ones; ones]), wd1) /\
    expert_knowledge (self wd1) = EkDict ∅ /\
    stds (self wd1) = Some [ones; ones] /\
    _get_single_residuals lstsq arr target_var standardize return_means wd1
      = (ols_residuals lstsq (if standardize then standardized array else array)
           target_var return_means, wd2).
Proof.
  intros Hgt Hek Harr Hrect Htv ones.
  set (wd1 := {| self := set_stds (Some [ones; ones])
                           (set_expert_knowledge (EkDict ∅) (self wd));
                 heap := heap wd; warnings := warnings wd |}).
  destruct (get_single_residuals_exact lstsq wd1
              arr array [ones; ones] ones target_var standardize return_means)
    as (wd2 & Hcall & _ & _).
  - exact Harr.
  - exact Hrect.
  - reflexivity.
  - assert (target_var = 0 \/ target_var = 1)%Z as [-> | ->] by lia; reflexivity.
  - unfold ones, np_ones_nat. rewrite length_replicate. unfold shape1. lia.
  - exists wd1, wd2. split; [by apply get_stds_homoskedastic|].
    split; [reflexivity|]. split; [reflexivity|].
    rewrite Hcall. f_equal. unfold ones.
    destruct standardize.
    + rewrite <- standardized_shape1.
      apply weighted_residuals_unit_weights.
      by apply standardized_rectangular.
    + by apply weighted_residuals_unit_weights.
Qed.
End HomoskedasticResiduals.

Lemma homoskedastic_residuals_are_ols_witness :
  let wd := DatasetR.world_of
              (DatasetR.test_object (EkVal (PyStr HOMOSKEDASTICITY)) None)
              {[ 0%nat := DatasetR.xyz ]} in
  exists wd1 wd2,
    DatasetR.get_stds DatasetR.xyz [(0, 0)] [(0, 0)] [(1, 0)] 0 "2xtau_max" 0 wd
      = (Ok (Some [DatasetR.ones3; DatasetR.ones3]), wd1) /\
    expert_knowledge (self wd1) = EkDict ∅ /\
    stds (self wd1) = Some [DatasetR.ones3; DatasetR.ones3] /\
    _get_single_residuals DatasetR.lstsq 0 1 false false wd1
      = (ols_residuals DatasetR.lstsq DatasetR.xyz 1 false, wd2).
Proof.
  intros wd.
  apply (homoskedastic_residuals_are_ols DatasetR.N DatasetR.construct_array
           DatasetR.pp_DataFrame DatasetR.lstsq DatasetR.argsort
           DatasetR.argsort_int wd DatasetR.xyz (0, 0) (0, 0) [(1, 0)] 0
           "2xtau_max" 0 0%nat 1 false false).
  - reflexivity.
  - reflexivity.
  - apply lookup_singleton_eq.
  - repeat constructor.
  - lia.
Defined.

(** C6 (as stated): on binary64 an array can be free of NaN and hold an
    infinity.  With X = (+inf, 1), Y = (1, 1) and no conditions the weights
    are the identity matrix, and the product of X with it has 0 * inf = NaN
    in its second entry: the residualizer returns (+inf, NaN) where the
    plain OLS residual is the row (+inf, 1). *)
Lemma homoskedastic_residual_differs_on_infinite_entry :
  let a := [[Examples64.pinf; Examples64.fl 1]; [Examples64.fl 1; Examples64.fl 1]] in
  let wd := Examples64.world_of
              (Examples64.test_object (EkVal (PyStr HOMOSKEDASTICITY)) 10 None)
              {[ 0%nat := a ]} in
  let wd1 := (Dataset64.get_stds a [(0, 0)] [(1, 0)] [] 0 "2xtau_max" 0 wd).2 in
  Forall (Forall (fun x => fisnan x = false)) a /\
  expert_knowledge (self wd1) = EkDict ∅ /\
  stds (self wd1) = Some [[Examples64.fl 1; Examples64.fl 1];
                          [Examples64.fl 1; Examples64.fl 1]] /\
  (_get_single_residuals Examples64.no_lstsq 0 0 false false wd1).1
    = Ok (Resid [Examples64.pinf; S754_nan]) /\
  ols_residuals Examples64.no_lstsq a 0 false
    = Ok (Resid [Examples64.pinf; Examples64.fl 1]).
Proof.
  split; [repeat constructor|]. repeat split.
Qed.

(** * Scaling the standard deviations *)

(** C8 (as stated): on binary64 the scaling holds up to rounding only.  With
    X = (3, 3), no conditions, the standard deviations s = (5, 5) and c = 7
    (so that c * s = (35, 35) exactly), the residual for c * s is
    3 * (1 / 35) rounded, and it differs in the last bit from the residual
    for s, 3 * (1 / 5) rounded, whether that one is multiplied by 1 / 7 or
    divided by 7. *)
Lemma residuals_scaling_rounds_on_binary64 :
  let fl := Examples64.fl in
  let a := [[fl 3; fl 3]; [fl 3; fl 3]] in
  let s := [fl 5; fl 5] in
  let s_c := map (fmul (fl 7)) s in
  let wd := Examples64.world_of
              (Examples64.test_object (EkDict ∅) 10 (Some [s; s])) {[ 0%nat := a ]} in
  let wd_c := Examples64.world_of
                (Examples64.test_object (EkDict ∅) 10 (Some [s_c; s_c]))
                {[ 0%nat := a ]} in
  let r := S754_finite false 5404319552844596 (-53) in
  let r_c := S754_finite false 6176365203250966 (-56) in
  let r_scaled := S754_finite false 6176365203250967 (-56) in
  Forall (Forall (fun x => fisnan x = false)) a /\
  s_c = [fl 35; fl 35] /\
  (_get_single_residuals Examples64.no_lstsq 0 0 false false wd).1
    = Ok (Resid [r; r]) /\
  (_get_single_residuals Examples64.no_lstsq 0 0 false false wd_c).1
    = Ok (Resid [r_c; r_c]) /\
  map (fmul (fdiv fone (fl 7))) [r; r] = [r_scaled; r_scaled] /\
  map (fun x => fdiv x (fl 7)) [r; r] = [r_scaled; r_scaled] /\
  [r_c; r_c] <> [r_scaled; r_scaled].
Proof.
  split; [repeat constructor|].
  repeat split; try (vm_compute; reflexivity). discriminate.
Qed.

Section Scaling.
Context {DF : Type}.
Variable lstsq : list (list R) -> list R -> result (list R).
Local Open Scope R_scope.

Lemma zip_scaled_reciprocal (u s : list R) (c : R) :
  c <> 0 -> Forall (fun x => x <> 0) s ->
  zip_with Rmult u (np_reciprocal (map (Rmult c) s))
  = map (Rmult (/ c)) (zip_with Rmult u (np_reciprocal s)).
Proof.
  intros Hc Hs. revert u. induction Hs as [|x s Hx _ IH]; intros u.
  - by destruct u.
  - destruct u as [|y u]; [done|].
    unfold np_reciprocal in *. cbn [map zip_with]. rewrite IH. f_equal.
    change (fdiv (F:=R) fone ?t) with (1 / t). by field.
Qed.

Lemma rows_scaled_reciprocal (z : list (list R)) (s : list R) (c : R) :
  c <> 0 -> Forall (fun x => x <> 0) s ->
  zip_with (fun w row => map (Rmult w) row) (np_reciprocal (map (Rmult c) s)) z
  = map (map (Rmult (/ c)))
        (zip_with (fun w row => map (Rmult w) row) (np_reciprocal s) z).
Proof.
  intros Hc Hs. revert z. induction Hs as [|x s Hx _ IH]; intros z.
  - done.
  - destruct z as [|row z]; [done|].
    unfold np_reciprocal in *. cbn [map zip_with]. rewrite IH. f_equal.
    rewrite map_map. apply map_ext. intros t.
    change (fdiv (F:=R) fone ?t) with (1 / t). by field.
Qed.

(** Scaling the standard deviations by [c] scales the weighted fit's
    residual by [1 / c] and leaves the fitted mean alone. *)
Lemma weighted_residuals_scaled (a : list (list R)) (target_var : Z)
    (return_means : bool) (s : list R) (c : R) :
  0 < c -> Forall (fun x => 0 < x) s ->
  (forall (k : R) (A : list (list R)) (b : list R), 0 < k ->
     lstsq (map (map (Rmult k)) A) (map (Rmult k) b) = lstsq A b) ->
  weighted_residuals lstsq a target_var return_means (map (Rmult c) s)
  = scale_result (1 / c) (weighted_residuals lstsq a target_var return_means s).
Proof.
  intros Hc Hs Hsolver.
  assert (Hc0 : c <> 0) by lra.
  assert (Hs0 : Forall (fun x => x <> 0) s).
  { eapply Forall_impl; [exact Hs|]. intros x Hx. simpl in Hx. lra. }
  assert (Hmap : forall l : list R,
            map (Rmult (/ c)) l = map (fun x => x * (1 / c)) l).
  { intros l. apply map_ext. intros x. by field. }
  unfold weighted_residuals.
  destruct (py_index a target_var) as [y|e]; [|reflexivity]. cbn [rbind].
  destruct (0 <? shape0 a - 2)%Z.
  - rewrite rows_scaled_reciprocal, zip_scaled_reciprocal by done.
    rewrite Hsolver by (by apply Rinv_0_lt_compat).
    destruct (lstsq _ _) as [beta|e]; [|reflexivity]. cbn [rbind].
    destruct (np_dot_mv _ beta) as [mean|e]; [|reflexivity]. cbn [rbind].
    rewrite zip_scaled_reciprocal, Hmap by done.
    by destruct return_means.
  - rewrite zip_scaled_reciprocal, Hmap by done.
    by destruct return_means.
Qed.

(** C8: for a standard-deviation row [s] with strictly positive entries and
    a constant [c > 0], running the residualizer ([standardize=False]) with
    [c * s] in place of [s] returns the residual multiplied by [1 / c]
    (and raises what it raised before, if it raised).  Exact arithmetic;
    the least-squares solver is invariant under a common positive rescaling
    of its design matrix and target. *)
Theorem residuals_scale_inversely_with_stds
    (wd wd_c : World (F:=R) (DF:=DF)) (arr : nat) (a sd sd_c : list (list R))
    (s : list R) (target_var : Z) (return_means : bool) (c : R) :
  heap wd !! arr = Some a ->
  rectangular a ->
  stds (self wd) = Some sd ->
  py_index sd target_var = Ok s ->
  Z.of_nat (length s) = shape1 a ->
  Forall (fun x => 0 < x) s ->
  0 < c ->
  heap wd_c = heap wd ->
  stds (self wd_c) = Some sd_c ->
  py_index sd_c target_var = Ok (map (Rmult c) s) ->
  (forall (k : R) (A : list (list R)) (b : list R), 0 < k ->
     lstsq (map (map (Rmult k)) A) (map (Rmult k) b) = lstsq A b) ->
  (_get_single_residuals lstsq arr target_var false return_means wd_c).1
  = scale_result (1 / c)
      (_get_single_residuals lstsq arr target_var false return_means wd).1.
Proof.
  intros Harr Hrect Hsd Hs Hlen Hpos Hc Hheap Hsd_c Hs_c Hsolver.
  destruct (get_single_residuals_exact lstsq wd arr a sd s target_var false
              return_means Harr Hrect Hsd Hs Hlen) as (w & -> & _).
  destruct (get_single_residuals_exact lstsq wd_c arr a sd_c (map (Rmult c) s)
              target_var false return_means) as (w' & -> & _);
    [by rewrite Hheap | done | done | done | by rewrite length_map |].
  simpl. by apply weighted_residuals_scaled.
Qed.
End Scaling.

(** ** The closed form for one regressor is scale invariant *)

Section SolverScaling.
Local Open Scope R_scope.

Lemma vdot_scaled (k : R) (u v : list R) :
  vdot (map (Rmult k) u) (map (Rmult k) v) = k * k * vdot u v.
Proof.
  revert v. induction u as [|x u IH]; intros [|y v];
    try (unfold vdot, seq_sum; simpl; lra).
  cbn [map]. rewrite !vdot_cons, IH. lra.
Qed.

Lemma vdot_self_nonneg (u : list R) : 0 <= vdot u u.
Proof.
  induction u as [|x u IH]; [unfold vdot, seq_sum; simpl; lra|].
  rewrite vdot_cons. nra.
Qed.

Lemma vdot_self_zero (u v : list R) : vdot u u = 0 -> vdot u v = 0.
Proof.
  revert v. induction u as [|x u IH]; intros v Hu; [by destruct v|].
  destruct v as [|y v]; [apply vdot_nil_r|].
  rewrite vdot_cons in *. pose proof (vdot_self_nonneg u) as Hnn.
  assert (Hx : x = 0) by nra.
  assert (Hu' : vdot u u = 0) by nra.
  rewrite (IH v Hu'), Hx. lra.
Qed.

Lemma column_scaled (k : R) (A : list (list R)) :
  column 0 (map (map (Rmult k)) A) = map (Rmult k) (column 0 A).
Proof.
  unfold column. rewrite !map_map. apply map_ext. intros [|x r]; simpl; lra.
Qed.

(** The closed form does not change when design and target are both
    multiplied by [k > 0]. *)
Lemma lstsq_scale_invariant (k : R) (A : list (list R)) (b : list R) :
  0 < k ->
  DatasetR.lstsq (map (map (Rmult k)) A) (map (Rmult k) b) = DatasetR.lstsq A b.
Proof.
  intros Hk. unfold DatasetR.lstsq. do 2 f_equal.
  rewrite column_scaled, !vdot_scaled.
  destruct (Req_dec_T (vdot (column 0 A) (column 0 A)) 0) as [E|E].
  - rewrite (vdot_self_zero _ b E). unfold Rdiv. lra.
  - field. split; lra.
Qed.
End SolverScaling.

Lemma residuals_scale_inversely_with_stds_witness :
  let s := [1; 1; 2]%R in
  let wd := DatasetR.world_of
              (DatasetR.test_object (EkDict ∅) (Some [[1; 2; 4]%R; s]))
              {[ 0%nat := DatasetR.xyz ]} in
  let wd_c := DatasetR.world_of
                (DatasetR.test_object (EkDict ∅) (Some [[1; 2; 4]%R; map (Rmult 2) s]))
                {[ 0%nat := DatasetR.xyz ]} in
  (_get_single_residuals DatasetR.lstsq 0 1 false false wd_c).1
  = scale_result (1 / 2)
      (_get_single_residuals DatasetR.lstsq 0 1 false false wd).1.
Proof.
  intros s wd wd_c.
  apply (residuals_scale_inversely_with_stds DatasetR.lstsq wd wd_c 0%nat
           DatasetR.xyz [[1; 2; 4]%R; s] [[1; 2; 4]%R; map (Rmult 2) s] s 1
           false 2%R).
  - apply lookup_singleton_eq.
  - repeat constructor.
  - reflexivity.
  - reflexivity.
  - reflexivity.
  - repeat constructor; lra.
  - lra.
  - reflexivity.
  - reflexivity.
  - reflexivity.
  - intros k A b Hk. by apply lstsq_scale_invariant.
Defined.

(** * Model selection score *)

Section ModelSelection.
Context {F : Type} `{Float64Ops F} {DF : Type}.
Variable df_N : DF -> nat.
Variable construct_array :
  DF -> list node -> list node -> list node -> Z -> option string ->
  bool -> string -> Z -> result (returned (F:=F)).
Variable pp_DataFrame : list (list F) -> result DF.
Variable lstsq : list (list F) -> list F -> result (list F).
Variable argsort : list F -> list Z.
Variable argsort_int : list Z -> list Z.
Variable np_log : F -> F.
Variable trafo2normal : list (list F) -> result (list (list F)).

(** C1: the score is never returned.  [get_model_selection_criterion] asks
    [_get_array] for the array with [return_cleaned_xyz=False]; the data
    frame then returns three values, and the assignment to the four names
    [array, xyz, XYZ, data_type] in [_get_array] raises [ValueError].  This
    happens before [_get_stds] runs: no attribute, array or warning changes,
    and it happens for either value of [corrected_aic]. *)
Theorem get_model_selection_criterion_raises
    (wd : World (F:=F) (DF:=DF)) (j : Z) (parents : list node)
    (tau_max : Z) (corrected_aic : bool) (array : list (list F)) (xyz : list Z) :
  construct_array (dataframe (self wd)) [(j, 0)] [(j, 0)] parents tau_max
      (mask_type (self wd)) false "2xtau_max" (verbosity (self wd))
    = Ok (Returned3 array xyz) ->
  get_model_selection_criterion df_N construct_array pp_DataFrame lstsq argsort
      argsort_int np_log trafo2normal j parents tau_max corrected_aic wd
    = (Raise (ValueError "not enough values to unpack (expected 4, got 3)"), wd).
Proof.
  intros Hc.
  unfold get_model_selection_criterion, _get_array.
  change ((1 <? Z.of_nat (length [(j, 0)])) || (1 <? Z.of_nat (length [(j, 0)])))
    with false. cbv iota.
  unfold bind, get_self, lift, construct_array4. cbv beta.
  rewrite Hc. reflexivity.
Qed.
End ModelSelection.

Lemma get_model_selection_criterion_raises_witness :
  DatasetR.construct_array tt [(0, 0)] [(0, 0)] RunR.parents 0 None false
      "2xtau_max" 0
    = Ok (Returned3 DatasetR.xyz [0; 1; 2]) /\
  DatasetR.score 0 RunR.parents 0 false RunR.wd
    = (Raise (ValueError "not enough values to unpack (expected 4, got 3)"),
       RunR.wd).
Proof.
  split; [reflexivity|].
  apply (get_model_selection_criterion_raises DatasetR.N DatasetR.construct_array
           DatasetR.pp_DataFrame DatasetR.lstsq DatasetR.argsort
           DatasetR.argsort_int ln DatasetR.trafo2normal
           RunR.wd 0 RunR.parents 0 false DatasetR.xyz [0; 1; 2]).
  reflexivity.
Defined.

(** * Shapes and frames of the estimators *)

Ltac run_monad :=
  unfold bind, lift, ret, raise, get_self, set_self, when in *.

Section EstimatorFrames.
Context {F : Type} `{Float64Ops F} {DF : Type}.
Variable lstsq : list (list F) -> list F -> result (list F).
Variable argsort : list F -> list Z.
Variable argsort_int : list Z -> list Z.

Lemma estimate_std_time_frame (arr : list (list F)) (target_var : Z)
    (wd : World (F:=F) (DF:=DF)) :
  (_estimate_std_time lstsq arr target_var wd).2 = wd.
Proof.
  unfold _estimate_std_time. run_monad. by repeat case_match.
Qed.

Lemma estimate_std_parent_frame (arr : list (list F)) (target_var target_lag : Z)
    (H0 : pyval) (wd : World (F:=F) (DF:=DF)) :
  (_estimate_std_parent lstsq argsort argsort_int arr target_var target_lag H0 wd).2 = wd.
Proof.
  unfold _estimate_std_parent. run_monad. by repeat case_match.
Qed.

Lemma broadcast_row_length (T : nat) (v row : list F) :
  broadcast_row T v = Ok row -> length row = T.
Proof.
  unfold broadcast_row. destruct (Nat.eqb_spec (length v) T) as [E|_].
  - by intros [= <-].
  - destruct v as [|x [|? ?]]; try discriminate.
    intros [= <-]. apply length_replicate.
Qed.

Lemma assign_row_shape {A} (P : A -> Prop) (a a' : list A) (i : Z) (row : A) :
  assign_row a i row = Ok a' -> P row -> Forall P a ->
  length a' = length a /\ Forall P a'.
Proof.
  unfold assign_row. case_match; [discriminate|]. intros [= <-] Hrow Ha.
  split; [apply length_insert|]. by apply Forall_insert.
Qed.

Lemma estimate_row_frame (array : list (list F)) (count : Z) (variable : node)
    (stds : list (list F)) (wd : World (F:=F) (DF:=DF)) :
  (estimate_row lstsq argsort argsort_int array count variable stds wd).2 = wd.
Proof.
  unfold estimate_row.
  unfold bind at 1. unfold get_self at 1.
  unfold bind at 1. unfold lift at 1.
  destruct (ek_contains _ _) as [[|]|e]; try reflexivity.
  unfold bind at 1. unfold lift at 1.
  destruct (ek_lookup _ _) as [entry|e]; try reflexivity.
  unfold bind at 1. unfold lift at 1.
  destruct (py_getitem entry 0) as [hs|e]; try reflexivity.
  destruct (py_eq_str hs TIME_DEPENDENT).
  - unfold bind at 1.
    pose proof (estimate_std_time_frame array count wd) as Hf.
    destruct (_estimate_std_time _ _ _ _) as [[est|e] w]; simpl in Hf; subst w;
      [|reflexivity].
    run_monad. by repeat case_match.
  - destruct (py_is_tuple hs); [|reflexivity].
    unfold bind at 1.
    pose proof (estimate_std_parent_frame array count variable.2 hs wd) as Hf.
    destruct (_estimate_std_parent _ _ _ _ _ _ _ _) as [[est|e] w]; simpl in Hf; subst w;
      [|reflexivity].
    run_monad. by repeat case_match.
Qed.

Lemma estimate_row_shape (array : list (list F)) (count : Z) (variable : node)
    (stds stds' : list (list F)) (wd wd' : World (F:=F) (DF:=DF)) :
  estimate_row lstsq argsort argsort_int array count variable stds wd = (Ok stds', wd') ->
  Forall (fun r => length r = Z.to_nat (shape1 array)) stds ->
  length stds' = length stds /\
  Forall (fun r => length r = Z.to_nat (shape1 array)) stds'.
Proof.
  intros Hrun Hstds. revert Hrun. unfold estimate_row.
  unfold bind at 1. unfold get_self at 1.
  unfold bind at 1. unfold lift at 1.
  destruct (ek_contains _ _) as [[|]|e]; try (intros [= <- <-]; done); try done.
  unfold bind at 1. unfold lift at 1.
  destruct (ek_lookup _ _) as [entry|e]; try done.
  unfold bind at 1. unfold lift at 1.
  destruct (py_getitem entry 0) as [hs|e]; try done.
  destruct (py_eq_str hs TIME_DEPENDENT).
  - unfold bind at 1.
    destruct (_estimate_std_time _ _ _ _) as [[est|e] w]; [|done].
    unfold bind at 1. unfold lift.
    destruct (broadcast_row _ est) as [row|e] eqn:Eb; [|done].
    apply broadcast_row_length in Eb.
    destruct (assign_row stds count row) as [s|e] eqn:Ea; [|done].
    intros [= <- <-]. by eapply assign_row_shape.
  - destruct (py_is_tuple hs); [|intros [= <- <-]; done].
    unfold bind at 1.
    destruct (_estimate_std_parent _ _ _ _ _ _ _ _) as [[est|e] w]; [|done].
    unfold bind at 1. unfold lift.
    destruct (broadcast_row _ est) as [row|e] eqn:Eb; [|done].
    apply broadcast_row_length in Eb.
    destruct (assign_row stds count row) as [s|e] eqn:Ea; [|done].
    intros [= <- <-]. by eapply assign_row_shape.
Qed.

Lemma get_std_estimation_frame (array : list (list F)) (X Y : list node)
    (wd : World (F:=F) (DF:=DF)) :
  (_get_std_estimation lstsq argsort argsort_int array X Y wd).2 = wd.
Proof.
  unfold _get_std_estimation.
  unfold bind at 1. unfold lift at 1. destruct (py_index X 0) as [x0|e]; [|done].
  unfold bind at 1. unfold lift at 1. destruct (py_index Y 0) as [y0|e]; [|done].
  unfold bind at 1.
  pose proof (estimate_row_frame array 0 x0
                [np_ones_nat (Z.to_nat (shape1 array));
                 np_ones_nat (Z.to_nat (shape1 array))] wd) as Hx.
  destruct (estimate_row _ _ _ _ 0 x0 _ wd) as [[s|e] w]; simpl in Hx; subst w; [|done].
  unfold bind at 1.
  pose proof (estimate_row_frame array 1 y0 s wd) as Hy.
  destruct (estimate_row _ _ _ _ 1 y0 _ wd) as [[s'|e] w]; simpl in Hy; subst w; done.
Qed.

Lemma get_std_estimation_rows (array : list (list F)) (X Y : list node)
    (wd : World (F:=F) (DF:=DF)) (stds : list (list F)) :
  (_get_std_estimation lstsq argsort argsort_int array X Y wd).1 = Ok stds ->
  length stds = 2%nat /\
  Forall (fun row => Z.of_nat (length row) = shape1 array) stds.
Proof.
  unfold _get_std_estimation.
  unfold bind at 1. unfold lift at 1. destruct (py_index X 0) as [x0|e]; [|done].
  unfold bind at 1. unfold lift at 1. destruct (py_index Y 0) as [y0|e]; [|done].
  unfold bind at 1.
  set (T := Z.to_nat (shape1 array)).
  destruct (estimate_row _ _ _ _ 0 x0 _ wd) as [[s|e] w] eqn:Ex; [|done].
  apply estimate_row_shape in Ex as [Hl1 Hs1];
    [| repeat constructor; apply length_replicate].
  unfold bind at 1.
  destruct (estimate_row _ _ _ _ 1 y0 _ w) as [[s'|e] w'] eqn:Ey; [|done].
  apply estimate_row_shape in Ey as [Hl2 Hs2]; [|done].
  simpl. intros [= <-]. split; [by rewrite Hl2, Hl1|].
  eapply Forall_impl; [exact Hs2|]. intros r Hr. simpl in Hr. rewrite Hr.
  unfold shape1. lia.
Qed.

(** X1: whatever the expert knowledge says, a matrix returned by
    [_get_std_estimation] has the documented shape (2, T), and the call
    itself changes nothing: no attribute, no array, no warning, whether it
    returns or raises. *)
Theorem get_std_estimation_shape (array : list (list F)) (X Y : list node)
    (wd : World (F:=F) (DF:=DF)) :
  (_get_std_estimation lstsq argsort argsort_int array X Y wd).2 = wd /\
  forall stds,
    (_get_std_estimation lstsq argsort argsort_int array X Y wd).1 = Ok stds ->
    length stds = 2%nat /\
    Forall (fun row => Z.of_nat (length row) = shape1 array) stds.
Proof.
  split; [apply get_std_estimation_frame|].
  intros stds. apply get_std_estimation_rows.
Qed.
End EstimatorFrames.

Lemma get_std_estimation_shape_witness :
  let wd := Examples64.world_of
              (Examples64.test_object
                 (EkDict {[ 0 := PyList [PyStr TIME_DEPENDENT] ]}) 2 None) ∅ in
  let run := _get_std_estimation Examples64.no_lstsq Dataset64.argsort
               Dataset64.argsort_int Examples64.xy4 [(0, 0)] [(1, 0)] wd in
  run.2 = wd /\
  exists stds, run.1 = Ok stds /\ length stds = 2%nat /\
    Forall (fun row => Z.of_nat (length row) = 4) stds.
Proof.
  intros wd run.
  destruct (get_std_estimation_shape Examples64.no_lstsq Dataset64.argsort
              Dataset64.argsort_int Examples64.xy4 [(0, 0)] [(1, 0)] wd)
    as [Hframe Hshape].
  split; [exact Hframe|].
  eexists. split; [reflexivity|]. apply Hshape. reflexivity.
Defined.

(** * Edge cases of the estimators *)

Section Smoothing.
Context {F : Type} `{Float64Ops F}.

Lemma smooth_nonpositive_window (w : Z) (resid : list F) :
  w <= 0 -> exists msg, smooth w resid = Raise (ValueError msg).
Proof.
  intros Hw. unfold smooth, np_ones.
  destruct (Z.ltb_spec (w - 1) 0); [|lia]. by eexists.
Qed.

Lemma smooth_empty (w : Z) : exists msg, smooth (F:=F) w [] = Raise (ValueError msg).
Proof.
  unfold smooth, np_ones.
  destruct (w - 1 <? 0); [by eexists|]. destruct (w <? 0); [by eexists|].
  simpl. by eexists.
Qed.

Lemma smooth_long_window (w : Z) (resid : list F) :
  (1 <= length resid)%nat -> Z.of_nat (length resid) < w ->
  exists est, smooth w resid = Ok est /\
    Z.of_nat (length est) = 2 * w - Z.of_nat (length resid).
Proof.
  intros Hne Hw. unfold smooth. rewrite !np_ones_ok by lia. simpl.
  unfold np_convolve_valid. rewrite length_replicate.
  destruct (Nat.eqb_spec (length resid) 0) as [E|_]; [lia|].
  destruct (Nat.eqb_spec (Z.to_nat w) 0) as [E|_]; [lia|]. simpl.
  destruct (Nat.ltb_spec (length resid) (Z.to_nat w)) as [_|E]; [|lia].
  simpl. eexists. split; [reflexivity|].
  rewrite length_app, !length_map, length_seq, !length_replicate. lia.
Qed.
End Smoothing.

Section EstimatorEdges.
Context {F : Type} `{Float64Ops F} {DF : Type}.
Variable lstsq : list (list F) -> list F -> result (list F).
Variable argsort : list F -> list Z.
Variable argsort_int : list Z -> list Z.

(** X2: without conditioning rows the parent-dependent estimator is the
    time-dependent one: the driver [H], the lag and [self.data] are not
    looked at, and the residuals are smoothed in time order. *)
Theorem estimate_std_parent_without_conditions
    (arr : list (list F)) (target_var target_lag : Z) (Hs : pyval)
    (wd : World (F:=F) (DF:=DF)) :
  shape0 arr <= 2 ->
  _estimate_std_parent lstsq argsort argsort_int arr target_var target_lag Hs wd
    = _estimate_std_time lstsq arr target_var wd.
Proof.
  intros Hdim. unfold _estimate_std_parent, _estimate_std_time.
  destruct (Z.ltb_spec 0 (shape0 arr - 2)); [lia|].
  run_monad. by destruct (py_index arr target_var).
Qed.

Lemma py_slice_to_zero {A} (row : list A) (start : Z) :
  0 <= start -> py_slice row start 0 = [].
Proof.
  intros Hs. unfold py_slice, slice_bound.
  destruct (Z.ltb_spec start 0); [lia|]. simpl.
  replace (Z.to_nat (Z.min 0 _ - Z.min start _)) with 0%nat by lia. done.
Qed.

Lemma data_row_slice_lag_zero (d : option (list (list F))) (H0 : pyval) (T : Z)
    (h : list F) :
  data_row_slice d H0 T 0 = Ok h -> h = [].
Proof.
  unfold data_row_slice. destruct d as [d|]; [|done].
  destruct H0; try done. destruct (py_index d z); [|done].
  simpl. intros [= <-]. apply py_slice_to_zero. lia.
Qed.

(** X3: with conditioning rows and an effective lag [H[1] + target_lag] of
    zero (a driver at the lag of the variable itself) the parent-dependent
    estimator never returns: the slice [self.data[H[0], start:0]] is empty,
    so no residual is selected and the smoothing of an empty vector
    raises. *)
Theorem estimate_std_parent_lag_zero_raises
    (arr : list (list F)) (target_var target_lag : Z) (Hs : pyval)
    (wd : World (F:=F) (DF:=DF)) :
  2 < shape0 arr ->
  argsort [] = [] ->
  py_getitem Hs 1 = Ok (PyInt (- target_lag)) ->
  exists e,
    _estimate_std_parent lstsq argsort argsort_int arr target_var target_lag Hs wd
      = (Raise e, wd).
Proof.
  intros Hdim Hsort Hlag. unfold _estimate_std_parent.
  destruct (Z.ltb_spec 0 (shape0 arr - 2)); [|lia].
  unfold bind at 1. unfold lift at 1.
  destruct (py_index arr target_var) as [y|e]; [|by eexists].
  unfold bind at 1. unfold get_self at 1.
  unfold bind at 1. unfold lift at 1.
  destruct (abs_ols_resid lstsq arr y) as [resid|e]; [|by eexists].
  unfold bind at 1. unfold lift at 1. rewrite Hlag.
  unfold bind at 1. unfold lift at 1. unfold py_add_int.
  replace (- target_lag + target_lag) with 0 by lia.
  unfold bind at 1. unfold lift at 1.
  destruct (py_getitem Hs 0) as [drv|e]; [|by eexists].
  unfold bind at 1. unfold get_self at 1.
  unfold bind at 1. unfold lift at 1.
  destruct (data_row_slice _ drv _ 0) as [h|e] eqn:Eh; [|by eexists].
  apply data_row_slice_lag_zero in Eh as ->.
  unfold ordered_indices. rewrite Hsort. simpl map.
  unfold bind at 1. unfold lift at 1. unfold sort_residuals. simpl fancy_index.
  unfold bind at 1. unfold lift at 1.
  destruct (smooth_empty (F:=F) (window_size (self wd))) as [msg ->].
  by eexists.
Qed.

(** X4: a window size of zero or less makes both estimators raise: no
    estimate is ever returned. *)
Theorem estimators_reject_nonpositive_window
    (arr : list (list F)) (target_var target_lag : Z) (Hs : pyval)
    (wd : World (F:=F) (DF:=DF)) :
  window_size (self wd) <= 0 ->
  (exists e, _estimate_std_time lstsq arr target_var wd = (Raise e, wd)) /\
  (exists e, _estimate_std_parent lstsq argsort argsort_int arr target_var
               target_lag Hs wd = (Raise e, wd)).
Proof.
  intros Hw. split.
  - unfold _estimate_std_time. run_monad.
    destruct (py_index arr target_var) as [y|e]; [|by eexists].
    destruct (if 0 <? shape0 arr - 2 then _ else _) as [resid|e]; [|by eexists].
    destruct (smooth_nonpositive_window _ resid Hw) as [msg ->]. by eexists.
  - unfold _estimate_std_parent. run_monad.
    destruct (py_index arr target_var) as [y|e]; [|by eexists].
    destruct (0 <? shape0 arr - 2).
    + repeat (case_match; try by eexists).
      match goal with
      | E : smooth _ ?r = Ok _ |- _ =>
          destruct (smooth_nonpositive_window _ r Hw) as [msg Hmsg]; congruence
      end.
    + destruct (smooth_nonpositive_window _ (np_abs y) Hw) as [msg ->]. by eexists.
Qed.

Lemma estimate_std_time_long_window (arr : list (list F)) (target_var : Z)
    (wd : World (F:=F) (DF:=DF)) (est : list F) :
  rectangular arr ->
  shape1 arr < window_size (self wd) ->
  _estimate_std_time lstsq arr target_var wd = (Ok est, wd) ->
  1 <= shape1 arr /\
  Z.of_nat (length est) = 2 * window_size (self wd) - shape1 arr.
Proof.
  intros Hrect Hw. unfold _estimate_std_time. run_monad.
  destruct (py_index arr target_var) as [y|e] eqn:Ey; [|done].
  destruct (if 0 <? shape0 arr - 2 then _ else _) as [resid|e] eqn:Er; [|done].
  pose proof (abs_resid_length lstsq _ _ _ _ Hrect Ey Er) as Hlen.
  destruct resid as [|r resid].
  - destruct (smooth_empty (F:=F) (window_size (self wd))) as [msg ->]. done.
  - destruct (smooth_long_window (window_size (self wd)) (r :: resid))
      as (est' & -> & Hl); [simpl; lia | lia |].
    intros [= <-]. simpl in *. lia.
Qed.

(** X5: when the variable of X is registered as time dependent and the
    window is longer than the series, [_get_std_estimation] never returns:
    the estimate then has [2 w - T] entries instead of [T] and cannot be
    stored in its row of the (2, T) matrix. *)
Theorem window_longer_than_series_is_rejected
    (array : list (list F)) (X Y : list node) (x : node) (m : gmap Z pyval)
    (entry : pyval) (wd : World (F:=F) (DF:=DF)) :
  rectangular array ->
  py_index X 0 = Ok x ->
  expert_knowledge (self wd) = EkDict m ->
  m !! x.1 = Some entry ->
  py_getitem entry 0 = Ok (PyStr TIME_DEPENDENT) ->
  shape1 array < window_size (self wd) ->
  exists e,
    _get_std_estimation lstsq argsort argsort_int array X Y wd = (Raise e, wd).
Proof.
  intros Hrect Hx Hek Hm Hentry Hw.
  unfold _get_std_estimation.
  unfold bind at 1. unfold lift at 1. rewrite Hx.
  unfold bind at 1. unfold lift at 1.
  destruct (py_index Y 0) as [y0|e]; [|by eexists].
  unfold bind at 1.
  assert (exists e, estimate_row lstsq argsort argsort_int array 0 x
            [np_ones_nat (Z.to_nat (shape1 array));
             np_ones_nat (Z.to_nat (shape1 array))] wd = (Raise e, wd))
    as [e ->]; [|by eexists].
  unfold estimate_row.
  unfold bind at 1. unfold get_self at 1. rewrite Hek.
  unfold bind at 1. unfold lift at 1. unfold ek_contains. rewrite Hm.
  unfold bind at 1. unfold lift at 1. unfold ek_lookup. rewrite Hm.
  unfold bind at 1. unfold lift at 1. rewrite Hentry.
  change (py_eq_str (PyStr TIME_DEPENDENT) TIME_DEPENDENT) with true. cbv iota.
  unfold bind at 1.
  pose proof (estimate_std_time_frame lstsq array 0 wd) as Hf.
  destruct (_estimate_std_time lstsq array 0 wd) as [[est|e] w] eqn:Eest;
    simpl in Hf; subst w; [|by eexists].
  apply estimate_std_time_long_window in Eest as [HT Hlen]; [|done..].
  unfold bind at 1. unfold lift at 1. unfold broadcast_row.
  destruct (Nat.eqb_spec (length est) (Z.to_nat (shape1 array))); [lia|].
  destruct est as [|a [|b est]]; [by eexists | simpl in Hlen; lia | by eexists].
Qed.

(** X6: a variable that is not registered, or whose registered descriptor
    is neither the time-dependence marker nor a tuple, keeps its row of
    ones: when this holds for the variables of both X and Y the estimate is
    the all-ones matrix, and neither estimator nor the solver is called. *)
Theorem get_std_estimation_ignores_other_descriptors
    (array : list (list F)) (X Y : list node) (x y : node) (m : gmap Z pyval)
    (wd : World (F:=F) (DF:=DF)) :
  py_index X 0 = Ok x ->
  py_index Y 0 = Ok y ->
  expert_knowledge (self wd) = EkDict m ->
  (forall k entry, k = x.1 \/ k = y.1 -> m !! k = Some entry ->
     exists src, py_getitem entry 0 = Ok src /\
       py_eq_str src TIME_DEPENDENT = false /\ py_is_tuple src = false) ->
  let ones := np_ones_nat (Z.to_nat (shape1 array)) in
  _get_std_estimation lstsq argsort argsort_int array X Y wd
    = (Ok [ones; ones], wd).
Proof.
  intros Hx Hy Hek Hm ones.
  assert (Hrow : forall count v s, v = x \/ v = y ->
            estimate_row lstsq argsort argsort_int array count v s wd = (Ok s, wd)).
  { intros count v s Hv. unfold estimate_row.
    unfold bind at 1. unfold get_self at 1. rewrite Hek.
    unfold bind at 1. unfold lift at 1. unfold ek_contains.
    destruct (m !! v.1) as [entry|] eqn:E; [|done].
    unfold bind at 1. unfold lift at 1. unfold ek_lookup. rewrite E.
    destruct (Hm v.1 entry) as (src & Hsrc & Hstr & Htup);
      [destruct Hv as [-> | ->]; auto | done |].
    unfold bind at 1. unfold lift at 1. by rewrite Hsrc, Hstr, Htup. }
  unfold _get_std_estimation.
  unfold bind at 1. unfold lift at 1. rewrite Hx.
  unfold bind at 1. unfold lift at 1. rewrite Hy.
  unfold bind at 1. rewrite Hrow by auto.
  unfold bind at 1. rewrite Hrow by auto. done.
Qed.
End EstimatorEdges.

Lemma estimate_std_parent_without_conditions_witness :
  let wd := Frames64.wd_parent 2 in
  _estimate_std_parent Frames64.lstsq TiedDrivers.argsort Frames64.argsort_int
      Examples64.xy4 0 0 (PyTuple [PyInt 1; PyInt (-1)]) wd
    = _estimate_std_time Frames64.lstsq Examples64.xy4 0 wd.
Proof.
  intros wd. apply estimate_std_parent_without_conditions. by vm_compute.
Defined.

Lemma estimate_std_parent_lag_zero_raises_witness :
  let wd := Frames64.wd_parent 2 in
  exists e,
    _estimate_std_parent Frames64.lstsq TiedDrivers.argsort Frames64.argsort_int
        Frames64.xyz 0 0 (PyTuple [PyInt 1; PyInt 0]) wd
      = (Raise e, wd).
Proof.
  intros wd. apply estimate_std_parent_lag_zero_raises.
  - by vm_compute.
  - reflexivity.
  - reflexivity.
Defined.

Lemma estimators_reject_nonpositive_window_witness :
  let wd := Frames64.wd_parent 0 in
  (exists e, _estimate_std_time Frames64.lstsq Frames64.xyz 0 wd = (Raise e, wd)) /\
  (exists e, _estimate_std_parent Frames64.lstsq TiedDrivers.argsort
               Frames64.argsort_int Frames64.xyz 0 0
               (PyTuple [PyInt 1; PyInt (-1)]) wd = (Raise e, wd)).
Proof.
  intros wd. apply estimators_reject_nonpositive_window. by vm_compute.
Defined.

Lemma window_longer_than_series_is_rejected_witness :
  let wd := Examples64.world_of
              (Examples64.test_object
                 (EkDict {[ 0 := PyList [PyStr TIME_DEPENDENT] ]}) 10 None) ∅ in
  exists e,
    _get_std_estimation Examples64.no_lstsq Dataset64.argsort
        Dataset64.argsort_int Examples64.xy4 [(0, 0)] [(1, 0)] wd
      = (Raise e, wd).
Proof.
  intros wd.
  apply (window_longer_than_series_is_rejected Examples64.no_lstsq
           Dataset64.argsort Dataset64.argsort_int Examples64.xy4
           [(0, 0)] [(1, 0)] (0, 0)
           {[ 0 := PyList [PyStr TIME_DEPENDENT] ]}
           (PyList [PyStr TIME_DEPENDENT]) wd).
  - repeat constructor.
  - reflexivity.
  - reflexivity.
  - reflexivity.
  - reflexivity.
  - reflexivity.
Defined.

Lemma get_std_estimation_ignores_other_descriptors_witness :
  let wd := Examples64.world_of
              (Examples64.test_object
                 (EkDict {[ 0 := PyList [PyStr HOMOSKEDASTICITY] ]}) 2 None) ∅ in
  let ones := np_ones_nat 4 in
  _get_std_estimation Examples64.no_lstsq Dataset64.argsort
      Dataset64.argsort_int Examples64.xy4 [(0, 0)] [(1, 0)] wd
    = (Ok [ones; ones], wd).
Proof.
  intros wd ones.
  apply (get_std_estimation_ignores_other_descriptors Examples64.no_lstsq
           Dataset64.argsort Dataset64.argsort_int Examples64.xy4
           [(0, 0)] [(1, 0)] (0, 0) (1, 0)
           {[ 0 := PyList [PyStr HOMOSKEDASTICITY] ]} wd).
  - reflexivity.
  - reflexivity.
  - reflexivity.
  - intros k entry [-> | ->] Hentry; vm_compute in Hentry.
    + injection Hentry as <-. eexists. repeat split.
    + discriminate.
Defined.

(** * Parent-dependent estimation: the shape of the estimate *)

Section ParentShape.
Context {F : Type} `{Float64Ops F} {DF : Type}.
Variable lstsq : list (list F) -> list F -> result (list F).
Variable argsort : list F -> list Z.
Variable argsort_int : list Z -> list Z.

Lemma smooth_length (w : Z) (resid : list F) :
  1 <= w -> resid <> [] ->
  exists est, smooth w resid = Ok est /\ (length resid <= length est)%nat.
Proof.
  intros Hw Hne.
  assert (1 <= length resid)%nat by (destruct resid; [done|simpl; lia]).
  unfold smooth. rewrite !np_ones_ok by lia. simpl.
  unfold np_convolve_valid. rewrite length_replicate.
  destruct (Nat.eqb_spec (length resid) 0) as [E|_]; [lia|].
  destruct (Nat.eqb_spec (Z.to_nat w) 0) as [E|_]; [lia|]. simpl.
  destruct (Nat.ltb_spec (length resid) (Z.to_nat w)); simpl;
    (eexists; split; [reflexivity|]);
    rewrite length_app, !length_map, length_seq, !length_replicate; lia.
Qed.

Lemma fancy_index_length (v : list F) (idx : list Z) :
  Forall (fun i => 0 <= i < Z.of_nat (length v)) idx ->
  exists r, fancy_index v idx = Ok r /\ length r = length idx.
Proof using Type*.
  intros Hidx. rewrite (fancy_index_in_range v idx Hidx).
  eexists. split; [reflexivity|]. by rewrite length_map.
Qed.

Lemma np_roll_appended (v : list F) (k : nat) (x : F) :
  np_roll (v ++ replicate k x) (Z.of_nat k) = replicate k x ++ v.
Proof.
  unfold np_roll.
  destruct (v ++ replicate k x) as [|a l] eqn:E.
  - apply app_eq_nil in E as [-> E]. by rewrite E.
  - rewrite <- E. clear a l E. rewrite length_app, length_replicate.
    destruct v as [|a v].
    + simpl length. simpl app.
      destruct k as [|k]; [done|].
      rewrite Z.mod_same by lia. simpl Z.to_nat.
      rewrite Nat.sub_0_r, app_nil_r.
      rewrite drop_ge by (rewrite length_replicate; lia).
      rewrite take_ge by (rewrite length_replicate; lia). done.
    + rewrite Z.mod_small by (simpl length; lia).
      rewrite Nat2Z.id.
      replace (length (a :: v) + k - k)%nat with (length (a :: v)) by lia.
      by rewrite drop_app_length, take_app_length.
Qed.

Lemma py_slice_from_length {A} (l : list A) (k : Z) :
  0 <= k <= Z.of_nat (length l) ->
  Z.of_nat (length (py_slice_from l k)) = Z.of_nat (length l) - k.
Proof.
  intros Hk. unfold py_slice_from, slice_bound.
  destruct (Z.ltb_spec k 0); [lia|]. rewrite length_drop. lia.
Qed.

(** X7: the shape of the parent-dependent estimate.  With conditioning
    rows, a window of at least 1 and a non-empty slice [h] of the driver
    that is no longer than the truncated residuals, and for an [argsort]
    that returns as many in-range positions as it is given values, the
    estimate is [|lag|] ones followed by one entry per entry of [h]; the
    call changes nothing.  For a slice of length [T - |lag|] this is the
    documented shape (T,). *)
Theorem estimate_std_parent_shape
    (arr : list (list F)) (target_var target_lag : Z) (Hs : pyval)
    (wd : World (F:=F) (DF:=DF)) (y resid : list F) (l1 i : Z)
    (d : list (list F)) (row : list F) :
  let T := shape1 arr in
  let lag := l1 + target_lag in
  let h := py_slice row (Z.abs (shape1 d - T)) lag in
  let ordered_z_ind := ordered_indices argsort h in
  rectangular arr ->
  2 < shape0 arr ->
  py_index arr target_var = Ok y ->
  abs_ols_resid lstsq arr y = Ok resid ->
  py_getitem Hs 1 = Ok (PyInt l1) ->
  py_getitem Hs 0 = Ok (PyInt i) ->
  data (self wd) = Some d ->
  py_index d i = Ok row ->
  1 <= window_size (self wd) ->
  h <> [] ->
  Z.of_nat (length h) + Z.abs lag <= T ->
  length (argsort h) = length h ->
  Forall (fun k => 0 <= k < Z.of_nat (length h)) (argsort h) ->
  length (argsort_int ordered_z_ind) = length ordered_z_ind ->
  Forall (fun k => 0 <= k < Z.of_nat (length ordered_z_ind))
         (argsort_int ordered_z_ind) ->
  exists std_est,
    _estimate_std_parent lstsq argsort argsort_int arr target_var target_lag Hs wd
      = (Ok (np_ones_nat (Z.to_nat (Z.abs lag)) ++ std_est), wd) /\
    length std_est = length h.
Proof.
  intros T lag h ordered_z_ind Hrect Hdim Hy Hres H1 H0 Hd Hrow Hw Hne Hlen
    Hsl Hsr Hrl Hrr.
  assert (Hresid : Z.of_nat (length resid) = T).
  { apply (abs_resid_length lstsq arr target_var y resid Hrect Hy).
    destruct (Z.ltb_spec 0 (shape0 arr - 2)); [done|lia]. }
  assert (Hord : ordered_z_ind = argsort h).
  { unfold ordered_z_ind, ordered_indices. apply mask_nonneg_indices.
    eapply Forall_impl; [exact Hsr|]. simpl. intros; lia. }
  assert (Htrunc : Z.of_nat (length (py_slice_from resid (Z.abs lag)))
                   = T - Z.abs lag).
  { rewrite py_slice_from_length; lia. }
  destruct (fancy_index_length (py_slice_from resid (Z.abs lag)) ordered_z_ind)
    as (sorted_resid & Hsorted & Hsl').
  { rewrite Hord. eapply Forall_impl; [exact Hsr|]. simpl. intros; lia. }
  assert (Hsn : length sorted_resid = length h) by (rewrite Hsl', Hord; done).
  destruct (smooth_length (window_size (self wd)) sorted_resid Hw)
    as (est & Hest & Hel).
  { intros ->. destruct h; [done|discriminate]. }
  destruct (fancy_index_length est (argsort_int ordered_z_ind))
    as (std_est & Hstd & Hstl).
  { eapply Forall_impl; [exact Hrr|]. simpl. intros k Hk.
    rewrite Hord, Hsl in Hk. lia. }
  exists std_est. split.
  - unfold _estimate_std_parent.
    destruct (Z.ltb_spec 0 (shape0 arr - 2)); [|lia].
    unfold bind, lift, get_self, ret.
    rewrite Hy, Hres, H1. unfold py_add_int. rewrite H0, Hd.
    unfold data_row_slice. rewrite Hrow. cbn [rbind].
    fold T. fold lag. fold h. fold ordered_z_ind.
    unfold sort_residuals. rewrite Hsorted, Hest, Hstd.
    f_equal. f_equal.
    rewrite <- (Z2Nat.id (Z.abs lag)) at 2 by lia.
    apply np_roll_appended.
  - rewrite Hstl, Hrl, Hord. done.
Qed.
End ParentShape.

Lemma estimate_std_parent_shape_witness :
  let wd := Frames64.wd_parent 2 in
  exists std_est,
    _estimate_std_parent Frames64.lstsq TiedDrivers.argsort Frames64.argsort_int
        Frames64.xyz 0 0 (PyTuple [PyInt 1; PyInt (-1)]) wd
      = (Ok (np_ones_nat 1 ++ std_est), wd) /\
    length std_est = 3%nat.
Proof.
  intros wd.
  set (y := hd [] Frames64.xyz).
  set (resid := match abs_ols_resid Frames64.lstsq Frames64.xyz y with
                | Ok r => r
                | Raise _ => []
                end).
  apply (estimate_std_parent_shape Frames64.lstsq TiedDrivers.argsort
           Frames64.argsort_int Frames64.xyz 0 0
           (PyTuple [PyInt 1; PyInt (-1)]) wd y resid (-1) 1 Frames64.values
           (nth 1 Frames64.values [])).
  - repeat constructor.
  - reflexivity.
  - reflexivity.
  - vm_compute. reflexivity.
  - reflexivity.
  - reflexivity.
  - reflexivity.
  - reflexivity.
  - by vm_compute.
  - vm_compute. discriminate.
  - vm_compute. discriminate.
  - reflexivity.
  - repeat (constructor; [split; [vm_compute; discriminate | vm_compute; reflexivity]|]).
    constructor.
  - reflexivity.
  - repeat (constructor; [split; [vm_compute; discriminate | vm_compute; reflexivity]|]).
    constructor.
Defined.

(** * The contents of the data cache *)

Section DataCache.
Context {F : Type} `{Float64Ops F} {DF : Type}.
Variable df_N : DF -> nat.
Variable construct_array :
  DF -> list node -> list node -> list node -> Z -> option string ->
  bool -> string -> Z -> result (returned (F:=F)).

Lemma py_index_nat {A} (l : list A) (k : nat) (x : A) :
  py_index l (Z.of_nat k) = Ok x -> l !! k = Some x.
Proof.
  intros Hx. apply py_index_Ok_lookup in Hx as (k' & Hk & Heq).
  destruct (Z.ltb_spec (Z.of_nat k) 0); [lia|].
  apply Nat2Z.inj in Heq. by subst.
Qed.

Lemma assign_row_nonneg {A} (a a' : list A) (v : Z) (row : A) :
  0 <= v -> assign_row a v row = Ok a' ->
  (Z.to_nat v < length a)%nat /\ a' = <[Z.to_nat v := row]> a.
Proof.
  intros Hv. unfold assign_row.
  destruct (Z.ltb_spec v 0); [lia|].
  destruct (_ || _) eqn:E; [done|]. intros [= <-].
  apply orb_false_iff in E as [_ E]. apply Z.leb_gt in E. split; [lia|done].
Qed.

(** The loop that fills the cache, started at position [k] of the
    enumeration: a row is the row of the last lag-zero node of its
    variable, and is left alone when there is none. *)
Lemma fill_cache_rows (nodes : list (list F)) (l : list node) :
  Forall (fun j : node => 0 <= j.1) l ->
  forall (k : nat) (w w' : World (F:=F) (DF:=DF)) (d0 : list (list F)),
  data (self w) = Some d0 ->
  for_each (imap (fun idx j => ((k + idx)%nat, j)) l) (fun ij =>
    let '(index, j) := ij in
    if j.2 =? 0 then
      bind (lift (py_index nodes (Z.of_nat index))) (fun row =>
      bind (get_self data) (fun d =>
      match d with
      | Some d => bind (lift (assign_row d j.1 row)) (fun d' =>
                    set_self (set_data (Some d')))
      | None => raise TypeError
      end))
    else ret tt) w = (Ok tt, w') ->
  exists d,
    data (self w') = Some d /\ length d = length d0 /\
    forall v : nat,
      ((forall idx, l !! idx <> Some (Z.of_nat v, 0)) -> d !! v = d0 !! v) /\
      (forall idx, l !! idx = Some (Z.of_nat v, 0) ->
         (forall idx', (idx < idx')%nat -> l !! idx' <> Some (Z.of_nat v, 0)) ->
         d !! v = nodes !! (k + idx)%nat).
Proof.
  intros Hl. induction Hl as [|j l Hj Hl IH]; intros k w w' d0 Hd0.
  - simpl. unfold ret. intros [= <-]. exists d0. split; [done|]. split; [done|].
    intros v. split; [done|]. intros idx Hidx. by rewrite lookup_nil in Hidx.
  - simpl imap. simpl for_each. unfold bind at 1.
    rewrite (imap_ext _ (fun idx j => ((S k + idx)%nat, j)))
      by (intros; simpl; f_equal; lia).
    destruct (j.2 =? 0) eqn:Ej.
    + unfold bind at 1. unfold lift at 1.
      destruct (py_index nodes (Z.of_nat (k + 0))) as [row|e] eqn:Erow; [|done].
      unfold bind at 1. unfold get_self at 1. rewrite Hd0.
      unfold bind at 1. unfold lift at 1.
      destruct (assign_row d0 j.1 row) as [d1|e] eqn:Ea; [|done].
      apply assign_row_nonneg in Ea as [Hlt ->]; [|done].
      apply py_index_nat in Erow.
      unfold set_self at 1. intros Hrun.
      apply IH with (d0 := <[Z.to_nat j.1 := row]> d0) in Hrun; [|done].
      destruct Hrun as (d & Hd & Hlen & Hrows).
      exists d. split; [done|]. split; [by rewrite Hlen, length_insert|].
      intros v. destruct (Hrows v) as [Hnone Hlast]. split.
      * intros Hno. rewrite Hnone by (intros idx; apply (Hno (S idx))).
        apply list_lookup_insert_ne. intros Hv.
        apply (Hno 0%nat). simpl. f_equal.
        destruct j as [j1 j2]. simpl in *. apply Z.eqb_eq in Ej.
        f_equal; lia.
      * intros [|idx] Hidx Hlater.
        -- simpl in Hidx. injection Hidx as ->. simpl in *.
           rewrite Hnone by (intros idx; apply (Hlater (S idx)); lia).
           rewrite Nat2Z.id in *. by rewrite list_lookup_insert_eq.
        -- replace (k + S idx)%nat with (S k + idx)%nat by lia.
           apply Hlast; [done|].
           intros idx' Hlt'. apply (Hlater (S idx')). lia.
    + unfold ret at 1. intros Hrun.
      apply IH with (d0 := d0) in Hrun; [|done].
      destruct Hrun as (d & Hd & Hlen & Hrows).
      exists d. split; [done|]. split; [done|].
      intros v. destruct (Hrows v) as [Hnone Hlast]. split.
      * intros Hno. apply Hnone. intros idx. apply (Hno (S idx)).
      * intros [|idx] Hidx Hlater.
        -- simpl in Hidx. injection Hidx as ->. simpl in Ej. done.
        -- replace (k + S idx)%nat with (S k + idx)%nat by lia.
           apply Hlast; [done|].
           intros idx' Hlt'. apply (Hlater (S idx')). lia.
Qed.

(** X8: what the data cache holds once it is built.  [self.data] has one
    row per variable of the data frame; the row of a variable is the row
    that the constructed array holds for the variable's lag-zero node (the
    last such node in the order X, Y, Z when there are several), and a row
    of zeros when the constructed array holds no such node. *)
Theorem data_cache_holds_lag_zero_rows
    (X Y : list node) (tau_max : Z) (cut_off : string) (verb : Z)
    (wd wd' : World (F:=F) (DF:=DF)) (c : constructed) (X' Y' Z' : list node) :
  let N := df_N (dataframe (self wd)) in
  let node_indices := X' ++ Y' ++ Z' in
  construct_array (dataframe (self wd)) X Y
      (map (fun i => (Z.of_nat i, 0)) (seq 0 N))
      tau_max (mask_type (self wd)) true cut_off verb = Ok (Returned4 c) ->
  ca_XYZ c = (X', Y', Z') ->
  Forall (fun j : node => 0 <= j.1) node_indices ->
  build_data_cache df_N construct_array X Y tau_max cut_off verb wd = (Ok tt, wd') ->
  exists d,
    data (self wd') = Some d /\ length d = N /\
    forall v : nat,
      ((v < N)%nat ->
       (forall idx, node_indices !! idx <> Some (Z.of_nat v, 0)) ->
       d !! v = Some (np_zeros_nat (Z.to_nat (shape1 (ca_array c))))) /\
      (forall idx, node_indices !! idx = Some (Z.of_nat v, 0) ->
         (forall idx', (idx < idx')%nat ->
            node_indices !! idx' <> Some (Z.of_nat v, 0)) ->
         d !! v = ca_array c !! idx).
Proof.
  intros N node_indices Hc HXYZ Hnonneg.
  unfold build_data_cache.
  unfold bind at 1. unfold get_self at 1.
  unfold bind at 1. unfold get_self at 1.
  unfold bind at 1. unfold lift at 1. unfold construct_array4.
  fold N. rewrite Hc. cbn [rbind unpack4]. rewrite HXYZ.
  unfold bind at 1. unfold set_self at 1.
  fold node_indices. unfold imap.
  rewrite (imap_ext _ (fun idx j => ((0 + idx)%nat, j))) by done.
  intros Hrun.
  eapply (fill_cache_rows (ca_array c) node_indices Hnonneg 0%nat) in Hrun;
    [|reflexivity].
  destruct Hrun as (d & Hd & Hlen & Hrows).
  exists d. split; [done|]. split; [by rewrite Hlen, length_replicate|].
  intros v. destruct (Hrows v) as [Hnone Hlast]. split.
  - intros Hv Hno. rewrite (Hnone Hno). by apply lookup_replicate_2.
  - intros idx Hidx Hlater. by apply Hlast.
Qed.
End DataCache.

Lemma data_cache_holds_lag_zero_rows_witness :
  let wd := Frames64.wd_default 2 in
  let run := build_data_cache Frames64.N Frames64.construct_array
               [(0, 0)] [(1, 0)] 0 "2xtau_max" 0 wd in
  let node_indices := [(0, 0); (1, 0)] in
  run.1 = Ok tt /\
  exists d,
    data (self run.2) = Some d /\ length d = 2%nat /\
    forall v : nat,
      ((v < 2)%nat ->
       (forall idx, node_indices !! idx <> Some (Z.of_nat v, 0)) ->
       d !! v = Some (np_zeros_nat 4)) /\
      (forall idx, node_indices !! idx = Some (Z.of_nat v, 0) ->
         (forall idx', (idx < idx')%nat ->
            node_indices !! idx' <> Some (Z.of_nat v, 0)) ->
         d !! v = Frames64.values !! idx).
Proof.
  intros wd run node_indices. split; [reflexivity|].
  apply (data_cache_holds_lag_zero_rows Frames64.N Frames64.construct_array
           [(0, 0)] [(1, 0)] 0 "2xtau_max" 0 wd run.2
           {| ca_array := Frames64.values; ca_xyz := [0; 1];
              ca_XYZ := ([(0, 0)], [(1, 0)], []) |}
           [(0, 0)] [(1, 0)] []).
  - reflexivity.
  - reflexivity.
  - repeat constructor; simpl; lia.
  - reflexivity.
Defined.

(** * Preparing the weights *)

Section StdsFrames.
Context {F : Type} `{Float64Ops F} {DF : Type}.
Variable df_N : DF -> nat.
Variable construct_array :
  DF -> list node -> list node -> list node -> Z -> option string ->
  bool -> string -> Z -> result (returned (F:=F)).
Variable pp_DataFrame : list (list F) -> result DF.
Variable lstsq : list (list F) -> list F -> result (list F).
Variable argsort : list F -> list Z.
Variable argsort_int : list Z -> list Z.

Lemma for_each_invariant {A} (P : World (F:=F) (DF:=DF) -> Prop) (l : list A)
    (body : A -> M unit) :
  (forall x w, P w -> P (body x w).2) ->
  forall w, P w -> P (for_each l body w).2.
Proof.
  intros Hbody. induction l as [|x l IH]; intros w Hw; [done|].
  simpl. unfold bind. specialize (Hbody x w Hw).
  destruct (body x w) as [[[]|e] w']; simpl in *; [by apply IH | done].
Qed.

(** Two worlds that differ at most in [self.data]. *)
Lemma build_data_cache_frame (X Y : list node) (tau_max : Z) (cut_off : string)
    (verb : Z) (wd : World (F:=F) (DF:=DF)) :
  let wd' := (build_data_cache df_N construct_array X Y tau_max cut_off verb wd).2 in
  heap wd' = heap wd /\ warnings wd' = warnings wd /\
  set_data None (self wd') = set_data None (self wd).
Proof.
  cbv zeta.
  destruct (build_data_cache _ _ _ _ _ _ _ wd) as [r wd'] eqn:E. simpl.
  revert E. unfold build_data_cache.
  unfold bind at 1. unfold get_self at 1.
  unfold bind at 1. unfold get_self at 1.
  unfold bind at 1. unfold lift at 1.
  destruct (construct_array4 _ _ _ _ _ _ _ _ _ _) as [c|e]; [|by intros [= <- <-]].
  destruct (ca_XYZ c) as [[X' Y'] Z'].
  unfold bind at 1. unfold set_self at 1.
  intros E.
  match type of E with
  | for_each ?l ?body ?w0 = _ =>
      assert (Hinv : (fun w => heap w = heap wd /\ warnings w = warnings wd /\
                        set_data None (self w) = set_data None (self wd))
                     (for_each l body w0).2)
  end.
  { apply for_each_invariant; [|done].
    intros [index j] w (Hh & Hw & Hs).
    destruct (j.2 =? 0); [|done].
    run_monad.
    destruct (py_index _ _); [|done].
    destruct (data (self w)) as [d|]; [|done].
    destruct (assign_row _ _ _); done. }
  rewrite E in Hinv. exact Hinv.
Qed.

Lemma get_stds_estimation_mode (array : list (list F)) (X Y Zc : list node)
    (tau_max : Z) (cut_off : string) (verb : Z) (wd : World (F:=F) (DF:=DF)) :
  gt_std_matrix (self wd) = None ->
  exists wd0 (early : option pyexn),
    heap wd0 = heap wd /\ warnings wd0 = warnings wd /\
    set_data None (set_expert_knowledge (EkVal PyNone) (self wd0))
      = set_data None (set_expert_knowledge (EkVal PyNone) (self wd)) /\
    expert_knowledge (self wd0)
      = (if ek_eq_str (expert_knowledge (self wd)) TIME_DEPENDENT
         then EkDict (list_to_map
                (map (fun variable => (Z.of_nat variable, PyList [PyStr TIME_DEPENDENT]))
                     (seq 0 (df_N (dataframe (self wd))))))
         else if ek_eq_str (expert_knowledge (self wd)) HOMOSKEDASTICITY
         then EkDict ∅ else expert_knowledge (self wd)) /\
    _get_stds df_N construct_array pp_DataFrame lstsq argsort argsort_int
        array X Y Zc tau_max cut_off verb wd
      = match early with
        | Some e => (Raise e, wd0)
        | None =>
            match (_get_std_estimation lstsq argsort argsort_int array X Y wd0).1 with
            | Ok s => (Ok (Some s), {| self := set_stds (Some s) (self wd0);
                                       heap := heap wd0; warnings := warnings wd0 |})
            | Raise e => (Raise e, wd0)
            end
        end.
Proof.
  intros Hgt. unfold _get_stds.
  unfold bind at 1. unfold get_self at 1. rewrite Hgt.
  unfold bind at 1. unfold get_self at 1.
  unfold bind at 1.
  set (ek' := if ek_eq_str (expert_knowledge (self wd)) TIME_DEPENDENT
              then EkDict (list_to_map
                     (map (fun variable => (Z.of_nat variable, PyList [PyStr TIME_DEPENDENT]))
                          (seq 0 (df_N (dataframe (self wd))))))
              else if ek_eq_str (expert_knowledge (self wd)) HOMOSKEDASTICITY
              then EkDict ∅ else expert_knowledge (self wd)).
  assert (exists w1,
            (if ek_eq_str (expert_knowledge (self wd)) TIME_DEPENDENT
             then bind (get_self dataframe) (fun df =>
                    set_self (set_expert_knowledge
                      (EkDict (list_to_map
                        (map (fun variable => (Z.of_nat variable, PyList [PyStr TIME_DEPENDENT]))
                             (seq 0 (df_N df)))))))
             else if ek_eq_str (expert_knowledge (self wd)) HOMOSKEDASTICITY
             then set_self (set_expert_knowledge (EkDict ∅))
             else ret tt) wd = (Ok tt, w1) /\
            heap w1 = heap wd /\ warnings w1 = warnings wd /\
            set_data None (set_expert_knowledge (EkVal PyNone) (self w1))
              = set_data None (set_expert_knowledge (EkVal PyNone) (self wd)) /\
            expert_knowledge (self w1) = ek') as (w1 & -> & Hh1 & Hw1 & Hs1 & Hek1).
  { subst ek'. destruct (ek_eq_str _ TIME_DEPENDENT).
    - eexists. split; [reflexivity|]. done.
    - destruct (ek_eq_str _ HOMOSKEDASTICITY).
      + eexists. split; [reflexivity|]. done.
      + exists wd. split; [reflexivity|]. done. }
  unfold bind at 1. unfold get_self at 1.
  unfold bind at 1. unfold lift at 1.
  destruct (ek_items (expert_knowledge (self w1))) as [items|e].
  2:{ exists w1, (Some e). repeat split; done. }
  unfold bind at 1. unfold when.
  assert (exists r w2,
            (if existsb py_is_tuple items
             then build_data_cache df_N construct_array X Y tau_max cut_off verb
             else ret tt) w1 = (r, w2) /\
            heap w2 = heap wd /\ warnings w2 = warnings wd /\
            set_data None (set_expert_knowledge (EkVal PyNone) (self w2))
              = set_data None (set_expert_knowledge (EkVal PyNone) (self wd)) /\
            expert_knowledge (self w2) = ek') as (r & w2 & -> & Hh2 & Hw2 & Hs2 & Hek2).
  { destruct (existsb py_is_tuple items).
    - pose proof (build_data_cache_frame X Y tau_max cut_off verb w1) as (Hh & Hw & Hs).
      destruct (build_data_cache _ _ _ _ _ _ _ w1) as [r w2]. simpl in *.
      exists r, w2. split; [done|]. split; [congruence|]. split; [congruence|].
      split.
      + rewrite <- Hs1.
        apply (f_equal (set_expert_knowledge (EkVal PyNone))) in Hs.
        exact Hs.
      + rewrite <- Hek1. apply (f_equal expert_knowledge) in Hs. exact Hs.
    - exists (Ok tt), w1. done. }
  destruct r as [[]|e]; [|exists w2, (Some e); repeat split; done].
  exists w2, None. split; [done|]. split; [done|]. split; [done|]. split; [done|].
  unfold bind at 1.
  pose proof (get_std_estimation_frame lstsq argsort argsort_int array X Y w2) as Hf.
  destruct (_get_std_estimation _ _ _ _ _ _ w2) as [[s|e] w3]; simpl in Hf; subst w3;
    [|done].
  unfold bind, set_self, ret. simpl. done.
Qed.

Lemma get_stds_settings (array : list (list F)) (X Y Zc : list node)
    (tau_max : Z) (cut_off : string) (verb : Z) (wd : World (F:=F) (DF:=DF)) :
  let wd' := (_get_stds df_N construct_array pp_DataFrame lstsq argsort argsort_int
                array X Y Zc tau_max cut_off verb wd).2 in
  heap wd' = heap wd /\ warnings wd' = warnings wd /\
  set_stds None (set_data None (set_expert_knowledge (EkVal PyNone) (self wd')))
    = set_stds None (set_data None (set_expert_knowledge (EkVal PyNone) (self wd))).
Proof.
  cbv zeta. destruct (gt_std_matrix (self wd)) as [g|] eqn:Hgt.
  - unfold _get_stds. run_monad. rewrite Hgt.
    destruct (pp_DataFrame g) as [sdf|e]; [|done].
    destruct (construct_array4 _ sdf _ _ _ _ _ _ _ _) as [c|e]; done.
  - destruct (get_stds_estimation_mode array X Y Zc tau_max cut_off verb wd Hgt)
      as (wd0 & early & Hh & Hw & Hs & _ & ->).
    apply (f_equal (set_stds None)) in Hs. simpl in Hs.
    destruct early as [e|]; [done|].
    destruct (_get_std_estimation _ _ _ _ _ _ wd0).1; done.
Qed.

(** X9: [_get_stds] writes to [self.expert_knowledge], [self.data] and
    [self.stds] only: whether it returns or raises, the arrays, the
    warnings and every other attribute of the object are as before. *)
Theorem get_stds_frame (array : list (list F)) (X Y Zc : list node)
    (tau_max : Z) (cut_off : string) (verb : Z) (wd : World (F:=F) (DF:=DF)) :
  let wd' := (_get_stds df_N construct_array pp_DataFrame lstsq argsort argsort_int
                array X Y Zc tau_max cut_off verb wd).2 in
  heap wd' = heap wd /\ warnings wd' = warnings wd /\
  gt_std_matrix (self wd') = gt_std_matrix (self wd) /\
  window_size (self wd') = window_size (self wd) /\
  robustify (self wd') = robustify (self wd) /\
  dataframe (self wd') = dataframe (self wd) /\
  mask_type (self wd') = mask_type (self wd) /\
  verbosity (self wd') = verbosity (self wd).
Proof.
  intros wd'.
  destruct (get_stds_settings array X Y Zc tau_max cut_off verb wd) as (Hh & Hw & Hs).
  fold wd' in Hh, Hw, Hs.
  split; [done|]. split; [done|].
  split; [exact (f_equal gt_std_matrix Hs)|].
  split; [exact (f_equal window_size Hs)|].
  split; [exact (f_equal robustify Hs)|].
  split; [exact (f_equal dataframe Hs)|].
  split; [exact (f_equal mask_type Hs)|exact (f_equal verbosity Hs)].
Qed.

Lemma lookup_marker_registry (n : nat) (v : pyval) (k : Z) :
  (list_to_map (map (fun variable => (Z.of_nat variable, v)) (seq 0 n))
     : gmap Z pyval) !! k
  = if (0 <=? k) && (k <? Z.of_nat n) then Some v else None.
Proof.
  destruct ((0 <=? k) && (k <? Z.of_nat n)) eqn:Ek.
  - apply andb_true_iff in Ek as [E1 E2].
    apply Z.leb_le in E1. apply Z.ltb_lt in E2.
    apply elem_of_list_to_map.
    + rewrite <- list_fmap_compose. apply NoDup_fmap_2; [|apply NoDup_seq].
      intros a b Hab. simpl in Hab. lia.
    + apply list_elem_of_fmap. exists (Z.to_nat k). split.
      * f_equal. lia.
      * apply elem_of_seq. lia.
  - apply not_elem_of_list_to_map. rewrite <- list_fmap_compose.
    intros Hin. apply list_elem_of_fmap in Hin as (i & -> & Hi).
    apply elem_of_seq in Hi. simpl in Ek.
    apply andb_false_iff in Ek as [E|E];
      [apply Z.leb_gt in E | apply Z.ltb_ge in E]; lia.
Qed.

(** X10: with the default expert knowledge (the string marker) and no
    ground-truth table, [_get_stds] replaces the attribute by a dict:
    whether the call then returns or raises, [self.expert_knowledge] is
    afterwards the dict that maps exactly the variable indices [0 .. N-1]
    to the one-element list holding the marker. *)
Theorem get_stds_expands_time_dependence (array : list (list F))
    (X Y Zc : list node) (tau_max : Z) (cut_off : string) (verb : Z)
    (wd : World (F:=F) (DF:=DF)) :
  gt_std_matrix (self wd) = None ->
  expert_knowledge (self wd) = EkVal (PyStr TIME_DEPENDENT) ->
  exists m,
    expert_knowledge
      (self (_get_stds df_N construct_array pp_DataFrame lstsq argsort argsort_int
               array X Y Zc tau_max cut_off verb wd).2) = EkDict m /\
    forall k, m !! k =
      if (0 <=? k) && (k <? Z.of_nat (df_N (dataframe (self wd))))
      then Some (PyList [PyStr TIME_DEPENDENT]) else None.
Proof.
  intros Hgt Hek.
  destruct (get_stds_estimation_mode array X Y Zc tau_max cut_off verb wd Hgt)
    as (wd0 & early & _ & _ & _ & Hek0 & ->).
  rewrite Hek in Hek0.
  change (ek_eq_str (EkVal (PyStr TIME_DEPENDENT)) TIME_DEPENDENT) with true in Hek0.
  cbv iota in Hek0.
  eexists. split; [|apply lookup_marker_registry].
  destruct early as [e|]; [exact Hek0|].
  destruct (_get_std_estimation _ _ _ _ _ _ wd0).1; exact Hek0.
Qed.

(** X11: what a [_get_stds] that returns has done when there is a
    ground-truth table: the table was wrapped in a data frame, the array of
    that frame was constructed for the same X, Y, Z with
    [return_cleaned_xyz=True], and that array is now [self.stds]; the
    return value is [None]; the expert knowledge and [self.data] were not
    touched (nor examined: any value is accepted there). *)
Theorem get_stds_ground_truth (array : list (list F)) (X Y Zc : list node)
    (tau_max : Z) (cut_off : string) (verb : Z) (g : list (list F))
    (r : option (list (list F))) (wd wd' : World (F:=F) (DF:=DF)) :
  gt_std_matrix (self wd) = Some g ->
  _get_stds df_N construct_array pp_DataFrame lstsq argsort argsort_int
      array X Y Zc tau_max cut_off verb wd = (Ok r, wd') ->
  r = None /\
  (exists stds_dataframe c,
     pp_DataFrame g = Ok stds_dataframe /\
     construct_array stds_dataframe X Y Zc tau_max (mask_type (self wd)) true
       cut_off verb = Ok (Returned4 c) /\
     stds (self wd') = Some (ca_array c)) /\
  expert_knowledge (self wd') = expert_knowledge (self wd) /\
  data (self wd') = data (self wd).
Proof.
  intros Hgt. unfold _get_stds. run_monad. rewrite Hgt.
  destruct (pp_DataFrame g) as [sdf|e]; [|done].
  unfold construct_array4.
  destruct (construct_array sdf _ _ _ _ _ _ _ _) as [[c|a x]|e] eqn:Ec; [|done..].
  intros [= <- <-]. split; [done|]. split; [|done].
  exists sdf, c. done.
Qed.

Lemma get_stds_estimate_inv (array : list (list F)) (X Y Zc : list node)
    (tau_max : Z) (cut_off : string) (verb : Z)
    (r : option (list (list F))) (wd wd' : World (F:=F) (DF:=DF)) :
  gt_std_matrix (self wd) = None ->
  _get_stds df_N construct_array pp_DataFrame lstsq argsort argsort_int
      array X Y Zc tau_max cut_off verb wd = (Ok r, wd') ->
  exists s,
    r = Some s /\ stds (self wd') = Some s /\
    length s = 2%nat /\
    Forall (fun row => Z.of_nat (length row) = shape1 array) s /\
    is_ok (py_index X 0) = true /\ is_ok (py_index Y 0) = true.
Proof.
  intros Hgt.
  destruct (get_stds_estimation_mode array X Y Zc tau_max cut_off verb wd Hgt)
    as (wd0 & early & _ & _ & _ & _ & ->).
  destruct early as [e|]; [done|].
  pose proof (get_std_estimation_rows lstsq argsort argsort_int array X Y wd0)
    as Hshape.
  destruct (_get_std_estimation _ _ _ _ _ _ wd0) as [[s|e] w] eqn:Eest; [|done].
  simpl. intros [= <- <-]. exists s.
  destruct (Hshape s eq_refl) as [Hl Hrows].
  split; [done|]. split; [done|]. split; [done|]. split; [done|].
  revert Eest. unfold _get_std_estimation. run_monad.
  destruct (py_index X 0); [|done]. destruct (py_index Y 0); done.
Qed.

Lemma py_index_singleton {A} (l : list A) :
  (length l <= 1)%nat -> is_ok (py_index l 0) = true -> exists x, l = [x].
Proof.
  destruct l as [|x [|y l]]; simpl; [done | by exists x | lia].
Qed.

(** X12: more than one node in X or in Y is rejected before anything else
    happens: the data frame is not asked for an array and nothing is
    changed. *)
Theorem get_array_rejects_multivariate (X Y Zc : list node) (tau_max : Z)
    (cut_off : string) (verb : Z) (return_cleaned_xyz : bool)
    (wd : World (F:=F) (DF:=DF)) :
  (1 < length X)%nat \/ (1 < length Y)%nat ->
  _get_array df_N construct_array pp_DataFrame lstsq argsort argsort_int
      X Y Zc tau_max cut_off verb return_cleaned_xyz wd
    = (Raise (ValueError "X and Y for par_corr_wls must be univariate."), wd).
Proof.
  intros Hlen. unfold _get_array.
  destruct (_ || _) eqn:E; [done|].
  apply orb_false_iff in E as [E1 E2].
  apply Z.ltb_ge in E1. apply Z.ltb_ge in E2. lia.
Qed.

(** X13: what a [_get_array] that returns has done when the weights are
    estimated (no ground-truth table): X and Y hold exactly one node each,
    the returned tuple is what the data frame's [construct_array] gave for
    the same arguments, [self.stds] holds a matrix of shape (2, T) for the
    [T] of the returned array, and no array or warning was touched. *)
Theorem get_array_success (X Y Zc : list node) (tau_max : Z)
    (cut_off : string) (verb : Z) (return_cleaned_xyz : bool) (c : constructed)
    (wd wd' : World (F:=F) (DF:=DF)) :
  gt_std_matrix (self wd) = None ->
  _get_array df_N construct_array pp_DataFrame lstsq argsort argsort_int
      X Y Zc tau_max cut_off verb return_cleaned_xyz wd = (Ok c, wd') ->
  (exists x y, X = [x] /\ Y = [y]) /\
  construct_array (dataframe (self wd)) X Y Zc tau_max (mask_type (self wd))
    return_cleaned_xyz cut_off verb = Ok (Returned4 c) /\
  (exists s, stds (self wd') = Some s /\ length s = 2%nat /\
     Forall (fun row => Z.of_nat (length row) = shape1 (ca_array c)) s) /\
  heap wd' = heap wd /\ warnings wd' = warnings wd.
Proof.
  intros Hgt. unfold _get_array.
  destruct (_ || _) eqn:E; [done|].
  apply orb_false_iff in E as [E1 E2].
  apply Z.ltb_ge in E1. apply Z.ltb_ge in E2.
  unfold bind at 1. unfold get_self at 1.
  unfold bind at 1. unfold get_self at 1.
  unfold bind at 1. unfold lift at 1. unfold construct_array4.
  destruct (construct_array _ _ _ _ _ _ _ _ _) as [[c'|a' x']|e]; [|done..].
  cbn [rbind unpack4]. unfold bind at 1.
  pose proof (get_stds_settings (ca_array c') X Y Zc tau_max cut_off verb wd)
    as (Hh & Hw & _).
  destruct (_get_stds _ _ _ _ _ _ _ _ _ _ _ _ _ wd) as [[r|e] w] eqn:Es; [|done].
  apply get_stds_estimate_inv in Es as (s & _ & Hs & Hl & Hrows & Hx & Hy); [|done].
  unfold ret. intros [= <- <-]. simpl in Hh, Hw.
  split; [|split; [done|]; split; [by exists s|done]].
  destruct (py_index_singleton X) as [x ->]; [lia|done|].
  destruct (py_index_singleton Y) as [y ->]; [lia|done|].
  by exists x, y.
Qed.
End StdsFrames.

Lemma get_stds_expands_time_dependence_witness :
  let wd := Frames64.wd_default 2 in
  exists m,
    expert_knowledge
      (self (_get_stds Frames64.N Frames64.construct_array Frames64.pp_DataFrame
               Frames64.lstsq TiedDrivers.argsort Frames64.argsort_int
               Examples64.xy4 [(0, 0)] [(1, 0)] [] 0 "2xtau_max" 0 wd).2)
      = EkDict m /\
    forall k, m !! k =
      if (0 <=? k) && (k <? 2)
      then Some (PyList [PyStr TIME_DEPENDENT]) else None.
Proof.
  intros wd.
  apply (get_stds_expands_time_dependence Frames64.N Frames64.construct_array
           Frames64.pp_DataFrame Frames64.lstsq TiedDrivers.argsort
           Frames64.argsort_int Examples64.xy4 [(0, 0)] [(1, 0)] [] 0
           "2xtau_max" 0 wd); reflexivity.
Defined.

Lemma get_stds_ground_truth_witness :
  let wd := Frames64.wd_ground_truth in
  let run := _get_stds Frames64.N Frames64.construct_array Frames64.pp_DataFrame
               Frames64.lstsq TiedDrivers.argsort Frames64.argsort_int
               Examples64.xy4 [(0, 0)] [(1, 0)] [] 0 "2xtau_max" 0 wd in
  run.1 = Ok None /\
  (exists stds_dataframe c,
     Frames64.pp_DataFrame Frames64.gt_table = Ok stds_dataframe /\
     Frames64.construct_array stds_dataframe [(0, 0)] [(1, 0)] [] 0 None true
       "2xtau_max" 0 = Ok (Returned4 c) /\
     stds (self run.2) = Some (ca_array c)) /\
  expert_knowledge (self run.2) = EkVal PyNone /\
  data (self run.2) = None.
Proof.
  intros wd run.
  destruct (get_stds_ground_truth Frames64.N Frames64.construct_array
              Frames64.pp_DataFrame Frames64.lstsq TiedDrivers.argsort
              Frames64.argsort_int Examples64.xy4 [(0, 0)] [(1, 0)] [] 0
              "2xtau_max" 0 Frames64.gt_table None wd run.2 eq_refl eq_refl)
    as (_ & Hstds & Hek & Hdata).
  split; [reflexivity|]. split; [exact Hstds|]. split; [exact Hek|exact Hdata].
Defined.

Lemma get_array_rejects_multivariate_witness :
  let wd := Frames64.wd_default 2 in
  _get_array Frames64.N Frames64.construct_array Frames64.pp_DataFrame
      Frames64.lstsq TiedDrivers.argsort Frames64.argsort_int
      [(0, 0); (1, 0)] [(1, 0)] [] 0 "2xtau_max" 0 true wd
    = (Raise (ValueError "X and Y for par_corr_wls must be univariate."), wd).
Proof.
  intros wd. apply get_array_rejects_multivariate. left. simpl. lia.
Defined.

Lemma get_array_success_witness :
  let wd := Frames64.wd_default 2 in
  let run := _get_array Frames64.N Frames64.construct_array Frames64.pp_DataFrame
               Frames64.lstsq TiedDrivers.argsort Frames64.argsort_int
               [(0, 0)] [(1, 0)] [] 0 "2xtau_max" 0 true wd in
  exists c,
    run.1 = Ok c /\
    Frames64.construct_array Frames64.values [(0, 0)] [(1, 0)] [] 0 None true
      "2xtau_max" 0 = Ok (Returned4 c) /\
    (exists s, stds (self run.2) = Some s /\ length s = 2%nat /\
       Forall (fun row => Z.of_nat (length row) = shape1 (ca_array c)) s) /\
    heap run.2 = heap wd /\ warnings run.2 = warnings wd.
Proof.
  intros wd run. eexists. split; [reflexivity|].
  eapply (get_array_success Frames64.N Frames64.construct_array
            Frames64.pp_DataFrame Frames64.lstsq TiedDrivers.argsort
            Frames64.argsort_int [(0, 0)] [(1, 0)] [] 0 "2xtau_max" 0 true _
            wd run.2); reflexivity.
Defined.

(** * What the residualizer touches *)

Section ResidualizerFrame.
Context {F : Type} `{Float64Ops F} {DF : Type}.
Variable lstsq : list (list F) -> list F -> result (list F).

Lemma lookup_stds_frame (target_var T : Z) (wd : World (F:=F) (DF:=DF)) :
  let wd' := (lookup_stds target_var T wd).2 in
  self wd' = self wd /\ heap wd' = heap wd /\
  exists ws, warnings wd' = warnings wd ++ ws.
Proof.
  cbv zeta. unfold lookup_stds. run_monad. unfold warn.
  destruct (stds (self wd)) as [s|]; simpl.
  - split; [done|]. split; [done|]. exists []. by rewrite app_nil_r.
  - split; [done|]. split; [done|]. by eexists.
Qed.

Lemma weighted_regression_frame (arr : nat) (T dim_z : Z) (s : list F)
    (target_var : Z) (return_means : bool) (wd : World (F:=F) (DF:=DF)) :
  (weighted_regression lstsq arr T dim_z s target_var return_means wd).2 = wd.
Proof.
  unfold weighted_regression. run_monad. unfold deref.
  repeat case_match; simplify_eq/=; done.
Qed.

(** X14: [_get_single_residuals] never writes to the object, and it writes
    to no array but the one it is handed; warnings are only appended.  With
    [standardize=False] no array is written at all.  All of this holds
    whether the call returns or raises. *)
Theorem get_single_residuals_frame (arr : nat) (target_var : Z)
    (standardize return_means : bool) (wd : World (F:=F) (DF:=DF)) :
  let wd' := (_get_single_residuals lstsq arr target_var standardize
                return_means wd).2 in
  let wd0 := (_get_single_residuals lstsq arr target_var false
                return_means wd).2 in
  self wd' = self wd /\
  (forall l, l <> arr -> heap wd' !! l = heap wd !! l) /\
  (exists ws, warnings wd' = warnings wd ++ ws) /\
  heap wd0 = heap wd.
Proof.
  assert (Hnil : exists ws, warnings wd = warnings wd ++ ws)
    by (exists []; by rewrite app_nil_r).
  assert (Hplain : forall st r w,
            _get_single_residuals lstsq arr target_var st return_means wd = (r, w) ->
            self w = self wd /\
            (forall l, l <> arr -> heap w !! l = heap wd !! l) /\
            (exists ws, warnings w = warnings wd ++ ws) /\
            (st = false -> heap w = heap wd)).
  { intros st r w. unfold _get_single_residuals.
    unfold bind at 1. unfold deref at 1.
    destruct (heap wd !! arr) as [a|] eqn:Harr; [|by intros [= <- <-]].
    destruct (fisnan (np_sum_all a)); [by intros [= <- <-]|].
    unfold bind at 1.
    pose proof (lookup_stds_frame target_var (shape1 a) wd) as (Hs1 & Hh1 & ws1 & Hw1).
    destruct (lookup_stds target_var (shape1 a) wd) as [[s|e] w1]; simpl in *.
    2:{ intros [= <- <-]. split; [done|]. split; [by rewrite Hh1|].
        split; [by eexists|done]. }
    unfold bind at 1. unfold when.
    destruct st.
    - destruct (standardize_in_place_run arr a w1) as (ws2 & ->);
        [by rewrite Hh1|].
      set (w2 := {| self := self w1; heap := <[arr:=standardized a]> (heap w1);
                    warnings := warnings w1 ++ ws2 |}).
      assert (Hw2 : self w2 = self wd /\
                (forall l, l <> arr -> heap w2 !! l = heap wd !! l) /\
                (exists ws, warnings w2 = warnings wd ++ ws) /\
                (true = false -> heap w2 = heap wd)).
      { split; [done|]. split.
        - intros l Hl. simpl. rewrite lookup_insert_ne by done. by rewrite Hh1.
        - split; [|done]. exists (ws1 ++ ws2). simpl. by rewrite Hw1, app_assoc. }
      destruct (fisnan (np_sum_all (standardized a))); [by intros [= <- <-]|].
      pose proof (weighted_regression_frame arr (shape1 a) (shape0 a - 2) s
                    target_var return_means w2) as Hf.
      destruct (weighted_regression _ _ _ _ _ _ _ w2) as [r' w']. simpl in Hf.
      subst w'. by intros [= <- <-].
    - unfold ret at 1.
      pose proof (weighted_regression_frame arr (shape1 a) (shape0 a - 2) s
                    target_var return_means w1) as Hf.
      destruct (weighted_regression _ _ _ _ _ _ _ w1) as [r' w']. simpl in Hf.
      subst w'. intros [= <- <-].
      split; [done|]. split; [by rewrite Hh1|]. split; [by eexists|done]. }
  intros wd' wd0.
  destruct (Hplain standardize _ _ (surjective_pairing _)) as (H1 & H2 & H3 & _).
  destruct (Hplain false _ _ (surjective_pairing _)) as (_ & _ & _ & H4).
  split; [done|]. split; [done|]. split; [done|]. by apply H4.
Qed.
End ResidualizerFrame.

(** * Returned residuals *)

Section ResidualizerNoNan.
Context {DF : Type}.
Variable lstsq : list (list spec_float) -> list spec_float -> result (list spec_float).

Lemma fisnan_nan (x : spec_float) : fisnan x = true -> x = S754_nan.
Proof. by destruct x. Qed.

Lemma sum_not_nan_entries (v : list spec_float) :
  fisnan (np_sum v) = false -> Forall (fun x => fisnan x = false) v.
Proof.
  intros Hsum. apply Forall_forall. intros x Hx.
  destruct (fisnan x) eqn:Ex; [|done].
  apply fisnan_nan in Ex. subst x.
  by rewrite (np_sum_nan v Hx) in Hsum.
Qed.

(** X15: with conditioning rows, a residual vector that is returned holds no
    NaN: the sum of the residuals is tested before returning, and a NaN
    entry makes that sum NaN. *)
Theorem returned_residuals_hold_no_nan (wd wd' : World (F:=spec_float) (DF:=DF))
    (arr : nat) (a : list (list spec_float)) (target_var : Z)
    (standardize return_means : bool) (out : resid_out spec_float) :
  heap wd !! arr = Some a ->
  2 < shape0 a ->
  _get_single_residuals lstsq arr target_var standardize return_means wd
    = (Ok out, wd') ->
  Forall (fun x => fisnan x = false) (resid_of out).
Proof.
  intros Harr Hdim. unfold _get_single_residuals.
  unfold bind at 1. unfold deref at 1. rewrite Harr.
  destruct (fisnan (np_sum_all a)); [done|].
  unfold bind at 1.
  destruct (lookup_stds target_var (shape1 a) wd) as [[s|e] w1]; [|done].
  unfold bind at 1.
  destruct (when standardize (standardize_in_place arr) w1) as [[[]|e] w2]; [|done].
  unfold weighted_regression.
  destruct (Z.ltb_spec 0 (shape0 a - 2)); [|lia].
  run_monad. unfold deref.
  repeat (case_match; try done).
  all: intros [= <- <-]; simpl; by apply sum_not_nan_entries.
Qed.
End ResidualizerNoNan.

Lemma returned_residuals_hold_no_nan_witness :
  let wd := Frames64.wd_unit_weights in
  let run := _get_single_residuals Frames64.lstsq 0 0 false false wd in
  exists out, run.1 = Ok out /\
    Forall (fun x => fisnan x = false) (resid_of out).
Proof.
  intros wd run.
  exists (match run.1 with Ok o => o | Raise _ => Resid [] end).
  split; [vm_compute; reflexivity|].
  apply (returned_residuals_hold_no_nan Frames64.lstsq wd run.2 0%nat
           Frames64.xyz 0 false false).
  - reflexivity.
  - reflexivity.
  - vm_compute. reflexivity.
Defined.

(** * Missing weights *)

Section MissingWeights.
Context {DF : Type}.
Variable lstsq : list (list R) -> list R -> result (list R).

(** X16: when [self.stds] is still [None] (the weights were never prepared)
    the lookup of the weights fails with [TypeError], which is caught: one
    warning is emitted and all weights are 1.  For arrays of real numbers
    and in exact arithmetic the call then returns the plain OLS residual of
    the (standardized, when asked) array; the warning comes before any
    warning of the standardization. *)
Theorem get_single_residuals_without_weights
    (wd : World (F:=R) (DF:=DF)) (arr : nat) (a : list (list R))
    (target_var : Z) (standardize return_means : bool) :
  heap wd !! arr = Some a ->
  rectangular a ->
  stds (self wd) = None ->
  let a' := if standardize then standardized a else a in
  exists ws,
    _get_single_residuals lstsq arr target_var standardize return_means wd
      = (ols_residuals lstsq a' target_var return_means,
         {| self := self wd; heap := <[arr := a']> (heap wd);
            warnings := warnings wd ++
              "No estimated or ground truth standard deviations supplied for weights. Assume homoskedasticity, i.e. all weights are 1."%string
              :: ws |}).
Proof.
  intros Harr Hrect Hstds a'.
  unfold _get_single_residuals, lookup_stds.
  unfold bind at 1. unfold deref at 1. rewrite Harr.
  change (fisnan (np_sum_all a)) with false. cbv iota.
  unfold bind at 1. unfold bind at 1. unfold get_self at 1.
  rewrite Hstds. unfold bind at 1. unfold warn at 1. unfold ret at 1.
  unfold bind at 1. unfold when. subst a'.
  set (ones := np_ones_nat (Z.to_nat (shape1 a))).
  assert (Hones : Z.of_nat (length ones) = shape1 a).
  { unfold ones, np_ones_nat. rewrite length_replicate. unfold shape1. lia. }
  destruct standardize.
  - match goal with
    | |- context [standardize_in_place arr ?w] =>
        destruct (standardize_in_place_run arr a w Harr) as (ws & ->)
    end.
    change (fisnan (np_sum_all (standardized a))) with false. cbv iota.
    exists ws. simpl self. simpl heap. simpl warnings.
    rewrite (weighted_regression_exact lstsq _ arr (standardized a) ones).
    + unfold ones. rewrite <- standardized_shape1.
      rewrite (weighted_residuals_unit_weights lstsq)
        by by apply standardized_rectangular.
      by rewrite <- app_assoc.
    + simpl. apply lookup_insert_eq.
    + by apply standardized_rectangular.
    + by rewrite standardized_shape1.
    + by rewrite standardized_shape1.
    + unfold shape0. by rewrite standardized_length.
  - unfold ret at 1. exists [].
    rewrite (weighted_regression_exact lstsq _ arr a ones); try done.
    unfold ones. rewrite (weighted_residuals_unit_weights lstsq) by done.
    simpl. by rewrite insert_id.
Qed.
End MissingWeights.

Lemma get_single_residuals_without_weights_witness :
  let wd : World (F:=R) (DF:=unit) :=
    {| self := __init__ None (EkDict ∅) 10 false tt None 0;
       heap := {[ 0%nat := DatasetR.xyz ]}; warnings := [] |} in
  exists ws,
    _get_single_residuals DatasetR.lstsq 0 1 false false wd
      = (ols_residuals DatasetR.lstsq DatasetR.xyz 1 false,
         {| self := self wd; heap := <[0%nat := DatasetR.xyz]> (heap wd);
            warnings := warnings wd ++
              "No estimated or ground truth standard deviations supplied for weights. Assume homoskedasticity, i.e. all weights are 1."%string
              :: ws |}).
Proof.
  intros wd.
  apply (get_single_residuals_without_weights DatasetR.lstsq wd 0%nat
           DatasetR.xyz 1 false false).
  - reflexivity.
  - repeat constructor.
  - reflexivity.
Defined.

(** * Moments of the standardized rows *)

Section Moments.
Local Open Scope R_scope.

Lemma np_sum_shift (m : R) (l : list R) :
  np_sum (map (fun x => x - m) l) = np_sum l - IZR (Z.of_nat (length l)) * m.
Proof.
  induction l as [|x l IH].
  - rewrite !np_sum_exact. unfold seq_sum. simpl. change (Z.of_nat 0) with 0%Z. lra.
  - cbn [map length]. rewrite !np_sum_cons, IH.
    rewrite Nat2Z.inj_succ, succ_IZR. lra.
Qed.

Lemma np_sum_scale (s : R) (l : list R) :
  np_sum (map (fun x => x / s) l) = np_sum l / s.
Proof.
  induction l as [|x l IH].
  - rewrite !np_sum_exact. unfold seq_sum, Rdiv. simpl. lra.
  - cbn [map]. rewrite !np_sum_cons, IH. unfold Rdiv. lra.
Qed.

Lemma length_ne_0 (l : list R) : l <> [] -> IZR (Z.of_nat (length l)) <> 0.
Proof.
  intros Hl. destruct l as [|x l]; [done|].
  apply not_0_IZR. simpl. lia.
Qed.

Lemma np_mean_center_row (l : list R) : l <> [] -> np_mean (center_row l) = 0.
Proof.
  intros Hl. pose proof (length_ne_0 l Hl) as Hn.
  unfold center_row, np_mean.
  change (fsub (F:=R)) with Rminus. change (fdiv (F:=R)) with Rdiv.
  change (of_int (F:=R)) with IZR.
  rewrite np_sum_shift, length_map. field. done.
Qed.

Lemma np_mean_scale (s : R) (l : list R) :
  np_mean (map (fun x => x / s) l) = np_mean l / s.
Proof.
  unfold np_mean. change (fdiv (F:=R)) with Rdiv.
  rewrite np_sum_scale, length_map. unfold Rdiv. ring.
Qed.

Lemma np_std_scale (l : list R) :
  np_mean l = 0 -> np_std l <> 0 ->
  np_std (map (fun x => x / np_std l) l) = 1.
Proof.
  intros Hmean Hstd.
  set (s := np_std l) in *.
  set (q := np_mean (map (fun x => (x - 0) * (x - 0)) l)).
  assert (Hs : s = sqrt q).
  { unfold s, np_std. rewrite Hmean. reflexivity. }
  assert (Hq : 0 < q).
  { destruct (Rlt_le_dec 0 q) as [|Hle]; [done|].
    exfalso. apply Hstd. rewrite Hs. by apply sqrt_neg_0. }
  assert (Hss : s * s = q) by (rewrite Hs; apply sqrt_sqrt; lra).
  unfold np_std at 1. rewrite np_mean_scale, Hmean.
  change (fsub (F:=R)) with Rminus. change (fmul (F:=R)) with Rmult.
  change (fsqrt (F:=R)) with sqrt.
  replace (0 / s) with 0 by (unfold Rdiv; lra).
  rewrite map_map.
  rewrite (map_ext _ (fun x => (x - 0) * (x - 0) / q)).
  2:{ intros x. rewrite <- Hss. field. done. }
  rewrite <- (map_map (fun x => (x - 0) * (x - 0)) (fun y => y / q)).
  rewrite np_mean_scale. fold q.
  replace (q / q) with 1 by (field; lra). apply sqrt_1.
Qed.

Lemma scale_center_row_moments (r : list R) :
  r <> [] ->
  let row := scale_row (center_row r) in
  np_mean row = 0 /\ (np_std row = 0 \/ np_std row = 1).
Proof.
  intros Hr row. subst row.
  pose proof (np_mean_center_row r Hr) as Hc.
  unfold scale_row.
  change (feqb (F:=R)) with Reqb. change (fzero (F:=R)) with 0.
  change (fdiv (F:=R)) with Rdiv.
  unfold Reqb. destruct (Req_dec_T (np_std (center_row r)) 0) as [E|E]; cbn [negb].
  - split; [done|]. by left.
  - split.
    + rewrite np_mean_scale, Hc. unfold Rdiv. lra.
    + right. by apply np_std_scale.
Qed.
End Moments.

Section Standardization.
Context {DF : Type}.
Local Open Scope R_scope.

(** X17: what the block under [if standardize:] leaves in the array, for
    arrays of real numbers and in exact arithmetic: every row (of at least
    one sample) has mean zero, and its standard deviation is one unless
    the row is constant, in which case it is zero.  The array keeps its
    number of rows. *)
Theorem standardization_centers_and_scales
    (wd : World (F:=R) (DF:=DF)) (arr : nat) (a : list (list R)) :
  heap wd !! arr = Some a ->
  exists a',
    heap (standardize_in_place arr wd).2 !! arr = Some a' /\
    length a' = length a /\
    forall (i : nat) (r row : list R),
      a !! i = Some r -> a' !! i = Some row -> r <> [] ->
      length row = length r /\
      np_mean row = 0 /\ (np_std row = 0 \/ np_std row = 1).
Proof.
  intros Harr.
  destruct (standardize_in_place_run arr a wd Harr) as (ws & ->).
  exists (standardized a). split; [simpl; apply lookup_insert_eq|].
  split; [apply standardized_length|].
  intros i r row Hr Hrow Hne.
  unfold standardized in Hrow. rewrite list_lookup_fmap, Hr in Hrow.
  injection Hrow as <-.
  split; [apply scale_center_length|].
  by apply scale_center_row_moments.
Qed.
End Standardization.

Lemma standardization_centers_and_scales_witness :
  let wd : World (F:=R) (DF:=unit) :=
    {| self := __init__ None (EkDict ∅) 10 false tt None 0;
       heap := {[ 0%nat := DatasetR.xyz ]}; warnings := [] |} in
  exists a',
    heap (standardize_in_place 0 wd).2 !! 0%nat = Some a' /\
    length a' = 3%nat /\
    forall (i : nat) (r row : list R),
      DatasetR.xyz !! i = Some r -> a' !! i = Some row -> r <> [] ->
      length row = length r /\
      np_mean row = 0%R /\ (np_std row = 0%R \/ np_std row = 1%R).
Proof.
  intros wd.
  apply (standardization_centers_and_scales wd 0%nat DatasetR.xyz).
  reflexivity.
Defined.

(** * The shuffle test *)

Section ShuffleTest.
Context {F : Type} `{Float64Ops F} {DF Sig : Type}.
Variable trafo2normal : list (list F) -> result (list (list F)).

(** X18: the override of the shuffle test calls the parent's method with
    [return_null_dist=False] whatever it was asked: its outcome depends on
    the parent's method only through what that method does when no null
    distribution is requested, and not on the flag it is given. *)
Theorem get_shuffle_significance_drops_flag
    (parent parent' : nat -> list Z -> F -> bool -> M (F:=F) (DF:=DF) Sig)
    (array : nat) (xyz : list Z) (value : F) (flag flag' : bool)
    (wd : World (F:=F) (DF:=DF)) :
  (forall a x v w, parent a x v false w = parent' a x v false w) ->
  get_shuffle_significance trafo2normal parent array xyz value flag wd
    = get_shuffle_significance trafo2normal parent' array xyz value flag' wd.
Proof.
  intros Hsame. unfold get_shuffle_significance.
  unfold bind, get_self.
  destruct (robustify (self wd)).
  - destruct (deref array wd) as [[a|e] w]; [|done].
    destruct (lift (trafo2normal a) w) as [[a'|e] w']; [|done].
    destruct (alloc a' w') as [[l|e] w'']; [|done]. apply Hsame.
  - unfold ret. apply Hsame.
Qed.
End ShuffleTest.

Lemma get_shuffle_significance_drops_flag_witness :
  let wd := Frames64.wd_unit_weights in
  get_shuffle_significance (Sig:=bool) (fun a => Ok a)
      (fun _ _ _ flag => ret flag) 0%nat [0; 1; 2] (Examples64.fl 1) true wd
    = get_shuffle_significance (Sig:=bool) (fun a => Ok a)
      (fun _ _ _ _ => ret false) 0%nat [0; 1; 2] (Examples64.fl 1) false wd.
Proof.
  intros wd.
  apply (get_shuffle_significance_drops_flag (fun a => Ok a)
           (fun _ _ _ flag => ret flag) (fun _ _ _ _ => ret false)).
  reflexivity.
Defined.

(** * The sign of the estimates *)

Section NonNegative.
Context {DF : Type}.
Variable lstsq : list (list R) -> list R -> result (list R).
Variable argsort : list R -> list Z.
Variable argsort_int : list Z -> list Z.
Local Open Scope R_scope.

Local Notation "'nonneg'" := (Forall (fun x : R => 0 <= x)%R).

Lemma vdot_nonneg (u v : list R) : nonneg u -> nonneg v -> 0 <= vdot u v.
Proof.
  intros Hu. revert v. induction Hu as [|x u Hx Hu IH]; intros v Hv.
  - unfold vdot, seq_sum. simpl. lra.
  - destruct Hv as [|y v Hy Hv]; [rewrite vdot_nil_r; lra|].
    rewrite vdot_cons. specialize (IH v Hv). nra.
Qed.

Lemma np_convolve_valid_nonneg (a v r : list R) :
  nonneg a -> nonneg v -> np_convolve_valid a v = Ok r -> nonneg r.
Proof.
  intros Ha Hv. unfold np_convolve_valid.
  destruct (_ || _); [done|].
  destruct (Nat.ltb (length a) (length v)); intros [= <-];
    apply Forall_fmap, Forall_forall; intros i _; simpl;
    apply vdot_nonneg;
    try (apply Forall_take, Forall_drop; done);
    by apply Forall_rev.
Qed.

Lemma smooth_nonneg (w : Z) (resid est : list R) :
  nonneg resid -> smooth w resid = Ok est -> nonneg est.
Proof.
  intros Hres. unfold smooth, np_ones.
  destruct (Z.ltb_spec (w - 1) 0) as [|Hw]; [done|].
  destruct (Z.ltb_spec w 0); [done|]. cbn [rbind].
  destruct (np_convolve_valid _ _) as [conv|e] eqn:Ec; [|done].
  cbn [rbind]. intros [= <-].
  apply np_convolve_valid_nonneg in Ec;
    [| done | apply Forall_replicate; simpl; lra].
  apply Forall_app. split.
  - apply Forall_replicate. simpl. lra.
  - apply Forall_fmap. eapply Forall_impl; [exact Ec|].
    intros x Hx. simpl.
    apply Rmult_le_pos; [done|].
    apply Rlt_le, Rinv_0_lt_compat, IZR_lt. lia.
Qed.

Lemma np_abs_nonneg (v : list R) : nonneg (np_abs v).
Proof.
  unfold np_abs. apply Forall_fmap, Forall_forall. intros x _. simpl.
  apply Rabs_pos.
Qed.

Lemma abs_ols_resid_nonneg (arr : list (list R)) (y resid : list R) :
  abs_ols_resid lstsq arr y = Ok resid -> nonneg resid.
Proof.
  unfold abs_ols_resid.
  destruct (lstsq _ y) as [beta|e]; [|done]. cbn [rbind].
  destruct (np_dot_mv _ beta) as [mean|e]; [|done]. cbn [rbind].
  intros [= <-]. apply np_abs_nonneg.
Qed.

Lemma fancy_index_Forall {A} (P : A -> Prop) (v r : list A) (idx : list Z) :
  Forall P v -> fancy_index v idx = Ok r -> Forall P r.
Proof.
  intros Hv. revert r. induction idx as [|i idx IH]; intros r.
  - by intros [= <-].
  - cbn [fancy_index].
    destruct (py_index v i) as [x|e] eqn:Ex; [|done]. cbn [rbind].
    destruct (fancy_index v idx) as [xs|e]; [|done]. cbn [rbind].
    intros [= <-]. constructor; [|by apply IH].
    apply py_index_Ok_lookup in Ex as (k & Hk & _).
    rewrite Forall_lookup in Hv. by eapply Hv.
Qed.

Lemma np_roll_Forall (P : R -> Prop) (v : list R) (k : Z) :
  Forall P v -> Forall P (np_roll v k).
Proof.
  intros Hv. unfold np_roll. destruct v as [|x v]; [done|].
  apply Forall_app. split; [by apply Forall_drop|by apply Forall_take].
Qed.

Lemma estimate_std_time_nonneg (arr : list (list R)) (target_var : Z)
    (wd wd' : World (F:=R) (DF:=DF)) (est : list R) :
  _estimate_std_time lstsq arr target_var wd = (Ok est, wd') -> nonneg est.
Proof.
  unfold _estimate_std_time, bind, lift, get_self.
  destruct (py_index arr target_var) as [y|e]; [|done].
  destruct (if (0 <? shape0 arr - 2)%Z then _ else _) as [resid|e] eqn:Er; [|done].
  assert (Hres : nonneg resid).
  { destruct (0 <? shape0 arr - 2)%Z.
    - by eapply abs_ols_resid_nonneg.
    - injection Er as <-. apply np_abs_nonneg. }
  destruct (smooth _ resid) as [est'|e] eqn:Es; [|done].
  intros [= <- <-]. by eapply smooth_nonneg.
Qed.

Lemma estimate_std_parent_nonneg (arr : list (list R)) (target_var target_lag : Z)
    (Hs : pyval) (wd wd' : World (F:=R) (DF:=DF)) (est : list R) :
  _estimate_std_parent lstsq argsort argsort_int arr target_var target_lag Hs wd
    = (Ok est, wd') ->
  nonneg est.
Proof.
  unfold _estimate_std_parent, bind, lift, get_self, ret.
  destruct (py_index arr target_var) as [y|e]; [|done].
  destruct (0 <? shape0 arr - 2)%Z.
  - destruct (abs_ols_resid lstsq arr y) as [resid|e] eqn:Er; [|done].
    apply abs_ols_resid_nonneg in Er.
    destruct (py_getitem Hs 1) as [H1|e]; [|done].
    destruct (py_add_int H1 target_lag) as [lag|e]; [|done].
    destruct (py_getitem Hs 0) as [H0|e]; [|done].
    destruct (data_row_slice _ H0 _ lag) as [h|e]; [|done].
    destruct (sort_residuals resid lag _) as [sorted|e] eqn:Eso; [|done].
    unfold sort_residuals in Eso.
    apply fancy_index_Forall with (P := fun x => 0 <= x) in Eso;
      [| unfold py_slice_from; by apply Forall_drop].
    destruct (smooth _ sorted) as [vs|e] eqn:Esm; [|done].
    apply smooth_nonneg in Esm; [|done].
    destruct (fancy_index vs _) as [std_est|e] eqn:Efi; [|done].
    apply fancy_index_Forall with (P := fun x => 0 <= x) in Efi; [|done].
    intros [= <- <-]. apply np_roll_Forall, Forall_app. split; [done|].
    apply Forall_replicate. simpl. lra.
  - destruct (smooth _ (np_abs y)) as [est'|e] eqn:Es; [|done].
    intros [= <- <-]. eapply smooth_nonneg; [|exact Es]. apply np_abs_nonneg.
Qed.

Lemma estimate_row_nonneg (array : list (list R)) (count : Z) (variable : node)
    (stds stds' : list (list R)) (wd wd' : World (F:=R) (DF:=DF)) :
  Forall nonneg stds ->
  estimate_row lstsq argsort argsort_int array count variable stds wd
    = (Ok stds', wd') ->
  Forall nonneg stds'.
Proof.
  intros Hstds. unfold estimate_row.
  unfold bind at 1. unfold get_self at 1.
  unfold bind at 1. unfold lift at 1.
  destruct (ek_contains _ _) as [[|]|e]; try done;
    [|unfold ret; by intros [= <- <-]].
  unfold bind at 1. unfold lift at 1.
  destruct (ek_lookup _ _) as [entry|e]; [|done].
  unfold bind at 1. unfold lift at 1.
  destruct (py_getitem entry 0) as [hs|e]; [|done].
  assert (Hstore : forall est row a, nonneg est ->
            broadcast_row (Z.to_nat (shape1 array)) est = Ok row ->
            assign_row stds count row = Ok a -> Forall nonneg a).
  { intros est row a Hest Hb Ha.
    assert (Hrow : nonneg row).
    { revert Hb. unfold broadcast_row. destruct (Nat.eqb _ _); [by intros [= <-]|].
      destruct est as [|x [|? ?]]; [done| |done].
      intros [= <-]. apply Forall_replicate. by inversion Hest. }
    revert Ha. unfold assign_row. destruct (_ || _); [done|].
    intros [= <-]. by apply Forall_insert. }
  destruct (py_eq_str hs TIME_DEPENDENT).
  - unfold bind at 1.
    destruct (_estimate_std_time lstsq array count wd) as [[est|e] w] eqn:Ee; [|done].
    apply estimate_std_time_nonneg in Ee.
    unfold bind, lift.
    destruct (broadcast_row _ est) as [row|e] eqn:Eb; [|done].
    destruct (assign_row stds count row) as [a|e] eqn:Ea; [|done].
    intros [= <- <-]. by eapply Hstore.
  - destruct (py_is_tuple hs); [|unfold ret; by intros [= <- <-]].
    unfold bind at 1.
    destruct (_estimate_std_parent _ _ _ _ _ _ _ wd) as [[est|e] w] eqn:Ee; [|done].
    apply estimate_std_parent_nonneg in Ee.
    unfold bind, lift.
    destruct (broadcast_row _ est) as [row|e] eqn:Eb; [|done].
    destruct (assign_row stds count row) as [a|e] eqn:Ea; [|done].
    intros [= <- <-]. by eapply Hstore.
Qed.

(** X20: for arrays of real numbers and in exact arithmetic, no entry of an
    estimated matrix of standard deviations is negative: every entry is a
    1 or a mean of absolute residuals.  An entry can be zero (a window of
    zero residuals); nothing keeps the estimate away from zero. *)
Theorem estimated_stds_are_nonnegative (array : list (list R)) (X Y : list node)
    (wd wd' : World (F:=R) (DF:=DF)) (stds : list (list R)) :
  _get_std_estimation lstsq argsort argsort_int array X Y wd = (Ok stds, wd') ->
  Forall (Forall (fun x => 0 <= x)) stds.
Proof.
  unfold _get_std_estimation.
  unfold bind at 1. unfold lift at 1. destruct (py_index X 0) as [x0|e]; [|done].
  unfold bind at 1. unfold lift at 1. destruct (py_index Y 0) as [y0|e]; [|done].
  unfold bind at 1.
  destruct (estimate_row _ _ _ _ 0%Z x0 _ wd) as [[s|e] w] eqn:Ex; [|done].
  apply estimate_row_nonneg in Ex;
    [| repeat constructor; apply Forall_replicate; simpl; lra].
  unfold bind at 1.
  destruct (estimate_row _ _ _ _ 1%Z y0 _ w) as [[s'|e] w'] eqn:Ey; [|done].
  apply estimate_row_nonneg in Ey; [|done].
  unfold ret. by intros [= <- <-].
Qed.
End NonNegative.

Lemma estimated_stds_are_nonnegative_witness :
  let wd : World (F:=R) (DF:=unit) :=
    {| self := __init__ None (EkDict {[ 0 := PyList [PyStr TIME_DEPENDENT] ]})
                 2 false tt None 0;
       heap := ∅; warnings := [] |} in
  let run := _get_std_estimation DatasetR.lstsq DatasetR.argsort
               DatasetR.argsort_int DatasetR.xyz [(0, 0)] [(0, 0)] wd in
  exists stds, run.1 = Ok stds /\ Forall (Forall (fun x => 0 <= x)%R) stds.
Proof.
  intros wd run. eexists. split; [reflexivity|].
  apply (estimated_stds_are_nonnegative DatasetR.lstsq DatasetR.argsort
           DatasetR.argsort_int DatasetR.xyz [(0, 0)] [(0, 0)] wd run.2).
  reflexivity.
Defined.
